(** * Parabola: material buckets, shader variants, vertex packing,
      scene building and the render passes

    A shallow embedding of [js/mtrl.js] (materials and the shader variant
    builder that follows it in the same file), of the mesh module and of
    [src/solid-model.js], with the properties of the specification stated
    over it.

    Conventions of the embedding.
    - A flag word is an integer ([Z]); the JavaScript operators [&], [|],
      [<<] and [>>] first wrap their operands to 32 bits ([ToInt32]).
    - A JavaScript number that carries a coordinate, a colour or a time is
      idealised as a real number ([R]): no statement below depends on
      rounding, and [NaN] and the infinities are left out.
    - An object whose property set changes at run time keeps its
      constructor's properties as record fields and every other property in
      a finite map from names to values.
    - Calls issued against the graphics API are collected, in issue order,
      in a trace. *)

From Stdlib Require Import ZArith Reals Lra Lia List Bool.
From stdpp Require Import gmap strings list fin_maps.

Local Open Scope Z_scope.

(** ** JavaScript values and 32-bit operators *)

Module Js.

(** The values a dynamically added property holds in this program. *)
Inductive JsVal :=
| JUndefined
| JNull
| JBool (b : bool)
| JNum (z : Z).


(** [ToInt32] on an integer: wrap into [-2^31, 2^31). *)
Definition wrap32 (z : Z) : Z := (z + 2 ^ 31) mod 2 ^ 32 - 2 ^ 31.

(** [ToInt32] on a value: [undefined] is [NaN], which converts to 0. *)
Definition ToInt32 (v : JsVal) : Z :=
  match v with
  | JUndefined | JNull => 0
  | JBool b => if b then 1 else 0
  | JNum z => wrap32 z
  end.

(** [a & b], [a | b], [a << n] and [a >> n] on integers. *)
Definition band (a b : Z) : Z := Z.land (wrap32 a) (wrap32 b).
Definition bor (a b : Z) : Z := Z.lor (wrap32 a) (wrap32 b).
Definition shl (a n : Z) : Z := wrap32 (Z.shiftl (wrap32 a) (n mod 32)).
Definition shr (a n : Z) : Z := Z.shiftr (wrap32 a) (n mod 32).

(** The same operators with an operand that is an arbitrary value. *)
Definition band_val (a : Z) (v : JsVal) : Z := Z.land (wrap32 a) (ToInt32 v).
Definition val_band (v : JsVal) (b : Z) : Z := Z.land (ToInt32 v) (wrap32 b).

(** Reading a property that may be absent. *)
Definition get (o : gmap string JsVal) (k : string) : JsVal :=
  default JUndefined (o !! k).

End Js.

(** ** Vectors and matrices ([gl-matrix]) *)

Record Vec2 := vec2 { s0 : R; s1 : R }.
Record Vec3 := vec3 { x0 : R; x1 : R; x2 : R }.
Record Quat := quat { q0 : R; q1 : R; q2 : R; q3 : R }.

(** A 4x4 matrix is a [Float32Array] of 16 entries, column after column. *)
Definition Mat4 := list R.

(** A property that holds a 3-vector at one place and a bare number at
    another. *)
Inductive NumOrVec3 :=
| IsVec3 (v : Vec3)
| IsNum (r : R).

Module glm.

Definition vec3_create : Vec3 := vec3 0 0 0.
Definition vec3_fromValues (x y z : R) : Vec3 := vec3 x y z.
(** [vec3.set(out, x, y, z)] and [vec3.copy(out, a)]: the new content of [out]. *)
Definition vec3_set (x y z : R) : Vec3 := vec3 x y z.
Definition vec3_copy (a : Vec3) : Vec3 := a.
Definition quat_create : Quat := quat 0 0 0 1.

Definition mat4_create : Mat4 :=
  [1; 0; 0; 0;  0; 1; 0; 0;  0; 0; 1; 0;  0; 0; 0; 1]%R.

(** [mat4.set(out, m00, ..., m33)]: the new content of [out]. *)
Definition mat4_set (m00 m01 m02 m03 m10 m11 m12 m13
                     m20 m21 m22 m23 m30 m31 m32 m33 : R) : Mat4 :=
  [m00; m01; m02; m03; m10; m11; m12; m13;
   m20; m21; m22; m23; m30; m31; m32; m33].

(** The matrix operations the core calls without looking inside. Each one
    returns the new content of its [out] argument. *)
Class Ops := {
  mat4_rotateX : Mat4 -> R -> Mat4;
  mat4_rotateY : Mat4 -> R -> Mat4;
  mat4_rotateZ : Mat4 -> R -> Mat4;
  mat4_scale : Mat4 -> Vec3 -> Mat4;
  mat4_multiply : Mat4 -> Mat4 -> Mat4;
  mat4_fromRotationTranslation : Quat -> Vec3 -> Mat4;
  mat4_fromRotationTranslationScale : Quat -> Vec3 -> NumOrVec3 -> Mat4
}.

End glm.

(** ** The graphics API: calls and their trace *)

(** Handles and images are created by the graphics and image-fetch
    collaborators; the core only passes them around. *)
Definition Texture := nat.
Definition Buffer := nat.
Definition Image := nat.
Definition Location := nat.

(** A [Float32Array]. *)
Definition F32Array := list R.

Module Gl.

Inductive enum :=
| TEXTURE_2D | TEXTURE_WRAP_S | TEXTURE_WRAP_T
| TEXTURE_MAG_FILTER | TEXTURE_MIN_FILTER
| CLAMP_TO_EDGE | REPEAT | LINEAR | LINEAR_MIPMAP_LINEAR
| RGBA | UNSIGNED_BYTE | FLOAT
| SRC_ALPHA | ONE | ONE_MINUS_SRC_ALPHA
| CULL_FACE | POLYGON_OFFSET_FILL | DEPTH_TEST
| ARRAY_BUFFER | STATIC_DRAW | TRIANGLES.

(** One call on [gl] (or, for [enableArray], on [state] with [gl]). A
    [create*] call is recorded with the handle it returned. *)
Inductive call :=
| createTexture (ret : Texture)
| bindTexture (target : enum) (tex : option Texture)
| texParameteri (target pname param : enum)
| texImage2D (target : enum) (level : Z) (ifmt fmt type : enum) (img : Image)
| generateMipmap (target : enum)
| uniform4fv (loc : Location) (v : F32Array)
| uniform1f (loc : Location) (x : option R)
| uniform1i (loc : Location) (x : Z)
| uniformMatrix4fv (loc : Location) (transpose : bool) (m : Mat4)
| blendFunc (sfactor dfactor : enum)
| enable (cap : enum)
| disable (cap : enum)
| polygonOffset (factor units : R)
| depthMask (flag : bool)
| createBuffer (ret : Buffer)
| bindBuffer (target : enum) (buf : option Buffer)
| bufferData (target : enum) (data : option F32Array) (usage : enum)
| vertexAttribPointer (index : Location) (size : Z) (type : enum)
    (normalized : bool) (stride offset : Z)
| drawArrays (mode : enum) (first : Z) (count : nat)
| enableArray (index : Location).

(** A computation against the API: the calls it issued, and its value
    unless it threw (a [TypeError] on a property of [null]). *)
Record M (A : Type) := mkM { result : option A; trace : list call }.
Arguments mkM {A} _ _.
Arguments result {A} _.
Arguments trace {A} _.

Definition ret {A} (x : A) : M A := mkM (Some x) [].
Definition throw {A} : M A := mkM None [].
Definition issue (c : call) : M unit := mkM (Some tt) [c].

Definition bind {A B} (m : M A) (k : A -> M B) : M B :=
  match result m with
  | None => mkM None (trace m)
  | Some x => let r := k x in mkM (result r) (trace m ++ trace r)
  end.

(** [if (c) { m }] *)
Definition when (c : bool) (m : M unit) : M unit := if c then m else ret tt.

(** [for (var i = 0; i < l.length; ++i) body(l[i])] *)
Fixpoint for_each {A} (l : list A) (body : A -> M unit) : M unit :=
  match l with
  | [] => ret tt
  | x :: l' => bind (body x) (fun _ => for_each l' body)
  end.

(** [o.p] where [o] may be [null]. *)
Definition deref {A} (o : option A) : M A :=
  match o with
  | Some x => ret x
  | None => throw
  end.

End Gl.

Declare Scope gl_scope.
Delimit Scope gl_scope with gl.
Notation "x <- m ;; k" := (Gl.bind m (fun x => k))
  (at level 100, m at next level, k at level 200, right associativity) : gl_scope.
Notation "m ;;; k" := (Gl.bind m (fun _ => k))
  (at level 100, k at level 200, right associativity) : gl_scope.

(** The fields of the render state object that the core reads. *)
Record State := {
  enableTextures : bool;
  defaultTexture : option Texture;
  uDiffuse : Location;
  uAmbient : Location;
  uSpecular : Location;
  uEmissive : Location;
  uShininess : Location;
  uEnvironment : Location;
  uModelID : Location;
  uPositionID : Location;
  aPositionID : Location;
  aNormalID : Location;
  aTexCoordID : Location
}.


(** ** Materials ([js/mtrl.js]) *)

Module Mtrl.

Record t := mk {
  d : F32Array;
  a : F32Array;
  s : F32Array;
  e : F32Array;
  h : F32Array;
  fl : Z;
  f : string;
  alpha_func : Z;
  alpha_ref : R;
  tex : option Texture;
  (* properties other than the ten the constructor assigns *)
  props : gmap string Js.JsVal
}.

(** [var Mtrl = function () { ... }]: the constructor has no parameter and
    reads no argument. *)
Definition new {A : Type} (_ : A) : t :=
  {| d := [0.8; 0.8; 0.8; 1.0]%R;
     a := [0.2; 0.2; 0.2; 1.0]%R;
     s := [0; 0; 0; 1]%R;
     e := [0; 0; 0; 1]%R;
     h := [0]%R;
     fl := 0;
     f := "";
     alpha_func := 0;
     alpha_ref := 0.0%R;
     tex := None;
     props := ∅ |}.

(** Field updates. *)
Definition with_fl (w : Z) (this : t) : t :=
  mk (d this) (a this) (s this) (e this) (h this) w (f this)
     (alpha_func this) (alpha_ref this) (tex this) (props this).
Definition with_alpha_func (k : Z) (this : t) : t :=
  mk (d this) (a this) (s this) (e this) (h this) (fl this) (f this)
     k (alpha_ref this) (tex this) (props this).
Definition with_tex (x : option Texture) (this : t) : t :=
  mk (d this) (a this) (s this) (e this) (h this) (fl this) (f this)
     (alpha_func this) (alpha_ref this) x (props this).
Definition with_props (p : gmap string Js.JsVal) (this : t) : t :=
  mk (d this) (a this) (s this) (e this) (h this) (fl this) (f this)
     (alpha_func this) (alpha_ref this) (tex this) p.

(** Material type flags. *)
Definition PARTICLE := Js.shl 1 10.
Definition ALPHA_TEST := Js.shl 1 9.
Definition REFLECTIVE := Js.shl 1 8.
Definition TRANSPARENT := Js.shl 1 7.
Definition SHADOWED := Js.shl 1 6.
Definition DECAL := Js.shl 1 5.
Definition ENVIRONMENT := Js.shl 1 4.
Definition TWO_SIDED := Js.shl 1 3.
Definition ADDITIVE := Js.shl 1 2.
Definition CLAMP_S := Js.shl 1 1.
Definition CLAMP_T := Js.shl 1 0.

(** [Mtrl.LIT] is read by the shader builder but assigned nowhere: the
    property read yields [undefined]. *)
Definition LIT : Js.JsVal := Js.JUndefined.


(** Material sorting rules. *)
Record rules := { r_in : Z; r_ex : Z }.

Definition opaqueRules :=
  {| r_in := 0; r_ex := Js.bor (Js.bor REFLECTIVE TRANSPARENT) DECAL |}.
Definition opaqueDecalRules :=
  {| r_in := DECAL; r_ex := Js.bor REFLECTIVE TRANSPARENT |}.
Definition transparentDecalRules :=
  {| r_in := Js.bor DECAL TRANSPARENT; r_ex := REFLECTIVE |}.
Definition transparentRules :=
  {| r_in := TRANSPARENT; r_ex := Js.bor REFLECTIVE DECAL |}.
Definition reflectiveRules :=
  {| r_in := REFLECTIVE; r_ex := 0 |}.

Definition test (this : t) (rs : rules) : bool :=
  (Js.band (fl this) (r_in rs) =? r_in rs) && (Js.band (fl this) (r_ex rs) =? 0).

Definition isOpaque (this : t) : bool := test this opaqueRules.
Definition isOpaqueDecal (this : t) : bool := test this opaqueDecalRules.
Definition isTransparentDecal (this : t) : bool := test this transparentDecalRules.
Definition isTransparent (this : t) : bool := test this transparentRules.
Definition isReflective (this : t) : bool := test this reflectiveRules.

(** [this.fl & FLAG] used as a condition. *)
Definition has (this : t) (flag : Z) : bool := negb (Js.band (fl this) flag =? 0).

(** Create a GL texture from the given image. [fresh] is the handle that
    [gl.createTexture()] returns. *)
Definition createTexture (this : t) (fresh : Texture) (img : Image) : t * list Gl.call :=
  (with_tex (Some fresh) this,
   [ Gl.createTexture fresh;
     Gl.bindTexture Gl.TEXTURE_2D (Some fresh);
     Gl.texParameteri Gl.TEXTURE_2D Gl.TEXTURE_WRAP_S
       (if has this CLAMP_S then Gl.CLAMP_TO_EDGE else Gl.REPEAT);
     Gl.texParameteri Gl.TEXTURE_2D Gl.TEXTURE_WRAP_T
       (if has this CLAMP_T then Gl.CLAMP_TO_EDGE else Gl.REPEAT);
     Gl.texParameteri Gl.TEXTURE_2D Gl.TEXTURE_MAG_FILTER Gl.LINEAR;
     Gl.texParameteri Gl.TEXTURE_2D Gl.TEXTURE_MIN_FILTER Gl.LINEAR_MIPMAP_LINEAR;
     Gl.texImage2D Gl.TEXTURE_2D 0 Gl.RGBA Gl.RGBA Gl.UNSIGNED_BYTE img;
     Gl.generateMipmap Gl.TEXTURE_2D;
     Gl.bindTexture Gl.TEXTURE_2D None ]).

(** Apply material state. *)
Definition draw (this : t) (state : State) : Gl.M unit :=
  ((if enableTextures state && bool_decide (is_Some (tex this))
    then Gl.issue (Gl.bindTexture Gl.TEXTURE_2D (tex this))
    else Gl.issue (Gl.bindTexture Gl.TEXTURE_2D (defaultTexture state))) ;;;
   Gl.issue (Gl.uniform4fv (uDiffuse state) (d this)) ;;;
   Gl.issue (Gl.uniform4fv (uAmbient state) (a this)) ;;;
   Gl.issue (Gl.uniform4fv (uSpecular state) (s this)) ;;;
   Gl.issue (Gl.uniform4fv (uEmissive state) (e this)) ;;;
   Gl.issue (Gl.uniform1f (uShininess state) (h this !! 0%nat)) ;;;
   (if has this ENVIRONMENT
    then Gl.issue (Gl.uniform1i (uEnvironment state) 1)
    else Gl.issue (Gl.uniform1i (uEnvironment state) 0)) ;;;
   (if has this ADDITIVE
    then Gl.issue (Gl.blendFunc Gl.SRC_ALPHA Gl.ONE)
    else Gl.issue (Gl.blendFunc Gl.SRC_ALPHA Gl.ONE_MINUS_SRC_ALPHA)) ;;;
   (if has this TWO_SIDED
    then Gl.issue (Gl.disable Gl.CULL_FACE)
    else Gl.issue (Gl.enable Gl.CULL_FACE)) ;;;
   (if has this DECAL
    then Gl.issue (Gl.enable Gl.POLYGON_OFFSET_FILL) ;;;
         Gl.issue (Gl.polygonOffset (-1.0) (-2.0))
    else Gl.issue (Gl.polygonOffset 0.0 0.0) ;;;
         Gl.issue (Gl.disable Gl.POLYGON_OFFSET_FILL)))%gl.


Section Loading.

(** [mtrl-images.json]: material name to image path. *)
Variable mtrlImages : gmap string string.




End Loading.

End Mtrl.

(** ** Shader variants (second module of [js/mtrl.js]) *)

Module Shader.

(** One call on a shader graph under construction. *)
#[warnings="-register-all"] Inductive op :=
| fan
| next
| end_
| require (key : string)
| pipe (key : string) (uniforms : option (list (string * string)))
| pipe_graph (g : list op).

(** What [Shader(mtrl)] returns, as far as the core decides it: the
    signature and the two graphs handed to the linker. *)
Record t := {
  shaderFlags : Z;
  fragment : list op;
  vertex : list op;
  uniforms : gmap string (list (string * string))
}.

(** Features that a shader implements. Together these form the signature
    of a shader. *)
Definition LIT := Js.shl 1 0.
Definition ENVIRONMENT := Js.shl 1 1.
Definition ALPHA_TEST := Js.shl 7 2.

Definition alphaFuncFromShaderFlags (flags : Z) : Z := Js.band (Js.shr flags 2) 7.
Definition shaderFlagsFromAlphaFunc (index : Js.JsVal) : Z :=
  Js.shl (Js.val_band index 7) 2.

(** Alpha function snippets by index. *)
Definition alphaFuncSnippets : list (option string) :=
  [ None;
    Some "testEqual";
    Some "testGequal";
    Some "testGreater";
    Some "testLequal";
    Some "testLess";
    Some "testNever";
    Some "testNotEqual" ].

(** [alphaFuncSnippets[i]]: [undefined] outside the array as well. *)
Definition alphaFuncSnippet (i : Z) : option string :=
  if i <? 0 then None else mjoin (alphaFuncSnippets !! Z.to_nat i).

(** Gather shader flags from a SOL material. The material's properties
    read here are [fl] and [alphaFunc]; the latter is not one the
    constructor assigns. *)
Definition shaderFlagsFromMtrl (mtrl : Mtrl.t) : Z :=
  let flags := 0 in
  let flags :=
    if negb (Js.band_val (Mtrl.fl mtrl) Mtrl.LIT =? 0)
    then Js.bor flags LIT else flags in
  let flags :=
    if negb (Js.band (Mtrl.fl mtrl) Mtrl.ALPHA_TEST =? 0)
    then Js.bor flags (shaderFlagsFromAlphaFunc (Js.get (Mtrl.props mtrl) "alphaFunc"))
    else flags in
  let flags :=
    if negb (Js.band (Mtrl.fl mtrl) Mtrl.ENVIRONMENT =? 0)
    then Js.bor flags ENVIRONMENT else flags in
  flags.

Definition uniforms_init : gmap string (list (string * string)) :=
  {[ "mainTexture" := [("Texture", "i")];
     "transform" := [("ModelViewMatrix", "mat4"); ("ProjMatrix", "mat4");
                     ("NormalMatrix", "mat3")];
     "alphaTest" := [("AlphaRef", "f")] ]}.

(** The fragment graph for a signature. *)
Definition build_fragment (shaderFlags : Z)
    (uniforms : gmap string (list (string * string))) : list op :=
  (if negb (Js.band shaderFlags LIT =? 0) then
     [ fan;
       pipe "frag.getTexCoord" None;
       pipe "sampleTexture" (uniforms !! "texture");
       next;
       pipe "frag.getLightColor" None;
       end_;
       pipe "multiply" None ]
   else
     [ pipe "frag.getTexCoord" None;
       pipe "sampleTexture" (uniforms !! "texture") ])
  ++
  (if negb (Js.band shaderFlags ALPHA_TEST =? 0) then
     match alphaFuncSnippet (alphaFuncFromShaderFlags shaderFlags) with
     | Some alphaFunc =>
         [ require alphaFunc;
           pipe "frag.alphaTest" (uniforms !! "alphaTest") ]
     | None => []
     end
   else [])
  ++
  [ pipe "frag.setFragColor" None ].

(** The vertex graph for a signature. *)
Definition build_vertex (shaderFlags : Z)
    (uniforms : gmap string (list (string * string))) : list op :=
  let texCoordGraph :=
    if negb (Js.band shaderFlags ENVIRONMENT =? 0) then
      [ pipe "vert.getNormal" None;
        pipe "viewNormal" (uniforms !! "transform");
        pipe "genSphereMapCoords" None;
        pipe "vert.setTexCoord" None ]
    else
      [ pipe "vert.getTexCoord" None;
        pipe "vert.setTexCoord" None ] in
  [ pipe "vert.getPosition" None;
    pipe "viewVertex" (uniforms !! "transform");
    fan;
    pipe "projVertex" (uniforms !! "transform");
    pipe "vert.setPosition" None;
    next;
    pipe_graph texCoordGraph;
    end_ ].

(** Build shaders and uniforms for the given material. *)
Definition Shader (mtrl : Mtrl.t) : t :=
  let shaderFlags := shaderFlagsFromMtrl mtrl in
  let uniforms := uniforms_init in
  {| shaderFlags := shaderFlags;
     fragment := build_fragment shaderFlags uniforms;
     vertex := build_vertex shaderFlags uniforms;
     uniforms := uniforms |}.

(** *** Snippet library *)

(** A template literal, line by line. *)
Definition nl : string := String (Ascii.ascii_of_nat 10) EmptyString.
Definition glsl (lines : list string) : string := String.concat nl lines.

(** Make a snippet for a binary operation. [retType] defaults to
    [valType]. *)
Definition binaryOp (expr valType : string) (retType : option string) : string :=
  let retType := default valType retType in
  retType +:+ " binaryOp(" +:+ valType +:+ " a, " +:+ valType
    +:+ " b) { return " +:+ expr +:+ "; }".

Definition fragSnippets : gmap string string :=
  list_to_map [
    ("getTexCoord",
       glsl ["";
         "  varying vec2 vTexCoord;";
         "  vec2 getTexCoord() { return vTexCoord; }"]);
    ("getLightColor",
       glsl ["";
         "  varying vec4 vLightColor;";
         "  vec4 getLightColor() { return vLightColor; }"]);
    ("alphaTest",
       glsl ["";
         "  uniform float AlphaRef;";
         "";
         "  bool alphaFunc(float alpha, float ref);";
         "  vec4 alphaTest(vec4 color) {";
         "    if (!alphaFunc(color.a, ref))";
         "      discard;";
         "    return color;";
         "  }"]);
    ("setFragColor",
       glsl ["";
         "  void setFragColor(vec4 color) { gl_FragColor = color; }"]) ].

Definition vertSnippets : gmap string string :=
  list_to_map [
    ("getPosition",
       glsl ["";
         "  attribute vec3 aPosition;";
         "  vec4 getPosition() { return vec4(aPosition, 1.0); }"]);
    ("getNormal",
       glsl ["";
         "  attribute vec3 aNormal;";
         "  vec3 getNormal() { return aNormal; }"]);
    ("getTexCoord",
       glsl ["";
         "  attribute vec2 aTexCoord;";
         "  vec2 getTexCoord() { return aTexCoord; }"]);
    ("setPosition",
       glsl ["";
         "  void setPosition(vec4 v) { gl_Position = v; }";
         "  "]);
    ("setTexCoord",
       glsl ["";
         "  varying vec2 vTexCoord;";
         "  void setTexCoord(vec2 uv) { vTexCoord = uv; }"]);
    ("setLightColor",
       glsl ["";
         "  varying vec4 vLightColor;";
         "  void setLightColor(vec4 color) { vLightColor = color; }"]) ].

Definition glslSnippets : gmap string string :=
  list_to_map [
    ("multiply",
       binaryOp "a * b" "vec4" None);
    ("sampleTexture",
       glsl ["";
         "  uniform sampler2D Texture;";
         "  vec4 sampleTexture(vec2 uv) { return texture2D(Texture, uv); }"]);
    ("genSphereMapCoords",
       glsl ["";
         "  vec2 genSphereMapCoords(vec3 u, vec3 n) {";
         "    vec3 r = u - 2.0 * n * (n * u);";
         "    r.z += 1.0;";
         "    float m = 2.0 * length(r);";
         "    return vec2(r.x / m + 0.5, r.y / m + 0.5);";
         "  }";
         "  vec2 genSphereMapCoords(vec4 u, vec3 n) {";
         "    return genSphereMapCoords(vec3(u), n);";
         "  }"]);
    ("viewVertex",
       glsl ["";
         "  uniform mat4 ModelViewMatrix;";
         "  vec4 viewVertex(vec4 v) { return ModelViewMatrix * v; }"]);
    ("viewNormal",
       glsl ["";
         "  uniform mat3 NormalMatrix;";
         "  vec3 viewNormal(vec3 n) { return NormalMatrix * n; }"]);
    ("projVertex",
       glsl ["";
         "  uniform mat4 ProjMatrix;";
         "  vec4 projVertex(vec4 v) { return ProjMatrix * v; }"]);
    ("testEqual",
       binaryOp "a == b" "float" (Some "bool"));
    ("testGequal",
       binaryOp "a >= b" "float" (Some "bool"));
    ("testGreater",
       binaryOp "a > b" "float" (Some "bool"));
    ("testLequal",
       binaryOp "a <= b" "float" (Some "bool"));
    ("testLess",
       binaryOp "a < b" "float" (Some "bool"));
    ("testNever",
       binaryOp "false" "float" (Some "bool"));
    ("testNotEqual",
       binaryOp "a != b" "float" (Some "bool")) ].

(** [fetchSnippet(key)]: the table is chosen by the prefix of the key,
    which is cut off before the lookup; [None] is [undefined]. (Names that
    every object inherits, such as [constructor], are not keys here.) *)
Definition fetchSnippet (key : string) : option string :=
  if String.prefix "vert." key then
    vertSnippets !! String.substring 5 (String.length key - 5) key
  else if String.prefix "frag." key then
    fragSnippets !! String.substring 5 (String.length key - 5) key
  else
    glslSnippets !! key.

End Shader.

(** ** Meshes (the vertex packer) *)

(** One source vertex. *)
Record Vertex := {
  v_position : Vec3;
  v_normal : Vec3;
  v_texcoord : Vec2
}.

(** The floats of a vertex in buffer order: v + n + t. *)
Definition pack (v : Vertex) : list R :=
  [ x0 (v_position v); x1 (v_position v); x2 (v_position v);
    x0 (v_normal v); x1 (v_normal v); x2 (v_normal v);
    s0 (v_texcoord v); s1 (v_texcoord v) ].

Module Mesh.

Record t := mk {
  mtrl : option Mtrl.t;
  verts : option F32Array;
  count : nat;
  (* assigned by [createVBO] only *)
  vbo : option Buffer
}.

Definition stride : nat := 3 + 3 + 2.

(** [new Mesh(count, mtrl)]: a zero-filled buffer when [count] is truthy,
    [null] otherwise. *)
Definition new (count : nat) (mtrl : option Mtrl.t) : t :=
  {| mtrl := mtrl;
     verts := if (count =? 0)%nat then None else Some (replicate (stride * count) 0%R);
     count := 0;
     vbo := None |}.

Section Packing.

(** The decoded level as a vertex source. *)
Variable Sol : Type.

(** Modelled from the spec: [sol.getVert(out, offs)] of the level decoder,
    which is not part of the sources. It is "indexable, producing one packed
    record at an offset": [vertex_at sol offs] is the vertex at [offs], and
    the call stores its eight floats into [out]. *)
Variable vertex_at : Sol -> nat -> Vertex.

(** Storing through [buf.subarray(pos, pos + n)]: the view ends where the
    buffer ends, and a store outside a typed array is dropped. *)
Definition store_view (pos n : nat) (record : list R) (buf : F32Array) : F32Array :=
  list_inserts pos (take (n `min` (length buf - pos)) record) buf.

(** Add the given SOL vertex (offs) to the mesh. [None]: the buffer is
    [null] and [subarray] throws. *)
Definition addVertFromSol (sol : Sol) (offs : nat) (this : t) : option t :=
  let pos := (count this * stride)%nat in
  buf ← verts this;
  Some {| mtrl := mtrl this;
          verts := Some (store_view pos stride (pack (vertex_at sol offs)) buf);
          count := S (count this);
          vbo := vbo this |}.

(** [addVertFromSol] for each offset in turn. *)
Fixpoint addVertsFromSol (sol : Sol) (offs : list nat) (this : t) : option t :=
  match offs with
  | [] => Some this
  | o :: offs' => this' ← addVertFromSol sol o this; addVertsFromSol sol offs' this'
  end.

End Packing.

(** Create and fill a VBO with the mesh vertex data. [fresh] is the handle
    that [gl.createBuffer()] returns. *)
Definition createVBO (this : t) (fresh : Buffer) : t * list Gl.call :=
  ({| mtrl := mtrl this; verts := verts this; count := count this; vbo := Some fresh |},
   [ Gl.createBuffer fresh;
     Gl.bindBuffer Gl.ARRAY_BUFFER (Some fresh);
     Gl.bufferData Gl.ARRAY_BUFFER (verts this) Gl.STATIC_DRAW;
     Gl.bindBuffer Gl.ARRAY_BUFFER None ]).

(** Setup material and draw the mesh. *)
Definition draw (this : t) (state : State) : Gl.M unit :=
  (m <- Gl.deref (mtrl this) ;;
   Mtrl.draw m state ;;;
   Gl.when (bool_decide (is_Some (vbo this)))
     (Gl.issue (Gl.enableArray (uPositionID state)) ;;;
      Gl.issue (Gl.enableArray (aNormalID state)) ;;;
      Gl.issue (Gl.enableArray (aTexCoordID state)) ;;;
      Gl.issue (Gl.bindBuffer Gl.ARRAY_BUFFER (vbo this)) ;;;
      Gl.issue (Gl.vertexAttribPointer (aPositionID state) 3 Gl.FLOAT false
                  (Z.of_nat stride * 4) 0) ;;;
      Gl.issue (Gl.vertexAttribPointer (aNormalID state) 3 Gl.FLOAT false
                  (Z.of_nat stride * 4) 12) ;;;
      Gl.issue (Gl.vertexAttribPointer (aTexCoordID state) 2 Gl.FLOAT false
                  (Z.of_nat stride * 4) 24) ;;;
      Gl.issue (Gl.bindBuffer Gl.ARRAY_BUFFER None) ;;;
      Gl.issue (Gl.drawArrays Gl.TRIANGLES 0 (count this))))%gl.

End Mesh.

(** ** Body models *)

Module BodyModel.

(** Modelled from the spec: the multi-mesh model of a body, built by
    [body-model.js], which is not part of the sources. It holds the body's
    meshes; [drawMeshType] draws "every mesh whose material matches that
    bucket's predicate". *)
Record t := { meshes : list Mesh.t }.

(** The bucket test that a mesh type names. *)
Definition bucket_test (meshType : string) : option (Mtrl.t -> bool) :=
  if String.eqb meshType "reflective" then Some Mtrl.isReflective
  else if String.eqb meshType "opaque" then Some Mtrl.isOpaque
  else if String.eqb meshType "opaqueDecal" then Some Mtrl.isOpaqueDecal
  else if String.eqb meshType "transparentDecal" then Some Mtrl.isTransparentDecal
  else if String.eqb meshType "transparent" then Some Mtrl.isTransparent
  else None.

Definition matches (meshType : string) (mesh : Mesh.t) : bool :=
  match bucket_test meshType, Mesh.mtrl mesh with
  | Some p, Some m => p m
  | _, _ => false
  end.

Definition drawMeshType (this : t) (state : State) (meshType : string) : Gl.M unit :=
  Gl.for_each (filter (fun mesh => matches meshType mesh = true) (meshes this))
    (fun mesh => Mesh.draw mesh state).

End BodyModel.

(** ** The scene ([src/solid-model.js]) *)

Module SolidModel.

(** *** The decoded level *)

(** A decoded record whose properties the core never reads is kept as a
    map of properties. *)
Record SolMtrl := {
  mtrl_record : gmap string Js.JsVal;
  (* assigned by [fromSol] *)
  _cachedMaterial : option Mtrl.t
}.
Definition SolBody := gmap string Js.JsVal.
Record SolItem := { item_t : Z; item_n : Z; item_p : Vec3 }.
Record SolBall := { ball_r : R; ball_p : Vec3 }.
Record SolBill := {
  bill_mi : nat;
  bill_t : R;
  bill_w : Vec3;
  bill_h : Vec3;
  bill_rx : Vec3;
  bill_ry : Vec3;
  bill_rz : Vec3;
  bill_fl : Z;
  bill_p : Vec3
}.
Record Sol := {
  mv : list SolMtrl;
  bv : list SolBody;
  hv : list SolItem;
  uv : list SolBall;
  rv : list SolBill
}.

(** *** Entity components *)

Record Drawable := { model : option BodyModel.t }.
Record Spatial := {
  position : Vec3;
  orientation : Quat;
  scale : NumOrVec3
}.
(** Movers are objects of the mover collaborator, held by reference. *)
Definition MoverRef := nat.
Record Movers := { translate : option MoverRef; rotate : option MoverRef }.
Record Item := { value : Z }.
Record Billboard := {
  mtrl : option SolMtrl;
  t : R;
  w : Vec3;
  h : Vec3;
  rx : Vec3;
  ry : Vec3;
  rz : Vec3;
  flags : Z
}.

Definition Drawable_new : Drawable := {| model := None |}.
Definition ModelMatrix_new : Mat4 := glm.mat4_create.
Definition Spatial_new : Spatial :=
  {| position := glm.vec3_create;
     orientation := glm.quat_create;
     scale := IsVec3 (glm.vec3_fromValues 1 1 1) |}.
Definition Movers_new : Movers := {| translate := None; rotate := None |}.
Definition Item_new : Item := {| value := 0 |}.
Definition Billboard_new : Billboard :=
  {| mtrl := None; t := 1.0%R;
     w := glm.vec3_create; h := glm.vec3_create;
     rx := glm.vec3_create; ry := glm.vec3_create; rz := glm.vec3_create;
     flags := 0 |}.

(** An entity of the store: its tags and the components attached to it. *)
Record Entity := {
  tags : list string;
  drawable : option Drawable;
  modelMatrix : option Mat4;
  spatial : option Spatial;
  movers : option Movers;
  item : option Item;
  billboard : option Billboard
}.

Definition createEntity : Entity :=
  {| tags := []; drawable := None; modelMatrix := None; spatial := None;
     movers := None; item := None; billboard := None |}.
Definition addTag (tag : string) (ent : Entity) : Entity :=
  {| tags := tags ent ++ [tag]; drawable := drawable ent;
     modelMatrix := modelMatrix ent; spatial := spatial ent;
     movers := movers ent; item := item ent; billboard := billboard ent |}.
Definition hasTag (tag : string) (ent : Entity) : bool :=
  bool_decide (tag ∈ tags ent).

Record SolidModel := {
  entities : option (list Entity);
  models : option (list (option BodyModel.t));
  materials : option (list Mtrl.t);
  transparentDepthTest : bool;
  transparentDepthMask : bool
}.

(** [new SolidModel()]. Transparency defaults; overridden by ball skins,
    primarily. *)
Definition new : SolidModel :=
  {| entities := None; models := None; materials := None;
     transparentDepthTest := true; transparentDepthMask := false |}.

(** A number used as a condition. *)
Definition nonzero (x : R) : bool := if Req_dec_T x 0 then false else true.

Section WithCollaborators.

Context {ops : glm.Ops}.

Definition Spatial_getTransform (this : Spatial) : Mat4 :=
  let p := position this in
  let e := orientation this in
  let s := scale this in
  glm.mat4_fromRotationTranslationScale e p s.

Definition Billboard_fromSolBill (sol : Sol) (solBill : SolBill) : Billboard :=
  {| mtrl := mv sol !! bill_mi solBill;
     t := bill_t solBill;
     w := glm.vec3_copy (bill_w solBill);
     h := glm.vec3_copy (bill_h solBill);
     rx := glm.vec3_copy (bill_rx solBill);
     ry := glm.vec3_copy (bill_ry solBill);
     rz := glm.vec3_copy (bill_rz solBill);
     flags := bill_fl solBill |}.

Definition Billboard_getForegroundTransform
    (this : Billboard) (M : Mat4) (globalTime : R) : Mat4 :=
  let T := (t this * globalTime)%R in
  let S := sin T in
  let w := (x0 (w this) + x1 (w this) * T + x2 (w this) * S)%R in
  let h := (x0 (h this) + x1 (h this) * T + x2 (h this) * S)%R in
  let rx := (x0 (rx this) + x1 (rx this) * T + x2 (rx this) * S)%R in
  let ry := (x0 (ry this) + x1 (ry this) * T + x2 (ry this) * S)%R in
  let rz := (x0 (rz this) + x1 (rz this) * T + x2 (rz this) * S)%R in
  let M := if nonzero rx then glm.mat4_rotateX M (rx / 180.0 * PI)%R else M in
  let M := if nonzero ry then glm.mat4_rotateY M (ry / 180.0 * PI)%R else M in
  let M := if nonzero rz then glm.mat4_rotateZ M (rz / 180.0 * PI)%R else M in
  glm.mat4_scale M (vec3 w h 0.0).

(** The mover collaborator and the two builders of [fromSol] that live in
    other modules. Movers are objects in a heap; [Mover_fromSolBody]
    allocates there and returns the two references. *)
Class Collaborators := {
  Mover : Type;
  Mover_step : R -> Mover -> Mover;
  Mover_getPosition : Mover -> Vec3;
  Mover_getOrientation : Mover -> Quat;
  Mover_fromSolBody :
    Sol -> SolBody -> gmap MoverRef Mover ->
    (option MoverRef * option MoverRef) * gmap MoverRef Mover;
  BodyModel_fromSolBody : Sol -> SolBody -> option BodyModel.t
}.

Context {collab : Collaborators}.

(** *** Load entities from SOL *)

(** [new Mtrl(sol.mv[i])] for each record, and the record with the
    material cached on it. *)
Definition fromSol_materials (mv : list SolMtrl) : list Mtrl.t * list SolMtrl :=
  (map (fun solMtrl => Mtrl.new solMtrl) mv,
   map (fun solMtrl =>
          {| mtrl_record := mtrl_record solMtrl;
             _cachedMaterial := Some (Mtrl.new solMtrl) |}) mv).

Definition fromSol_body (sol : Sol) (solBody : SolBody)
    (heap : gmap MoverRef Mover)
  : Entity * option BodyModel.t * gmap MoverRef Mover :=
  let ent := addTag "body" createEntity in
  let model := BodyModel_fromSolBody sol solBody in
  let '(movers, heap') := Mover_fromSolBody sol solBody heap in
  ({| tags := tags ent;
      drawable := Some {| model := model |};
      modelMatrix := Some ModelMatrix_new;
      spatial := Some Spatial_new;
      movers := Some {| translate := fst movers; rotate := snd movers |};
      item := item ent; billboard := billboard ent |},
   model, heap').

Fixpoint fromSol_bodies (sol : Sol) (bv : list SolBody)
    (heap : gmap MoverRef Mover)
  : list Entity * list (option BodyModel.t) * gmap MoverRef Mover :=
  match bv with
  | [] => ([], [], heap)
  | solBody :: bv' =>
      let '(ent, model, heap1) := fromSol_body sol solBody heap in
      let '(ents, models, heap2) := fromSol_bodies sol bv' heap1 in
      (ent :: ents, model :: models, heap2)
  end.

(** Neverball item type to string. *)
Definition itemTags (ty : Z) : option string :=
  if ty =? 1 then Some "coin"
  else if ty =? 2 then Some "grow"
  else if ty =? 3 then Some "shrink"
  else None.

Definition fromSol_item (solItem : SolItem) : option Entity :=
  match itemTags (item_t solItem) with
  | None => None
  | Some tag =>
      let ent := addTag tag (addTag "item" createEntity) in
      let r := 0.15%R in
      let x := x0 (item_p solItem) in
      let y := x1 (item_p solItem) in
      let z := x2 (item_p solItem) in
      Some {| tags := tags ent; drawable := drawable ent;
              modelMatrix := Some (glm.mat4_set
                r 0 0 0
                0 r 0 0
                0 0 r 0
                x y z 1);
              spatial := Some {| position := glm.vec3_set x y z;
                                 orientation := orientation Spatial_new;
                                 scale := IsVec3 (glm.vec3_set r r r) |};
              movers := movers ent;
              item := Some {| value := item_n solItem |};
              billboard := billboard ent |}
  end.

Definition fromSol_ball (solBall : SolBall) : Entity :=
  let ent := addTag "ball" createEntity in
  let r := ball_r solBall in
  let x := x0 (ball_p solBall) in
  let y := x1 (ball_p solBall) in
  let z := x2 (ball_p solBall) in
  {| tags := tags ent; drawable := drawable ent;
     modelMatrix := Some (glm.mat4_set
       r 0 0 0
       0 r 0 0
       0 0 r 0
       x y z 1);
     spatial := Some {| position := glm.vec3_set x y z;
                        orientation := orientation Spatial_new;
                        scale := IsNum r |};
     movers := movers ent; item := item ent; billboard := billboard ent |}.

Definition fromSol_bill (sol : Sol) (solBill : SolBill) : Entity :=
  let ent := addTag "billboard" createEntity in
  let sp := {| position := glm.vec3_copy (bill_p solBill);
               orientation := orientation Spatial_new;
               scale := scale Spatial_new |} in
  {| tags := tags ent; drawable := drawable ent;
     modelMatrix := Some (Spatial_getTransform sp);
     spatial := Some sp;
     movers := movers ent; item := item ent;
     billboard := Some (Billboard_fromSolBill sol solBill) |}.

(** [SolidModel.fromSol(sol)]: the scene, the level with the materials
    cached on its records, and the mover heap. *)
Definition fromSol (sol : Sol) (heap : gmap MoverRef Mover)
  : SolidModel * Sol * gmap MoverRef Mover :=
  let '(materials, mv') := fromSol_materials (mv sol) in
  let sol := {| mv := mv'; bv := bv sol; hv := hv sol; uv := uv sol; rv := rv sol |} in
  let '(bodies, models, heap') := fromSol_bodies sol (bv sol) heap in
  let items := omap fromSol_item (hv sol) in
  let balls := map fromSol_ball (uv sol) in
  let bills := map (fromSol_bill sol) (rv sol) in
  ({| entities := Some (bodies ++ items ++ balls ++ bills);
      models := Some models;
      materials := Some materials;
      transparentDepthTest := transparentDepthTest new;
      transparentDepthMask := transparentDepthMask new |},
   sol, heap').

(** *** Stepping *)

(** [m.step(dt)] on a reference: the object it points to advances. *)
Definition call_step (dt : R) (m : option MoverRef) (heap : gmap MoverRef Mover)
  : option (gmap MoverRef Mover) :=
  r ← m;
  st ← heap !! r;
  Some (<[r := Mover_step dt st]> heap).

(** The loop body of [step] for an entity of the query. [None]: a
    [TypeError]. *)
Definition step_entity (dt : R) (ent : Entity) (heap : gmap MoverRef Mover)
  : option (Entity * gmap MoverRef Mover) :=
  mvs ← movers ent;
  sp ← spatial ent;
  let moverTranslate := translate mvs in
  let moverRotate := rotate mvs in
  heap1 ←
    (if bool_decide (moverTranslate = moverRotate) then
       call_step dt moverTranslate heap
     else
       heap' ← call_step dt moverTranslate heap;
       call_step dt moverRotate heap');
  mt ← moverTranslate ≫= (heap1 !!.);
  mr ← moverRotate ≫= (heap1 !!.);
  let p := Mover_getPosition mt in
  let e := Mover_getOrientation mr in
  Some ({| tags := tags ent; drawable := drawable ent;
           modelMatrix := Some (glm.mat4_fromRotationTranslation e p);
           spatial := Some {| position := p; orientation := e; scale := scale sp |};
           movers := movers ent; item := item ent; billboard := billboard ent |},
        heap1).

(** [queryComponents([Spatial, ModelMatrix, Movers])] *)
Definition has_Spatial_ModelMatrix_Movers (ent : Entity) : bool :=
  bool_decide (is_Some (spatial ent)) && bool_decide (is_Some (modelMatrix ent))
  && bool_decide (is_Some (movers ent)).

Fixpoint step_entities (dt : R) (ents : list Entity) (heap : gmap MoverRef Mover)
  : option (list Entity * gmap MoverRef Mover) :=
  match ents with
  | [] => Some ([], heap)
  | ent :: ents' =>
      '(ent1, heap1) ←
        (if has_Spatial_ModelMatrix_Movers ent then step_entity dt ent heap
         else Some (ent, heap));
      '(ents1, heap2) ← step_entities dt ents' heap1;
      Some (ent1 :: ents1, heap2)
  end.

Definition step (dt : R) (this : SolidModel) (heap : gmap MoverRef Mover)
  : option (SolidModel * gmap MoverRef Mover) :=
  ents ← entities this;
  '(ents1, heap1) ← step_entities dt ents heap;
  Some ({| entities := Some ents1; models := models this;
           materials := materials this;
           transparentDepthTest := transparentDepthTest this;
           transparentDepthMask := transparentDepthMask this |},
        heap1).

(** *** Drawing *)

(** [queryComponents([Drawable, ModelMatrix])] *)
Definition has_Drawable_ModelMatrix (ent : Entity) : bool :=
  bool_decide (is_Some (drawable ent)) && bool_decide (is_Some (modelMatrix ent)).

(** Render entity meshes of the given type. Pass a parentMatrix for
    hierarchical transform. *)
Definition drawMeshType (this : SolidModel) (state : State) (meshType : string)
    (parentMatrix : option Mat4) : Gl.M unit :=
  (ents <- Gl.deref (entities this) ;;
   Gl.for_each (filter (fun ent => has_Drawable_ModelMatrix ent = true) ents)
     (fun ent =>
        dr <- Gl.deref (drawable ent) ;;
        entMatrix <- Gl.deref (modelMatrix ent) ;;
        let model := model dr in
        match parentMatrix with
        | Some parentMatrix =>
            let modelMatrix := glm.mat4_multiply parentMatrix entMatrix in
            Gl.issue (Gl.uniformMatrix4fv (uModelID state) false modelMatrix)
        | None =>
            Gl.issue (Gl.uniformMatrix4fv (uModelID state) false entMatrix)
        end ;;;
        model <- Gl.deref model ;;
        BodyModel.drawMeshType model state meshType))%gl.

(** Render model meshes. Pass a parentMatrix for hierarchical transform. *)
Definition drawBodies (this : SolidModel) (state : State) (parentMatrix : option Mat4)
  : Gl.M unit :=
  let mask := transparentDepthMask this in
  let test := transparentDepthTest this in
  (drawMeshType this state "reflective" parentMatrix ;;;
   drawMeshType this state "opaque" parentMatrix ;;;
   drawMeshType this state "opaqueDecal" parentMatrix ;;;
   Gl.when (negb test) (Gl.issue (Gl.disable Gl.DEPTH_TEST)) ;;;
   Gl.when (negb mask) (Gl.issue (Gl.depthMask false)) ;;;
   drawMeshType this state "transparentDecal" parentMatrix ;;;
   drawMeshType this state "transparent" parentMatrix ;;;
   Gl.when (negb mask) (Gl.issue (Gl.depthMask true)) ;;;
   Gl.when (negb test) (Gl.issue (Gl.enable Gl.DEPTH_TEST)))%gl.

(** Synonym. *)
Definition draw := drawBodies.

End WithCollaborators.

(** *** Textures, items, balls and billboards *)

(** The ball model of the render state: an object of [ball-model.js] with
    a [draw] method. *)
Record BallModel := { BallModel_draw : State -> option Mat4 -> Gl.M unit }.

(** The preloaded scenes of the render state, each absent until its file
    has been fetched. *)
Record Proxies := {
  coinModel : option SolidModel;
  coin5Model : option SolidModel;
  coin10Model : option SolidModel;
  growModel : option SolidModel;
  shrinkModel : option SolidModel;
  ballModel : option BallModel
}.

(** What the billboard pass reads from the render state: the view's
    orientation basis, the global time, and the billboard mesh with its
    three methods (an object of the render state, not a [Mesh] of the mesh
    module). *)
Record BillState := {
  view_getBasis : Mat4;
  time : R;
  billboardMesh_enableDraw : Gl.M unit;
  billboardMesh_draw : Gl.M unit;
  billboardMesh_disableDraw : Gl.M unit
}.

Section Passes.

Context {ops : glm.Ops}.


(** [queryComponents([Item, ModelMatrix])] *)
Definition has_Item_ModelMatrix (ent : Entity) : bool :=
  bool_decide (is_Some (item ent)) && bool_decide (is_Some (modelMatrix ent)).

(** Render item entities with a pre-loaded model. The entity transform is
    passed as a parent matrix for nested SolidModel rendering. *)
Definition drawItems (this : SolidModel) (state : State) (proxies : Proxies)
  : Gl.M unit :=
  (ents <- Gl.deref (entities this) ;;
   Gl.for_each (filter (fun ent => has_Item_ModelMatrix ent = true) ents)
     (fun ent =>
        if hasTag "grow" ent then
          model <- Gl.deref (growModel proxies) ;;
          draw model state (modelMatrix ent)
        else if hasTag "shrink" ent then
          model <- Gl.deref (shrinkModel proxies) ;;
          draw model state (modelMatrix ent)
        else
          it <- Gl.deref (item ent) ;;
          if value it >=? 10 then
            model <- Gl.deref (coin10Model proxies) ;;
            draw model state (modelMatrix ent)
          else if value it >=? 5 then
            model <- Gl.deref (coin5Model proxies) ;;
            draw model state (modelMatrix ent)
          else
            model <- Gl.deref (coinModel proxies) ;;
            draw model state (modelMatrix ent)))%gl.

(** Render ball entities with a pre-loaded model. *)
Definition drawBalls (this : SolidModel) (state : State) (proxies : Proxies)
  : Gl.M unit :=
  (ents <- Gl.deref (entities this) ;;
   Gl.for_each (filter (fun ent => hasTag "ball" ent = true) ents)
     (fun ent =>
        model <- Gl.deref (ballModel proxies) ;;
        BallModel_draw model state (modelMatrix ent)))%gl.

(** [queryComponents([Billboard, Spatial, ModelMatrix])] *)
Definition has_Billboard_Spatial_ModelMatrix (ent : Entity) : bool :=
  bool_decide (is_Some (billboard ent)) && bool_decide (is_Some (spatial ent))
  && bool_decide (is_Some (modelMatrix ent)).

(** The matrix uploaded for a billboard: the spatial transform times the
    view basis, then the foreground transform, then the parent if any. *)
Definition drawBills_matrix (bs : BillState) (sp : Spatial) (bill : Billboard)
    (parentMatrix : option Mat4) : Mat4 :=
  let modelMatrix := Spatial_getTransform sp in
  let modelMatrix := glm.mat4_multiply modelMatrix (view_getBasis bs) in
  let modelMatrix := Billboard_getForegroundTransform bill modelMatrix (time bs) in
  match parentMatrix with
  | Some parentMatrix => glm.mat4_multiply parentMatrix modelMatrix
  | None => modelMatrix
  end.

Definition drawBills (this : SolidModel) (state : State) (bs : BillState)
    (parentMatrix : option Mat4) : Gl.M unit :=
  let test := transparentDepthTest this in
  let mask := transparentDepthMask this in
  (ents <- Gl.deref (entities this) ;;
   billboardMesh_enableDraw bs ;;;
   Gl.when (negb test) (Gl.issue (Gl.disable Gl.DEPTH_TEST)) ;;;
   Gl.when (negb mask) (Gl.issue (Gl.depthMask false)) ;;;
   Gl.for_each (filter (fun ent => has_Billboard_Spatial_ModelMatrix ent = true) ents)
     (fun ent =>
        sp <- Gl.deref (spatial ent) ;;
        bill <- Gl.deref (billboard ent) ;;
        Gl.issue (Gl.uniformMatrix4fv (uModelID state) false
                    (drawBills_matrix bs sp bill parentMatrix)) ;;;
        solMtrl <- Gl.deref (mtrl bill) ;;
        cached <- Gl.deref (_cachedMaterial solMtrl) ;;
        Mtrl.draw cached state ;;;
        billboardMesh_draw bs) ;;;
   Gl.when (negb mask) (Gl.issue (Gl.depthMask true)) ;;;
   Gl.when (negb test) (Gl.issue (Gl.enable Gl.DEPTH_TEST)) ;;;
   billboardMesh_disableDraw bs)%gl.

End Passes.

End SolidModel.

(** ** The frame clock ([src/main.js]) *)

Module Main.

(** [getDeltaTime] closes over [lastTime], which starts at 0.0. *)
Definition lastTime_init : R := 0.0%R.


End Main.

(** * Vocabulary of the properties *)

(** Reading the buffer back, one vertex per [Mesh.stride] floats. *)
Definition unpack1 (r : list R) : option Vertex :=
  match r with
  | [px; py; pz; nx; ny; nz; tu; tv] =>
      Some {| v_position := vec3 px py pz; v_normal := vec3 nx ny nz; v_texcoord := vec2 tu tv |}
  | _ => None
  end.

Fixpoint unpack (n : nat) (buf : list R) : option (list Vertex) :=
  match n with
  | O => match buf with [] => Some [] | _ => None end
  | S n' =>
      v ← unpack1 (take Mesh.stride buf);
      vs ← unpack n' (drop Mesh.stride buf);
      Some (v :: vs)
  end.


(** How many of the booleans hold. *)
Definition count_true (bs : list bool) : nat :=
  length (filter (fun b => b = true) bs).

(** The five bucket rules and tests, in draw order. *)
Definition bucket_rules : list Mtrl.rules :=
  [ Mtrl.reflectiveRules; Mtrl.opaqueRules; Mtrl.opaqueDecalRules;
    Mtrl.transparentDecalRules; Mtrl.transparentRules ].

Definition bucket_tests (this : Mtrl.t) : list bool :=
  [ Mtrl.isReflective this; Mtrl.isOpaque this; Mtrl.isOpaqueDecal this;
    Mtrl.isTransparentDecal this; Mtrl.isTransparent this ].

(** Every bit of [m] is a bit of [x]; no bit of [m] is a bit of [x]. *)
Definition all_bits_set (x m : Z) : Prop :=
  forall i, 0 <= i -> Z.testbit m i = true -> Z.testbit x i = true.
Definition no_bit_set (x m : Z) : Prop :=
  forall i, 0 <= i -> Z.testbit m i = true -> Z.testbit x i = false.

(** The part of the flag word that the bucket rules look at, and the
    tests on a word given by that part alone. *)
Definition low9 (this : Mtrl.t) : Z := Js.wrap32 (Mtrl.fl this) mod 512.
Definition bucket_tests_of_word (w : Z) : list bool :=
  bucket_tests (Mtrl.with_fl w (Mtrl.new tt)).

(** The draw submissions of a trace. *)
Definition is_drawArrays (c : Gl.call) : bool :=
  match c with
  | Gl.drawArrays _ _ _ => true
  | _ => false
  end.
Definition draws (tr : list Gl.call) : list Gl.call := filter (fun c => is_drawArrays c = true) tr.

(** The depth state of the API: the depth test and the depth mask. *)
Record DepthState := { depth_test : bool; depth_write : bool }.

Definition touches_depth (c : Gl.call) : bool :=
  match c with
  | Gl.enable Gl.DEPTH_TEST | Gl.disable Gl.DEPTH_TEST | Gl.depthMask _ => true
  | _ => false
  end.

Definition depth_apply (c : Gl.call) (ds : DepthState) : DepthState :=
  match c with
  | Gl.enable Gl.DEPTH_TEST => {| depth_test := true; depth_write := depth_write ds |}
  | Gl.disable Gl.DEPTH_TEST => {| depth_test := false; depth_write := depth_write ds |}
  | Gl.depthMask flag => {| depth_test := depth_test ds; depth_write := flag |}
  | _ => ds
  end.

(** The depth state after a trace, and the depth state in force at each
    draw submission of a trace, from the state at its start. *)
Definition depth_after (tr : list Gl.call) (ds : DepthState) : DepthState :=
  fold_left (fun ds c => depth_apply c ds) tr ds.

Fixpoint draws_under (tr : list Gl.call) (ds : DepthState) : list DepthState :=
  match tr with
  | [] => []
  | c :: tr' =>
      if is_drawArrays c then ds :: draws_under tr' ds
      else draws_under tr' (depth_apply c ds)
  end.

(** A render state and a mesh for the examples: the mesh is uploaded (it
    has a buffer), its material is as constructed and has no texture. *)
Definition state0 : State :=
  {| enableTextures := true; defaultTexture := Some 0%nat;
     uDiffuse := 1; uAmbient := 2; uSpecular := 3; uEmissive := 4;
     uShininess := 5; uEnvironment := 6; uModelID := 7;
     uPositionID := 0; aPositionID := 0; aNormalID := 1; aTexCoordID := 2 |}%nat.

Definition untextured_mesh : Mesh.t :=
  Mesh.mk (Some (Mtrl.new tt)) (Some (replicate 24 0%R)) 3 (Some 9%nat).

(** C7 as the specification words it: with the buffer or the texture
    missing, the element's draw submission is skipped. *)
Definition missing_resource_skips_draw : Prop :=
  forall (mesh : Mesh.t) (m : Mtrl.t) (state : State),
    Mesh.mtrl mesh = Some m ->
    Mesh.vbo mesh = None \/ Mtrl.tex m = None ->
    draws (Gl.trace (Mesh.draw mesh state)) = [].

(** A scene that can be drawn: its entity store exists, and every
    drawable entity has its model. *)
Definition drawable_scene (this : SolidModel.SolidModel) : Prop :=
  exists ents,
    SolidModel.entities this = Some ents /\
    Forall (fun ent => forall dr, SolidModel.drawable ent = Some dr ->
                                  is_Some (SolidModel.model dr)) ents.

(** The five mesh types, in the order of the draw-bodies phase. *)
Definition mesh_types : list string :=
  ["reflective"; "opaque"; "opaqueDecal"; "transparentDecal"; "transparent"].

(** The calls before the transparent passes and after them. *)
Definition relax_calls (this : SolidModel.SolidModel) : list Gl.call :=
  (if SolidModel.transparentDepthTest this then [] else [Gl.disable Gl.DEPTH_TEST]) ++
  (if SolidModel.transparentDepthMask this then [] else [Gl.depthMask false]).
Definition restore_calls (this : SolidModel.SolidModel) : list Gl.call :=
  (if SolidModel.transparentDepthMask this then [] else [Gl.depthMask true]) ++
  (if SolidModel.transparentDepthTest this then [] else [Gl.enable Gl.DEPTH_TEST]).


(** For the examples: a stand-in for the matrix library that leaves every
    matrix as it is, and a scene of one body with an opaque and a
    transparent mesh, both uploaded, configured with the depth test and
    the depth mask off for transparent geometry. *)
Definition ops_example : glm.Ops :=
  {| glm.mat4_rotateX M _ := M;
     glm.mat4_rotateY M _ := M;
     glm.mat4_rotateZ M _ := M;
     glm.mat4_scale M _ := M;
     glm.mat4_multiply _ b := b;
     glm.mat4_fromRotationTranslation _ _ := glm.mat4_create;
     glm.mat4_fromRotationTranslationScale _ _ _ := glm.mat4_create |}.

Definition body_example : SolidModel.Entity :=
  {| SolidModel.tags := ["body"];
     SolidModel.drawable := Some {| SolidModel.model := Some {| BodyModel.meshes :=
       [ Mesh.mk (Some (Mtrl.new tt)) (Some (replicate 24 0%R)) 3 (Some 1%nat);
         Mesh.mk (Some (Mtrl.with_fl Mtrl.TRANSPARENT (Mtrl.new tt)))
                 (Some (replicate 48 0%R)) 6 (Some 2%nat) ] |} |};
     SolidModel.modelMatrix := Some glm.mat4_create;
     SolidModel.spatial := Some SolidModel.Spatial_new;
     SolidModel.movers := Some {| SolidModel.translate := Some 0%nat;
                                  SolidModel.rotate := Some 0%nat |};
     SolidModel.item := None;
     SolidModel.billboard := None |}.

Definition scene_example : SolidModel.SolidModel :=
  {| SolidModel.entities := Some [body_example];
     SolidModel.models := Some [];
     SolidModel.materials := Some [];
     SolidModel.transparentDepthTest := false;
     SolidModel.transparentDepthMask := false |}.






(** The snippets a graph requires. *)
Definition requires (g : list Shader.op) : list string :=
  omap (fun o => match o with Shader.require key => Some key | _ => None end) g.

(** A material as constructed, then given the alpha-test flag and the
    alpha function [k]. *)
Definition alpha_tested (k : Z) : Mtrl.t :=
  Mtrl.with_alpha_func k (Mtrl.with_fl Mtrl.ALPHA_TEST (Mtrl.new tt)).

(** The comparison that the selector names (indices from
    [share/solid_base.c], as the snippet table says). *)
Definition snippet_of_selector (k : Z) : option string :=
  match k with
  | 1 => Some "testEqual"
  | 2 => Some "testGequal"
  | 3 => Some "testGreater"
  | 4 => Some "testLequal"
  | 5 => Some "testLess"
  | 6 => Some "testNever"
  | 7 => Some "testNotEqual"
  | _ => None
  end.

(** C9 as the specification words it, for a vertex source: a mesh made
    for [N] vertices and given [N] vertices holds a buffer of [N * 8]
    floats that reads back as those vertices, and counts [N]. *)
Definition packing_round_trip {Sol : Type} (vertex_at : Sol -> nat -> Vertex)
    (sol : Sol) (offs : list nat) (mtrl : option Mtrl.t) : Prop :=
  exists (mesh : Mesh.t) (buf : F32Array),
    Mesh.addVertsFromSol Sol vertex_at sol offs (Mesh.new (length offs) mtrl) = Some mesh /\
    Mesh.verts mesh = Some buf /\
    length buf = (length offs * 8)%nat /\
    unpack (length offs) buf = Some (map (vertex_at sol) offs) /\
    Mesh.count mesh = length offs.

(** For the examples: a vertex source that is a list of vertices. *)
Definition vertex_of_list (vs : list Vertex) (offs : nat) : Vertex :=
  default {| v_position := vec3 0 0 0; v_normal := vec3 0 0 0; v_texcoord := vec2 0 0 |}
          (vs !! offs).

(** A coefficient triple evaluated at scaled time [T]: constant, linear
    and sinusoidal term. *)
Definition poly (c : Vec3) (T : R) : R := (x0 c + x1 c * T + x2 c * sin T)%R.

(** A rotation by [deg] degrees, left out when [deg] is zero. *)
Definition rotate_unless_zero (rot : Mat4 -> R -> Mat4) (deg : R) (M : Mat4) : Mat4 :=
  if Req_dec_T deg 0 then M else rot M (deg / 180 * PI)%R.

(** The matrix that scales by [r] and then translates by [p]. *)
Definition scale_then_translate (r : R) (p : Vec3) : Mat4 :=
  [ r; 0; 0; 0;
    0; r; 0; 0;
    0; 0; r; 0;
    x0 p; x1 p; x2 p; 1 ]%R.

(** The defaults of a material. *)
Definition material_defaults (m : Mtrl.t) : Prop :=
  Mtrl.fl m = 0 /\ Mtrl.f m = "" /\ Mtrl.alpha_func m = 0 /\ Mtrl.tex m = None /\
  Mtrl.d m = [0.8; 0.8; 0.8; 1.0]%R /\
  Mtrl.a m = [0.2; 0.2; 0.2; 1.0]%R /\
  Mtrl.s m = [0; 0; 0; 1]%R /\
  Mtrl.e m = [0; 0; 0; 1]%R /\
  Mtrl.h m = [0]%R.

(** Entity [ent] holds a reference to the mover [r]. *)
Definition uses_mover (r : SolidModel.MoverRef) (ent : SolidModel.Entity) : Prop :=
  exists mvs,
    SolidModel.movers ent = Some mvs /\
    (SolidModel.translate mvs = Some r \/ SolidModel.rotate mvs = Some r).

(** An entity that [step] can process: if it is in the query, both its
    movers are set and are objects of the heap. *)
Definition movers_ready `{SolidModel.Collaborators}
    (heap : gmap SolidModel.MoverRef SolidModel.Mover) (ent : SolidModel.Entity) : Prop :=
  SolidModel.has_Spatial_ModelMatrix_Movers ent = true ->
  exists tr ro,
    SolidModel.movers ent = Some {| SolidModel.translate := Some tr;
                                   SolidModel.rotate := Some ro |} /\
    is_Some (heap !! tr) /\ is_Some (heap !! ro).

(** For the examples: a mover that counts its steps, in the place of the
    mover collaborator. *)
Definition counting_movers : SolidModel.Collaborators :=
  {| SolidModel.Mover := nat;
     SolidModel.Mover_step _ n := S n;
     SolidModel.Mover_getPosition _ := glm.vec3_create;
     SolidModel.Mover_getOrientation _ := glm.quat_create;
     SolidModel.Mover_fromSolBody _ _ heap := ((None, None), heap);
     SolidModel.BodyModel_fromSolBody _ _ := None |}.

(** A scene of two bodies: the first is moved by one mover (the heap
    object 0, referred to twice), the second by two (objects 1 and 2). *)
Definition moved_entity (tr ro : SolidModel.MoverRef) : SolidModel.Entity :=
  {| SolidModel.tags := ["body"];
     SolidModel.drawable := Some SolidModel.Drawable_new;
     SolidModel.modelMatrix := Some SolidModel.ModelMatrix_new;
     SolidModel.spatial := Some SolidModel.Spatial_new;
     SolidModel.movers := Some {| SolidModel.translate := Some tr;
                                  SolidModel.rotate := Some ro |};
     SolidModel.item := None;
     SolidModel.billboard := None |}.

Definition moved_scene : SolidModel.SolidModel :=
  {| SolidModel.entities := Some ([] ++ moved_entity 0%nat 0%nat :: [moved_entity 1%nat 2%nat]);
     SolidModel.models := Some [];
     SolidModel.materials := Some [];
     SolidModel.transparentDepthTest := true;
     SolidModel.transparentDepthMask := false |}.

Definition counters : gmap SolidModel.MoverRef nat :=
  {[ 0%nat := 0%nat; 1%nat := 0%nat; 2%nat := 0%nat ]}.

(** ** The state of the graphics API along a trace *)

(** The value last uploaded to a uniform location. *)
Inductive uniform_value :=
| U4fv (v : F32Array)
| U1f (x : option R)
| U1i (x : Z)
| UMat4 (transpose : bool) (m : Mat4).

(** The part of the API state that the calls of the core set: the 2D
    texture and array buffer bindings, the uniforms, the blend function,
    face culling, polygon offset and the depth state. *)
Record GlState := mkGlState {
  texture_2d : option Texture;
  array_buffer : option Buffer;
  uniform : gmap Location uniform_value;
  blend : Gl.enum * Gl.enum;
  cull_face : bool;
  polygon_offset_fill : bool;
  polygon_offset : R * R;
  depth : DepthState
}.

Definition set_uniform (loc : Location) (v : uniform_value) (s : GlState) : GlState :=
  mkGlState (texture_2d s) (array_buffer s) (<[loc := v]> (uniform s)) (blend s)
            (cull_face s) (polygon_offset_fill s) (polygon_offset s) (depth s).

Definition set_cap (cap : Gl.enum) (on : bool) (s : GlState) : GlState :=
  match cap with
  | Gl.CULL_FACE =>
      mkGlState (texture_2d s) (array_buffer s) (uniform s) (blend s)
                on (polygon_offset_fill s) (polygon_offset s) (depth s)
  | Gl.POLYGON_OFFSET_FILL =>
      mkGlState (texture_2d s) (array_buffer s) (uniform s) (blend s)
                (cull_face s) on (polygon_offset s) (depth s)
  | Gl.DEPTH_TEST =>
      mkGlState (texture_2d s) (array_buffer s) (uniform s) (blend s)
                (cull_face s) (polygon_offset_fill s) (polygon_offset s)
                {| depth_test := on; depth_write := depth_write (depth s) |}
  | _ => s
  end.

Definition gl_apply (c : Gl.call) (s : GlState) : GlState :=
  match c with
  | Gl.bindTexture Gl.TEXTURE_2D tex =>
      mkGlState tex (array_buffer s) (uniform s) (blend s)
                (cull_face s) (polygon_offset_fill s) (polygon_offset s) (depth s)
  | Gl.bindBuffer Gl.ARRAY_BUFFER buf =>
      mkGlState (texture_2d s) buf (uniform s) (blend s)
                (cull_face s) (polygon_offset_fill s) (polygon_offset s) (depth s)
  | Gl.uniform4fv loc v => set_uniform loc (U4fv v) s
  | Gl.uniform1f loc x => set_uniform loc (U1f x) s
  | Gl.uniform1i loc x => set_uniform loc (U1i x) s
  | Gl.uniformMatrix4fv loc tr m => set_uniform loc (UMat4 tr m) s
  | Gl.blendFunc sf df =>
      mkGlState (texture_2d s) (array_buffer s) (uniform s) (sf, df)
                (cull_face s) (polygon_offset_fill s) (polygon_offset s) (depth s)
  | Gl.enable cap => set_cap cap true s
  | Gl.disable cap => set_cap cap false s
  | Gl.polygonOffset fa un =>
      mkGlState (texture_2d s) (array_buffer s) (uniform s) (blend s)
                (cull_face s) (polygon_offset_fill s) (fa, un) (depth s)
  | Gl.depthMask flag =>
      mkGlState (texture_2d s) (array_buffer s) (uniform s) (blend s)
                (cull_face s) (polygon_offset_fill s) (polygon_offset s)
                {| depth_test := depth_test (depth s); depth_write := flag |}
  | _ => s
  end.

Definition gl_after (tr : list Gl.call) (s : GlState) : GlState :=
  fold_left (fun s c => gl_apply c s) tr s.

(** The state that applying a material leaves, from the state before. *)
Definition material_state (m : Mtrl.t) (state : State) (s : GlState) : GlState :=
  {| texture_2d :=
       if enableTextures state && bool_decide (is_Some (Mtrl.tex m))
       then Mtrl.tex m else defaultTexture state;
     array_buffer := array_buffer s;
     uniform :=
       <[uEnvironment state := U1i (if Mtrl.has m Mtrl.ENVIRONMENT then 1 else 0)]>
       (<[uShininess state := U1f (Mtrl.h m !! 0%nat)]>
       (<[uEmissive state := U4fv (Mtrl.e m)]>
       (<[uSpecular state := U4fv (Mtrl.s m)]>
       (<[uAmbient state := U4fv (Mtrl.a m)]>
       (<[uDiffuse state := U4fv (Mtrl.d m)]> (uniform s))))));
     blend :=
       if Mtrl.has m Mtrl.ADDITIVE then (Gl.SRC_ALPHA, Gl.ONE)
       else (Gl.SRC_ALPHA, Gl.ONE_MINUS_SRC_ALPHA);
     cull_face := negb (Mtrl.has m Mtrl.TWO_SIDED);
     polygon_offset_fill := Mtrl.has m Mtrl.DECAL;
     polygon_offset :=
       if Mtrl.has m Mtrl.DECAL then ((-1.0)%R, (-2.0)%R) else (0.0%R, 0.0%R);
     depth := depth s |}.

(** The wrap modes that a trace sets on the 2D texture, in order. *)
Definition wrap_modes (tr : list Gl.call) : list (Gl.enum * Gl.enum) :=
  omap (fun c => match c with
                 | Gl.texParameteri Gl.TEXTURE_2D Gl.TEXTURE_WRAP_S mode =>
                     Some (Gl.TEXTURE_WRAP_S, mode)
                 | Gl.texParameteri Gl.TEXTURE_2D Gl.TEXTURE_WRAP_T mode =>
                     Some (Gl.TEXTURE_WRAP_T, mode)
                 | _ => None
                 end) tr.

(** The buffer uploads of a trace. *)
Definition uploads (tr : list Gl.call) : list (option F32Array) :=
  omap (fun c => match c with
                 | Gl.bufferData Gl.ARRAY_BUFFER data _ => Some data
                 | _ => None
                 end) tr.

(** ** Shader graphs *)

(** The snippet keys that a graph names, those of piped subgraphs
    included. *)
Fixpoint op_keys (o : Shader.op) : list string :=
  match o with
  | Shader.require key => [key]
  | Shader.pipe key _ => [key]
  | Shader.pipe_graph g => flat_map op_keys g
  | _ => []
  end.
Definition graph_keys (g : list Shader.op) : list string := flat_map op_keys g.

Definition names_key (key : string) (g : list Shader.op) : bool :=
  existsb (String.eqb key) (graph_keys g).

(** The five bits of a signature. *)
Definition low5 (flags : Z) : Z := Js.wrap32 flags mod 32.

(** The checks made on each of the 32 signatures: the fragment graph
    requires the comparison of its selector and pipes the alpha test with
    it, and ends by writing the colour; every key of both graphs is in the
    snippet library. *)
Definition fragment_ok (u : gmap string (list (string * string))) (flags : Z) : bool :=
  let k := Shader.alphaFuncFromShaderFlags flags in
  let g := Shader.build_fragment flags u in
  bool_decide (requires g =
               match snippet_of_selector k with Some key => [key] | None => [] end)
  && Bool.eqb (names_key "frag.alphaTest" g) (negb (k =? 0))
  && bool_decide (last (graph_keys g) = Some "frag.setFragColor")
  && Bool.eqb (names_key "frag.getLightColor" g) (negb (Js.band flags Shader.LIT =? 0)).

Definition keys_resolve (u : gmap string (list (string * string))) (flags : Z) : bool :=
  forallb (fun key => bool_decide (is_Some (Shader.fetchSnippet key)))
          (graph_keys (Shader.build_fragment flags u)
           ++ graph_keys (Shader.build_vertex flags u)).

(** ** Vertex attributes *)

(** The attribute pointers that a trace declares: index, size in floats,
    stride and offset in bytes; and the arrays it enables. *)
Definition attribute_pointers (tr : list Gl.call) : list (Location * Z * Z * Z) :=
  omap (fun c => match c with
                 | Gl.vertexAttribPointer index size Gl.FLOAT _ stride offset =>
                     Some (index, size, stride, offset)
                 | _ => None
                 end) tr.
Definition enabled_arrays (tr : list Gl.call) : list Location :=
  omap (fun c => match c with Gl.enableArray index => Some index | _ => None end) tr.

(** The floats that an attribute of [size] floats at byte [offset] reads
    from the record of one vertex (a float is four bytes). *)
Definition attribute_floats (size offset : Z) (record : list R) : list R :=
  take (Z.to_nat size) (drop (Z.to_nat (offset / 4)) record).

Definition floats3 (v : Vec3) : list R := [x0 v; x1 v; x2 v].
Definition floats2 (v : Vec2) : list R := [s0 v; s1 v].

(** ** Built scenes *)

(** The shape of the entity that [fromSol] makes for a body. *)
Definition body_shape (ent : SolidModel.Entity) : Prop :=
  SolidModel.tags ent = ["body"] /\
  is_Some (SolidModel.drawable ent) /\
  SolidModel.modelMatrix ent = Some glm.mat4_create /\
  SolidModel.spatial ent = Some SolidModel.Spatial_new /\
  is_Some (SolidModel.movers ent) /\
  SolidModel.item ent = None /\
  SolidModel.billboard ent = None.

(** An item type that the scene builder knows: coin, grow or shrink. *)
Definition known_item (solItem : SolidModel.SolItem) : bool :=
  (1 <=? SolidModel.item_t solItem) && (SolidModel.item_t solItem <=? 3).

(** The tags that an entity has among the four categories. *)
Definition categories (ent : SolidModel.Entity) : list string :=
  filter (fun tag => SolidModel.hasTag tag ent = true)
         ["body"; "item"; "ball"; "billboard"].

(** What [step] keeps of an entity: everything but the position, the
    orientation and the model matrix; and the whole entity when it is not
    in the query. *)
Definition step_keeps (e e' : SolidModel.Entity) : Prop :=
  SolidModel.tags e' = SolidModel.tags e /\
  SolidModel.drawable e' = SolidModel.drawable e /\
  SolidModel.movers e' = SolidModel.movers e /\
  SolidModel.item e' = SolidModel.item e /\
  SolidModel.billboard e' = SolidModel.billboard e /\
  (SolidModel.scale <$> SolidModel.spatial e') = (SolidModel.scale <$> SolidModel.spatial e) /\
  (is_Some (SolidModel.modelMatrix e') <-> is_Some (SolidModel.modelMatrix e)) /\
  (SolidModel.has_Spatial_ModelMatrix_Movers e = false -> e' = e).

(** For the examples: a level of one body and nothing else. *)
Definition one_body_level : SolidModel.Sol :=
  {| SolidModel.mv := []; SolidModel.bv := [∅]; SolidModel.hv := [];
     SolidModel.uv := []; SolidModel.rv := [] |}.

(** ** Items, balls and billboards *)

(** The preloaded scene that stands for a decoded item: by type for grow
    (2) and shrink (3), by value for a coin. *)
Definition proxy_for (proxies : SolidModel.Proxies) (solItem : SolidModel.SolItem)
  : option SolidModel.SolidModel :=
  if SolidModel.item_t solItem =? 2 then SolidModel.growModel proxies
  else if SolidModel.item_t solItem =? 3 then SolidModel.shrinkModel proxies
  else if SolidModel.item_n solItem >=? 10 then SolidModel.coin10Model proxies
  else if SolidModel.item_n solItem >=? 5 then SolidModel.coin5Model proxies
  else SolidModel.coinModel proxies.

(** The calls that draw one decoded item: its proxy, with the item's
    matrix as parent. *)
Definition item_calls `{glm.Ops} (state : State) (proxies : SolidModel.Proxies)
    (solItem : SolidModel.SolItem) : list Gl.call :=
  match proxy_for proxies solItem with
  | Some model =>
      Gl.trace (SolidModel.drawBodies model state
                  (Some (scale_then_translate 0.15 (SolidModel.item_p solItem))))
  | None => []
  end.

(** The billboard mesh of a render state behaves: its three methods
    complete and leave the depth state alone. *)
Definition billboard_mesh_ok (bs : SolidModel.BillState) : Prop :=
  Gl.result (SolidModel.billboardMesh_enableDraw bs) = Some tt /\
  Gl.result (SolidModel.billboardMesh_draw bs) = Some tt /\
  Gl.result (SolidModel.billboardMesh_disableDraw bs) = Some tt /\
  Forall (fun c => touches_depth c = false) (Gl.trace (SolidModel.billboardMesh_enableDraw bs)) /\
  Forall (fun c => touches_depth c = false) (Gl.trace (SolidModel.billboardMesh_draw bs)) /\
  Forall (fun c => touches_depth c = false) (Gl.trace (SolidModel.billboardMesh_disableDraw bs)).

(** A billboard entity whose material can be applied: its material record
    exists and has a material cached on it. *)
Definition bill_resolves (ent : SolidModel.Entity) : Prop :=
  exists bill solMtrl m,
    SolidModel.billboard ent = Some bill /\
    SolidModel.mtrl bill = Some solMtrl /\
    SolidModel._cachedMaterial solMtrl = Some m.

(** The depth state while transparent geometry is drawn, and after. *)
Definition relaxed_depth (this : SolidModel.SolidModel) (ds : DepthState) : DepthState :=
  {| depth_test := depth_test ds && SolidModel.transparentDepthTest this;
     depth_write := depth_write ds && SolidModel.transparentDepthMask this |}.
Definition restored_depth (this : SolidModel.SolidModel) (ds : DepthState) : DepthState :=
  {| depth_test := if SolidModel.transparentDepthTest this then depth_test ds else true;
     depth_write := if SolidModel.transparentDepthMask this then depth_write ds else true |}.

(** For the examples: a billboard mesh that issues one draw, a level with
    one material and two billboards, the second of which names a material
    that the level does not have. *)
Definition bill_state_example : SolidModel.BillState :=
  {| SolidModel.view_getBasis := glm.mat4_create;
     SolidModel.time := 0%R;
     SolidModel.billboardMesh_enableDraw := Gl.issue (Gl.enableArray 0%nat);
     SolidModel.billboardMesh_draw := Gl.issue (Gl.drawArrays Gl.TRIANGLES 0 6);
     SolidModel.billboardMesh_disableDraw := Gl.ret tt |}.

Definition bill_example (mi : nat) : SolidModel.SolBill :=
  {| SolidModel.bill_mi := mi; SolidModel.bill_t := 1%R;
     SolidModel.bill_w := vec3 1 0 0; SolidModel.bill_h := vec3 1 0 0;
     SolidModel.bill_rx := vec3 0 0 0; SolidModel.bill_ry := vec3 0 0 0;
     SolidModel.bill_rz := vec3 0 0 0; SolidModel.bill_fl := 0;
     SolidModel.bill_p := vec3 0 1 0 |}.

Definition bill_level (mis : list nat) : SolidModel.Sol :=
  {| SolidModel.mv := [ {| SolidModel.mtrl_record := ∅;
                           SolidModel._cachedMaterial := None |} ];
     SolidModel.bv := []; SolidModel.hv := [];
     SolidModel.uv := []; SolidModel.rv := map bill_example mis |}.

(** The loop bodies of [drawItems] and [drawBills], by name. *)
Definition items_body `{glm.Ops} (state : State) (proxies : SolidModel.Proxies)
    (ent : SolidModel.Entity) : Gl.M unit :=
  (if SolidModel.hasTag "grow" ent then
     model <- Gl.deref (SolidModel.growModel proxies) ;;
     SolidModel.draw model state (SolidModel.modelMatrix ent)
   else if SolidModel.hasTag "shrink" ent then
     model <- Gl.deref (SolidModel.shrinkModel proxies) ;;
     SolidModel.draw model state (SolidModel.modelMatrix ent)
   else
     it <- Gl.deref (SolidModel.item ent) ;;
     if SolidModel.value it >=? 10 then
       model <- Gl.deref (SolidModel.coin10Model proxies) ;;
       SolidModel.draw model state (SolidModel.modelMatrix ent)
     else if SolidModel.value it >=? 5 then
       model <- Gl.deref (SolidModel.coin5Model proxies) ;;
       SolidModel.draw model state (SolidModel.modelMatrix ent)
     else
       model <- Gl.deref (SolidModel.coinModel proxies) ;;
       SolidModel.draw model state (SolidModel.modelMatrix ent))%gl.

Definition bills_body `{glm.Ops} (state : State) (bs : SolidModel.BillState)
    (parentMatrix : option Mat4) (ent : SolidModel.Entity) : Gl.M unit :=
  (sp <- Gl.deref (SolidModel.spatial ent) ;;
   bill <- Gl.deref (SolidModel.billboard ent) ;;
   Gl.issue (Gl.uniformMatrix4fv (uModelID state) false
               (SolidModel.drawBills_matrix bs sp bill parentMatrix)) ;;;
   solMtrl <- Gl.deref (SolidModel.mtrl bill) ;;
   cached <- Gl.deref (SolidModel._cachedMaterial solMtrl) ;;
   Mtrl.draw cached state ;;;
   SolidModel.billboardMesh_draw bs)%gl.

(** ** The frame clock *)




(** ** Textures of a scene *)



(** ** Example levels and render states *)

(** A level with a coin of value 1, an item of an unknown type and a grow
    item. *)
Definition items_level : SolidModel.Sol :=
  {| SolidModel.mv := []; SolidModel.bv := [];
     SolidModel.hv :=
       [ {| SolidModel.item_t := 1; SolidModel.item_n := 1;
            SolidModel.item_p := vec3 0 0 0 |};
         {| SolidModel.item_t := 7; SolidModel.item_n := 0;
            SolidModel.item_p := vec3 1 0 0 |};
         {| SolidModel.item_t := 2; SolidModel.item_n := 0;
            SolidModel.item_p := vec3 2 0 0 |} ];
     SolidModel.uv := []; SolidModel.rv := [] |}.

(** A level with two balls. *)
Definition balls_level : SolidModel.Sol :=
  {| SolidModel.mv := []; SolidModel.bv := []; SolidModel.hv := [];
     SolidModel.uv :=
       [ {| SolidModel.ball_r := 0.25%R; SolidModel.ball_p := vec3 0 0 0 |};
         {| SolidModel.ball_r := 0.5%R; SolidModel.ball_p := vec3 0 1 0 |} ];
     SolidModel.rv := [] |}.

(** A ball model that uploads the parent matrix and draws once. *)
Definition ball_model_example : SolidModel.BallModel :=
  {| SolidModel.BallModel_draw state M :=
       (match M with
        | Some M => Gl.issue (Gl.uniformMatrix4fv (uModelID state) false M)
        | None => Gl.ret tt
        end ;;;
        Gl.issue (Gl.drawArrays Gl.TRIANGLES 0 3))%gl |}.

(** A render state with the plain coin, the grow scene and the ball model
    loaded, and one with nothing loaded yet. *)
Definition proxies_example : SolidModel.Proxies :=
  {| SolidModel.coinModel := Some scene_example;
     SolidModel.coin5Model := None;
     SolidModel.coin10Model := None;
     SolidModel.growModel := Some scene_example;
     SolidModel.shrinkModel := None;
     SolidModel.ballModel := Some ball_model_example |}.

Definition proxies_unloaded : SolidModel.Proxies :=
  {| SolidModel.coinModel := None;
     SolidModel.coin5Model := None;
     SolidModel.coin10Model := None;
     SolidModel.growModel := None;
     SolidModel.shrinkModel := None;
     SolidModel.ballModel := None |}.


(** * Properties *)

(** ** 32-bit operators *)

Lemma wrap32_range z : - 2 ^ 31 <= Js.wrap32 z < 2 ^ 31.
Proof.
  unfold Js.wrap32.
  pose proof (Z.mod_pos_bound (z + 2 ^ 31) (2 ^ 32)). lia.
Qed.

Lemma wrap32_small z : - 2 ^ 31 <= z < 2 ^ 31 -> Js.wrap32 z = z.
Proof. intros Hz. unfold Js.wrap32. rewrite Z.mod_small; lia. Qed.

Lemma land_eq_iff x m : Z.land x m = m <-> all_bits_set x m.
Proof.
  unfold all_bits_set. split.
  - intros E i Hi Hm. rewrite <- E, Z.land_spec in Hm.
    apply andb_true_iff in Hm. tauto.
  - intros Hall. apply Z.bits_inj'. intros i Hi. rewrite Z.land_spec.
    destruct (Z.testbit m i) eqn:Em.
    + rewrite (Hall i Hi Em). reflexivity.
    + apply andb_false_r.
Qed.

Lemma land_zero_iff x m : Z.land x m = 0 <-> no_bit_set x m.
Proof.
  unfold no_bit_set. split.
  - intros E i Hi Hm.
    assert (Hb : Z.testbit (Z.land x m) i = false) by (rewrite E; apply Z.bits_0).
    rewrite Z.land_spec, Hm, andb_true_r in Hb. exact Hb.
  - intros Hnone. apply Z.bits_inj'. intros i Hi.
    rewrite Z.land_spec, Z.bits_0.
    destruct (Z.testbit m i) eqn:Em.
    + rewrite (Hnone i Hi Em). reflexivity.
    + apply andb_false_r.
Qed.

(** Only the low nine bits of a word meet a mask below 512. *)
Lemma land_low9 x m : 0 <= m < 512 -> Z.land x m = Z.land (x mod 512) m.
Proof.
  intros Hm.
  assert (E : Z.land m (Z.ones 9) = m).
  { rewrite Z.land_ones by lia. apply Z.mod_small. simpl. lia. }
  rewrite <- E at 1. rewrite (Z.land_comm m), Z.land_assoc.
  rewrite Z.land_ones by lia. reflexivity.
Qed.

(** ** Bucket membership *)

Section Buckets.

Import Mtrl.

Example flag_values :
  (PARTICLE, ALPHA_TEST, REFLECTIVE, TRANSPARENT, DECAL) = (1024, 512, 256, 128, 32).
Proof. reflexivity. Qed.

Example rule_masks :
  map (fun rs => (r_in rs, r_ex rs)) bucket_rules
  = [(256, 0); (0, 416); (32, 384); (160, 256); (128, 288)].
Proof. reflexivity. Qed.

(** The contract of [test], on the 32-bit images of the operands. *)
Lemma test_spec (this : Mtrl.t) (rs : Mtrl.rules) :
  Js.wrap32 (r_in rs) = r_in rs ->
  test this rs = true <->
  all_bits_set (Js.wrap32 (fl this)) (r_in rs) /\
  no_bit_set (Js.wrap32 (fl this)) (Js.wrap32 (r_ex rs)).
Proof.
  intros Hin. unfold test, Js.band. rewrite Hin.
  rewrite andb_true_iff, !Z.eqb_eq, land_eq_iff, land_zero_iff. reflexivity.
Qed.

Lemma test_low9 (this : Mtrl.t) (rs : Mtrl.rules) :
  0 <= r_in rs < 512 -> 0 <= r_ex rs < 512 ->
  test this rs = test (with_fl (low9 this) (Mtrl.new tt)) rs.
Proof.
  intros Hi He. unfold test, Js.band, low9. cbn [fl with_fl].
  pose proof (Z.mod_pos_bound (Js.wrap32 (fl this)) 512 ltac:(lia)) as Hb.
  rewrite (wrap32_small (r_in rs)), (wrap32_small (r_ex rs)) by (simpl; lia).
  rewrite (wrap32_small (_ mod 512)) by (simpl; lia).
  rewrite <- !land_low9 by assumption. reflexivity.
Qed.

Lemma bucket_tests_low9 (this : Mtrl.t) :
  bucket_tests this = bucket_tests_of_word (low9 this).
Proof.
  unfold bucket_tests_of_word, bucket_tests,
    isReflective, isOpaque, isOpaqueDecal, isTransparentDecal, isTransparent.
  rewrite !(test_low9 this) by (vm_compute; split; [discriminate | reflexivity]).
  reflexivity.
Qed.

(** The 512 low parts, one by one. *)
Lemma low9_exhaustive :
  forallb (fun n => Nat.eqb (count_true (bucket_tests_of_word (Z.of_nat n))) 1)
          (seq 0 512) = true.
Proof. vm_compute. reflexivity. Qed.

Lemma bucket_tests_of_word_one w :
  0 <= w < 512 -> count_true (bucket_tests_of_word w) = 1%nat.
Proof.
  intros Hw. pose proof low9_exhaustive as Hall.
  rewrite forallb_forall in Hall.
  specialize (Hall (Z.to_nat w)).
  rewrite Z2Nat.id in Hall by lia.
  apply Nat.eqb_eq, Hall, in_seq. lia.
Qed.

Lemma bucket_tests_one (this : Mtrl.t) : count_true (bucket_tests this) = 1%nat.
Proof.
  rewrite bucket_tests_low9. apply bucket_tests_of_word_one.
  unfold low9. apply Z.mod_pos_bound. lia.
Qed.

(** C1. For every material whose flag word has the particle flag clear,
    exactly one of the five bucket predicates (reflective, opaque,
    opaque-decal, transparent-decal, transparent) returns true; the
    predicates are [test] on the five rules, and [test] returns true iff
    every bit of the include mask and no bit of the exclude mask is set in
    the flag word. *)
Theorem bucket_membership_exactly_one (this : Mtrl.t) :
  Js.band (fl this) PARTICLE = 0 ->
  count_true (bucket_tests this) = 1%nat /\
  bucket_tests this = map (test this) bucket_rules /\
  Forall (fun rs =>
            test this rs = true <->
            all_bits_set (Js.wrap32 (fl this)) (r_in rs) /\
            no_bit_set (Js.wrap32 (fl this)) (r_ex rs))
         bucket_rules.
Proof.
  intros _. split; [apply bucket_tests_one | split; [reflexivity |]].
  unfold bucket_rules.
  repeat (constructor;
          [ rewrite test_spec by reflexivity;
            rewrite (wrap32_small (r_ex _)) by (vm_compute; split; [discriminate | reflexivity]);
            reflexivity | ]).
  constructor.
Qed.

(** A transparent decal with environment mapping: flag word 176. *)
Lemma bucket_membership_exactly_one_witness :
  let this := with_fl 176 (Mtrl.new tt) in
  Js.band (fl this) PARTICLE = 0 /\
  count_true (bucket_tests this) = 1%nat /\
  bucket_tests this = [false; false; false; true; false].
Proof.
  intros this.
  assert (Hp : Js.band (fl this) PARTICLE = 0) by reflexivity.
  split; [exact Hp |].
  split; [exact (proj1 (bucket_membership_exactly_one this Hp)) | reflexivity].
Defined.

End Buckets.

(** ** Computations against the graphics API *)

Section GlMonad.

Context {A B : Type}.

Lemma bind_ok (m : Gl.M A) (k : A -> Gl.M B) (x : A) :
  Gl.result m = Some x ->
  Gl.result (Gl.bind m k) = Gl.result (k x) /\
  Gl.trace (Gl.bind m k) = Gl.trace m ++ Gl.trace (k x).
Proof. intros Hm. unfold Gl.bind. rewrite Hm. split; reflexivity. Qed.

Lemma bind_throw (m : Gl.M A) (k : A -> Gl.M B) :
  Gl.result m = None ->
  Gl.result (Gl.bind m k) = None /\ Gl.trace (Gl.bind m k) = Gl.trace m.
Proof. intros Hm. unfold Gl.bind. rewrite Hm. split; reflexivity. Qed.

(** A property of every call is kept by sequencing, thrown or not. *)
Lemma bind_Forall (Q : Gl.call -> Prop) (m : Gl.M A) (k : A -> Gl.M B) :
  Forall Q (Gl.trace m) ->
  (forall x, Forall Q (Gl.trace (k x))) ->
  Forall Q (Gl.trace (Gl.bind m k)).
Proof.
  intros Hm Hk. unfold Gl.bind. destruct (Gl.result m) as [x|]; simpl.
  - apply Forall_app. split; [exact Hm | apply Hk].
  - exact Hm.
Qed.

End GlMonad.

Lemma for_each_Forall {A} (Q : Gl.call -> Prop) (l : list A) (body : A -> Gl.M unit) :
  (forall x, x ∈ l -> Forall Q (Gl.trace (body x))) ->
  Forall Q (Gl.trace (Gl.for_each l body)).
Proof.
  induction l as [|x l IH]; intros Hbody; simpl.
  - constructor.
  - apply bind_Forall.
    + apply Hbody. left.
    + intros _. apply IH. intros y Hy. apply Hbody. right. exact Hy.
Qed.

(** A loop whose bodies all complete is the concatenation of its bodies. *)
Lemma for_each_ok {A} (l : list A) (body : A -> Gl.M unit) :
  (forall x, x ∈ l -> Gl.result (body x) = Some tt) ->
  Gl.result (Gl.for_each l body) = Some tt /\
  Gl.trace (Gl.for_each l body) = concat (map (fun x => Gl.trace (body x)) l).
Proof.
  induction l as [|x l IH]; intros Hbody; simpl.
  - split; reflexivity.
  - destruct IH as [IHr IHt].
    { intros y Hy. apply Hbody. right. exact Hy. }
    destruct (bind_ok (body x) (fun _ => Gl.for_each l body) tt) as [Hr Ht].
    { apply Hbody. left. }
    rewrite Hr, Ht, IHr, IHt. split; reflexivity.
Qed.

Lemma deref_Forall {A} (Q : Gl.call -> Prop) (o : option A) :
  Forall Q (Gl.trace (Gl.deref o)).
Proof. destruct o; constructor. Qed.

Lemma when_Forall (Q : Gl.call -> Prop) (c : bool) (m : Gl.M unit) :
  Forall Q (Gl.trace m) -> Forall Q (Gl.trace (Gl.when c m)).
Proof. intros Hm. destruct c; [exact Hm | constructor]. Qed.

(** ** Depth state along a trace *)

Lemma depth_after_app tr1 tr2 ds :
  depth_after (tr1 ++ tr2) ds = depth_after tr2 (depth_after tr1 ds).
Proof. unfold depth_after. apply fold_left_app. Qed.

Lemma depth_apply_untouched c ds :
  touches_depth c = false -> depth_apply c ds = ds.
Proof.
  intros Hc. destruct c; simpl in *; try discriminate; try reflexivity;
    match goal with x : Gl.enum |- _ => destruct x end;
    first [discriminate | reflexivity].
Qed.

Lemma depth_after_untouched tr ds :
  Forall (fun c => touches_depth c = false) tr -> depth_after tr ds = ds.
Proof.
  intros Htr. induction Htr as [|c tr Hc _ IH]; [reflexivity |].
  unfold depth_after in *. simpl. rewrite depth_apply_untouched by exact Hc.
  exact IH.
Qed.

Lemma draws_under_app tr1 tr2 ds :
  draws_under (tr1 ++ tr2) ds = draws_under tr1 ds ++ draws_under tr2 (depth_after tr1 ds).
Proof.
  revert ds. induction tr1 as [|c tr1 IH]; intros ds; [reflexivity |].
  simpl. destruct (is_drawArrays c) eqn:Ec.
  - rewrite IH. simpl. do 2 f_equal.
    unfold depth_after. simpl. destruct c; try discriminate Ec. reflexivity.
  - rewrite IH. reflexivity.
Qed.

Lemma draws_under_untouched tr ds :
  Forall (fun c => touches_depth c = false) tr ->
  Forall (fun ds' => ds' = ds) (draws_under tr ds).
Proof.
  intros Htr. induction Htr as [|c tr Hc _ IH]; simpl; [constructor |].
  destruct (is_drawArrays c) eqn:Ec.
  - constructor; [reflexivity | exact IH].
  - rewrite depth_apply_untouched by exact Hc. exact IH.
Qed.

(** ** Applying a material and drawing a mesh *)

Lemma Mtrl_draw_ok (this : Mtrl.t) (state : State) :
  Gl.result (Mtrl.draw this state) = Some tt.
Proof.
  unfold Mtrl.draw.
  destruct (enableTextures state && bool_decide (is_Some (Mtrl.tex this)));
    destruct (Mtrl.has this Mtrl.ENVIRONMENT), (Mtrl.has this Mtrl.ADDITIVE),
      (Mtrl.has this Mtrl.TWO_SIDED), (Mtrl.has this Mtrl.DECAL); reflexivity.
Qed.

Lemma Mtrl_draw_no_depth (this : Mtrl.t) (state : State) :
  Forall (fun c => touches_depth c = false) (Gl.trace (Mtrl.draw this state)).
Proof.
  unfold Mtrl.draw.
  destruct (enableTextures state && bool_decide (is_Some (Mtrl.tex this)));
    destruct (Mtrl.has this Mtrl.ENVIRONMENT), (Mtrl.has this Mtrl.ADDITIVE),
      (Mtrl.has this Mtrl.TWO_SIDED), (Mtrl.has this Mtrl.DECAL);
    simpl; repeat constructor.
Qed.

Lemma Mtrl_draw_no_draws (this : Mtrl.t) (state : State) :
  draws (Gl.trace (Mtrl.draw this state)) = [].
Proof.
  unfold Mtrl.draw.
  destruct (enableTextures state && bool_decide (is_Some (Mtrl.tex this)));
    destruct (Mtrl.has this Mtrl.ENVIRONMENT), (Mtrl.has this Mtrl.ADDITIVE),
      (Mtrl.has this Mtrl.TWO_SIDED), (Mtrl.has this Mtrl.DECAL); reflexivity.
Qed.

(** The calls of [Mesh.draw] after the material is applied. *)
Lemma Mesh_draw_trace (this : Mesh.t) (m : Mtrl.t) (state : State) :
  Mesh.mtrl this = Some m ->
  Gl.result (Mesh.draw this state) = Some tt /\
  Gl.trace (Mesh.draw this state) =
    Gl.trace (Mtrl.draw m state) ++
    match Mesh.vbo this with
    | None => []
    | Some b =>
        [ Gl.enableArray (uPositionID state);
          Gl.enableArray (aNormalID state);
          Gl.enableArray (aTexCoordID state);
          Gl.bindBuffer Gl.ARRAY_BUFFER (Some b);
          Gl.vertexAttribPointer (aPositionID state) 3 Gl.FLOAT false 32 0;
          Gl.vertexAttribPointer (aNormalID state) 3 Gl.FLOAT false 32 12;
          Gl.vertexAttribPointer (aTexCoordID state) 2 Gl.FLOAT false 32 24;
          Gl.bindBuffer Gl.ARRAY_BUFFER None;
          Gl.drawArrays Gl.TRIANGLES 0 (Mesh.count this) ]
    end.
Proof.
  intros Hm. unfold Mesh.draw. rewrite Hm.
  pose proof (Mtrl_draw_ok m state) as Hok.
  match goal with
  | |- context [Gl.bind (Gl.deref (Some m)) ?k] =>
      destruct (bind_ok (Gl.deref (Some m)) k m eq_refl) as [Hr0 Ht0]
  end.
  rewrite Hr0, Ht0. clear Hr0 Ht0. cbn beta.
  match goal with
  | |- context [Gl.bind (Mtrl.draw m state) ?k] =>
      destruct (bind_ok (Mtrl.draw m state) k tt Hok) as [Hr Ht]
  end.
  rewrite Hr, Ht. destruct (Mesh.vbo this) as [b|]; split; reflexivity.
Qed.

Lemma Mesh_draw_no_depth (this : Mesh.t) (state : State) :
  Forall (fun c => touches_depth c = false) (Gl.trace (Mesh.draw this state)).
Proof.
  destruct (Mesh.mtrl this) as [m|] eqn:Hm.
  - destruct (Mesh_draw_trace this m state Hm) as [_ Ht]. rewrite Ht.
    apply Forall_app. split; [apply Mtrl_draw_no_depth |].
    destruct (Mesh.vbo this); repeat constructor.
  - unfold Mesh.draw. rewrite Hm. constructor.
Qed.

(** ** Drawing the meshes of a body model *)

Lemma matches_has_mtrl meshType mesh :
  BodyModel.matches meshType mesh = true -> is_Some (Mesh.mtrl mesh).
Proof.
  unfold BodyModel.matches.
  destruct (BodyModel.bucket_test meshType), (Mesh.mtrl mesh); try discriminate.
  eauto.
Qed.

Lemma BodyModel_drawMeshType_ok (this : BodyModel.t) (state : State) meshType :
  Gl.result (BodyModel.drawMeshType this state meshType) = Some tt /\
  Gl.trace (BodyModel.drawMeshType this state meshType) =
    concat (map (fun mesh => Gl.trace (Mesh.draw mesh state))
                (filter (fun mesh => BodyModel.matches meshType mesh = true)
                        (BodyModel.meshes this))).
Proof.
  unfold BodyModel.drawMeshType. apply for_each_ok.
  intros mesh Hin. apply list_elem_of_filter in Hin as [Hmatch _].
  destruct (matches_has_mtrl _ _ Hmatch) as [m Hm].
  apply (Mesh_draw_trace mesh m state Hm).
Qed.

Lemma BodyModel_drawMeshType_no_depth (this : BodyModel.t) (state : State) meshType :
  Forall (fun c => touches_depth c = false)
         (Gl.trace (BodyModel.drawMeshType this state meshType)).
Proof.
  unfold BodyModel.drawMeshType. apply for_each_Forall.
  intros mesh _. apply Mesh_draw_no_depth.
Qed.

(** ** Missing resources at draw time *)

Lemma draws_app tr1 tr2 : draws (tr1 ++ tr2) = draws tr1 ++ draws tr2.
Proof. unfold draws. apply filter_app. Qed.

Lemma Mtrl_draw_untextured (this : Mtrl.t) (state : State) :
  Mtrl.tex this = None ->
  head (Gl.trace (Mtrl.draw this state)) =
    Some (Gl.bindTexture Gl.TEXTURE_2D (defaultTexture state)).
Proof.
  intros Htex. unfold Mtrl.draw. rewrite Htex.
  replace (bool_decide (is_Some (@None Texture))) with false
    by (symmetry; apply bool_decide_eq_false; intros [? ?]; discriminate).
  rewrite andb_false_r. reflexivity.
Qed.

(** The meshes of a model are drawn one after the other, each with calls
    of its own. *)
Lemma BodyModel_drawMeshType_split (l1 l2 : list Mesh.t) (x : Mesh.t)
    (state : State) (meshType : string) :
  Gl.trace (BodyModel.drawMeshType {| BodyModel.meshes := l1 ++ x :: l2 |} state meshType) =
    Gl.trace (BodyModel.drawMeshType {| BodyModel.meshes := l1 |} state meshType) ++
    Gl.trace (BodyModel.drawMeshType {| BodyModel.meshes := [x] |} state meshType) ++
    Gl.trace (BodyModel.drawMeshType {| BodyModel.meshes := l2 |} state meshType).
Proof.
  rewrite !(proj2 (BodyModel_drawMeshType_ok _ _ _)). cbn [BodyModel.meshes].
  rewrite (filter_app _ l1 (x :: l2)), map_app, concat_app.
  change (x :: l2) with ([x] ++ l2).
  rewrite (filter_app _ [x] l2), map_app, concat_app. reflexivity.
Qed.

(** C7, counterexample. A mesh that is uploaded and whose material has no
    texture is drawn: its trace holds the draw submission, so the draw is
    not skipped when only the texture is missing. *)
Lemma untextured_mesh_is_drawn :
  Mesh.mtrl untextured_mesh = Some (Mtrl.new tt) /\
  Mtrl.tex (Mtrl.new tt) = None /\
  draws (Gl.trace (Mesh.draw untextured_mesh state0)) = [Gl.drawArrays Gl.TRIANGLES 0 3] /\
  ~ missing_resource_skips_draw.
Proof.
  assert (Hd : draws (Gl.trace (Mesh.draw untextured_mesh state0))
               = [Gl.drawArrays Gl.TRIANGLES 0 3]).
  { rewrite (proj2 (Mesh_draw_trace untextured_mesh (Mtrl.new tt) state0 eq_refl)).
    rewrite draws_app, Mtrl_draw_no_draws. reflexivity. }
  split; [reflexivity | split; [reflexivity | split; [exact Hd |]]].
  intros Hclaim.
  specialize (Hclaim untextured_mesh (Mtrl.new tt) state0 eq_refl (or_intror eq_refl)).
  rewrite Hd in Hclaim. discriminate Hclaim.
Qed.

(** C7, amended. A mesh that was never uploaded has its material applied
    and nothing else: no buffer is bound and no draw is submitted. A mesh
    whose material has no texture is drawn with the default texture bound.
    In both cases the calls issued for the other meshes of the model are
    the same. *)
Theorem missing_resource_at_draw (state : State) :
  (forall mesh m,
     Mesh.mtrl mesh = Some m -> Mesh.vbo mesh = None ->
     Gl.result (Mesh.draw mesh state) = Some tt /\
     Gl.trace (Mesh.draw mesh state) = Gl.trace (Mtrl.draw m state) /\
     draws (Gl.trace (Mesh.draw mesh state)) = []) /\
  (forall mesh m b,
     Mesh.mtrl mesh = Some m -> Mtrl.tex m = None -> Mesh.vbo mesh = Some b ->
     Gl.result (Mesh.draw mesh state) = Some tt /\
     head (Gl.trace (Mesh.draw mesh state)) =
       Some (Gl.bindTexture Gl.TEXTURE_2D (defaultTexture state)) /\
     draws (Gl.trace (Mesh.draw mesh state)) =
       [Gl.drawArrays Gl.TRIANGLES 0 (Mesh.count mesh)]) /\
  (forall l1 x l2 meshType,
     Gl.trace (BodyModel.drawMeshType {| BodyModel.meshes := l1 ++ x :: l2 |} state meshType) =
       Gl.trace (BodyModel.drawMeshType {| BodyModel.meshes := l1 |} state meshType) ++
       Gl.trace (BodyModel.drawMeshType {| BodyModel.meshes := [x] |} state meshType) ++
       Gl.trace (BodyModel.drawMeshType {| BodyModel.meshes := l2 |} state meshType)).
Proof.
  split; [| split].
  - intros mesh m Hm Hvbo.
    destruct (Mesh_draw_trace mesh m state Hm) as [Hr Ht].
    rewrite Ht, Hvbo, app_nil_r. repeat split; [exact Hr |].
    apply Mtrl_draw_no_draws.
  - intros mesh m b Hm Htex Hvbo.
    destruct (Mesh_draw_trace mesh m state Hm) as [Hr Ht].
    rewrite Ht, Hvbo. repeat split; [exact Hr | |].
    + pose proof (Mtrl_draw_untextured m state Htex) as Hh.
      destruct (Gl.trace (Mtrl.draw m state)); [discriminate Hh | exact Hh].
    + rewrite draws_app, Mtrl_draw_no_draws. reflexivity.
  - intros l1 x l2 meshType. apply BodyModel_drawMeshType_split.
Qed.

(** The same mesh before and after its upload, in a model of one mesh. *)
Lemma missing_resource_at_draw_witness :
  let never_uploaded := Mesh.mk (Some (Mtrl.new tt)) (Some (replicate 24 0%R)) 3 None in
  draws (Gl.trace (Mesh.draw never_uploaded state0)) = [] /\
  draws (Gl.trace (Mesh.draw untextured_mesh state0)) = [Gl.drawArrays Gl.TRIANGLES 0 3].
Proof.
  intros never_uploaded.
  destruct (missing_resource_at_draw state0) as [Hvbo [Htex _]]. split.
  - exact (proj2 (proj2 (Hvbo never_uploaded (Mtrl.new tt) eq_refl eq_refl))).
  - exact (proj2 (proj2 (Htex untextured_mesh (Mtrl.new tt) 9%nat eq_refl eq_refl eq_refl))).
Defined.

(** ** The draw-bodies phase *)

Section DrawBodies.

Import SolidModel.
Context {ops : glm.Ops}.

Lemma draws_under_replicate tr ds :
  Forall (fun c => touches_depth c = false) tr ->
  draws_under tr ds = replicate (length (draws tr)) ds.
Proof.
  intros Htr. induction Htr as [|c tr Hc _ IH]; [reflexivity |].
  unfold draws in *. simpl. rewrite filter_cons.
  destruct (is_drawArrays c) eqn:Ec.
  - rewrite decide_True by reflexivity. simpl. rewrite IH. reflexivity.
  - rewrite decide_False by discriminate.
    rewrite depth_apply_untouched by exact Hc. exact IH.
Qed.

Lemma drawMeshType_no_depth (this : SolidModel) state meshType parentMatrix :
  Forall (fun c => touches_depth c = false)
         (Gl.trace (drawMeshType this state meshType parentMatrix)).
Proof.
  unfold drawMeshType.
  apply bind_Forall; [apply deref_Forall |]. intros ents.
  apply for_each_Forall. intros ent _.
  apply bind_Forall; [apply deref_Forall |]. intros dr.
  apply bind_Forall; [apply deref_Forall |]. intros entMatrix.
  apply bind_Forall; [destruct parentMatrix; repeat constructor |]. intros _.
  apply bind_Forall; [apply deref_Forall |]. intros bm.
  apply BodyModel_drawMeshType_no_depth.
Qed.

Lemma drawMeshType_ok (this : SolidModel) state meshType parentMatrix :
  drawable_scene this ->
  Gl.result (drawMeshType this state meshType parentMatrix) = Some tt.
Proof.
  intros (ents & Hents & Hmodels). unfold drawMeshType. rewrite Hents.
  match goal with
  | |- context [Gl.bind (Gl.deref (Some ents)) ?k] =>
      rewrite (proj1 (bind_ok (Gl.deref (Some ents)) k ents eq_refl))
  end.
  apply for_each_ok. intros ent Hin.
  apply list_elem_of_filter in Hin as [Hq Hin].
  rewrite Forall_forall in Hmodels. specialize (Hmodels ent Hin).
  unfold has_Drawable_ModelMatrix in Hq.
  apply andb_true_iff in Hq as [Hd Hm].
  apply bool_decide_eq_true in Hd as [dr Hdr], Hm as [mm Hmm].
  destruct (Hmodels dr Hdr) as [bm Hbm].
  rewrite Hdr, Hmm.
  pose proof (proj1 (BodyModel_drawMeshType_ok bm state meshType)) as Hok.
  destruct parentMatrix;
    cbn [Gl.bind Gl.deref Gl.ret Gl.issue Gl.result Gl.trace];
    rewrite Hbm; cbn [Gl.bind Gl.deref Gl.ret Gl.issue Gl.result Gl.trace];
    exact Hok.
Qed.

Lemma drawBodies_trace (this : SolidModel) state parentMatrix :
  drawable_scene this ->
  let pass meshType := Gl.trace (drawMeshType this state meshType parentMatrix) in
  Gl.result (drawBodies this state parentMatrix) = Some tt /\
  Gl.trace (drawBodies this state parentMatrix) =
    pass "reflective" ++ pass "opaque" ++ pass "opaqueDecal" ++
    relax_calls this ++
    pass "transparentDecal" ++ pass "transparent" ++
    restore_calls this.
Proof.
  intros Hwf pass. unfold drawBodies, relax_calls, restore_calls.
  pose proof (fun ty => drawMeshType_ok this state ty parentMatrix Hwf) as Hok.
  unfold Gl.bind. rewrite !Hok. cbn [Gl.result Gl.trace].
  destruct (transparentDepthTest this), (transparentDepthMask this);
    cbn [negb Gl.when Gl.ret Gl.issue Gl.result Gl.trace];
    rewrite ?Hok; cbn [Gl.result Gl.trace];
    (split; [reflexivity |]); subst pass; cbn beta;
    rewrite ?app_nil_r, ?app_nil_l, <- ?app_assoc; reflexivity.
Qed.

(** C3. Draw-bodies issues the five passes in the order reflective,
    opaque, opaque-decal, transparent-decal, transparent. The depth test
    and the depth mask are switched off (each only when the scene is
    configured so) right before the transparent-decal pass and switched on
    again right after the transparent pass. No pass touches the depth
    state itself, so the draws of the first three passes run under the
    depth state at entry and only those of the last two under the relaxed
    one. *)
Theorem drawBodies_order (this : SolidModel) state parentMatrix (ds : DepthState) :
  drawable_scene this ->
  let pass meshType := Gl.trace (drawMeshType this state meshType parentMatrix) in
  let test := transparentDepthTest this in
  let mask := transparentDepthMask this in
  let relaxed := {| depth_test := depth_test ds && test;
                    depth_write := depth_write ds && mask |} in
  let restored := {| depth_test := if test then depth_test ds else true;
                     depth_write := if mask then depth_write ds else true |} in
  Gl.result (drawBodies this state parentMatrix) = Some tt /\
  Gl.trace (drawBodies this state parentMatrix) =
    pass "reflective" ++ pass "opaque" ++ pass "opaqueDecal" ++
    (if test then [] else [Gl.disable Gl.DEPTH_TEST]) ++
    (if mask then [] else [Gl.depthMask false]) ++
    pass "transparentDecal" ++ pass "transparent" ++
    (if mask then [] else [Gl.depthMask true]) ++
    (if test then [] else [Gl.enable Gl.DEPTH_TEST]) /\
  Forall (fun meshType => Forall (fun c => touches_depth c = false) (pass meshType))
         mesh_types /\
  draws_under (Gl.trace (drawBodies this state parentMatrix)) ds =
    replicate (length (draws (pass "reflective" ++ pass "opaque" ++ pass "opaqueDecal"))) ds ++
    replicate (length (draws (pass "transparentDecal" ++ pass "transparent"))) relaxed /\
  depth_after (Gl.trace (drawBodies this state parentMatrix)) ds = restored.
Proof.
  intros Hwf pass test mask relaxed restored.
  destruct (drawBodies_trace this state parentMatrix Hwf) as [Hr Ht].
  assert (Hpass : forall ty, Forall (fun c => touches_depth c = false) (pass ty))
    by (intros ty; apply drawMeshType_no_depth).
  assert (H123 : Forall (fun c => touches_depth c = false)
                   (pass "reflective" ++ pass "opaque" ++ pass "opaqueDecal"))
    by (rewrite !Forall_app; auto).
  assert (H45 : Forall (fun c => touches_depth c = false)
                  (pass "transparentDecal" ++ pass "transparent"))
    by (rewrite !Forall_app; auto).
  split; [exact Hr |]. split.
  { rewrite Ht. unfold relax_calls, restore_calls. fold test mask. fold pass.
    rewrite <- !app_assoc. reflexivity. }
  split; [unfold mesh_types; repeat constructor; apply Hpass |].
  assert (Et : Gl.trace (drawBodies this state parentMatrix) =
               (pass "reflective" ++ pass "opaque" ++ pass "opaqueDecal") ++
               relax_calls this ++
               (pass "transparentDecal" ++ pass "transparent") ++
               restore_calls this).
  { rewrite Ht. fold pass. rewrite <- !app_assoc. reflexivity. }
  assert (Erelax : depth_after (relax_calls this) ds = relaxed /\
                   draws_under (relax_calls this) ds = []).
  { unfold relax_calls, relaxed, test, mask.
    destruct ds as [dt dw], (transparentDepthTest this), (transparentDepthMask this);
      cbn; rewrite ?andb_true_r, ?andb_false_r; split; reflexivity. }
  assert (Erestore : depth_after (restore_calls this) relaxed = restored /\
                     draws_under (restore_calls this) relaxed = []).
  { unfold restore_calls, relaxed, restored, test, mask.
    destruct ds as [dt dw], (transparentDepthTest this), (transparentDepthMask this);
      cbn; rewrite ?andb_true_r, ?andb_false_r; split; reflexivity. }
  destruct Erelax as [Er1 Er2], Erestore as [Es1 Es2].
  rewrite Et. clear Et Ht.
  set (first3 := pass "reflective" ++ pass "opaque" ++ pass "opaqueDecal") in *.
  set (last2 := pass "transparentDecal" ++ pass "transparent") in *.
  clearbody first3 last2. split.
  - rewrite !draws_under_app.
    rewrite (depth_after_untouched _ ds H123), Er1, Er2.
    rewrite (depth_after_untouched _ relaxed H45), Es2.
    rewrite (draws_under_replicate _ ds H123), (draws_under_replicate _ relaxed H45).
    rewrite app_nil_r. reflexivity.
  - rewrite !depth_after_app.
    rewrite (depth_after_untouched _ ds H123), Er1.
    rewrite (depth_after_untouched _ relaxed H45). exact Es1.
Qed.

End DrawBodies.

Lemma drawable_scene_example : drawable_scene scene_example.
Proof.
  exists [body_example]. split; [reflexivity |].
  repeat constructor. intros dr Hdr. injection Hdr as <-. eexists. reflexivity.
Qed.

(** In the example scene the opaque mesh is drawn with the depth test and
    the depth mask on, the transparent one with both off, and both are on
    again at the end. *)
Lemma drawBodies_order_witness :
  let on := {| depth_test := true; depth_write := true |} in
  let off := {| depth_test := false; depth_write := false |} in
  drawable_scene scene_example /\
  draws_under (Gl.trace (SolidModel.drawBodies (ops := ops_example)
                           scene_example state0 None)) on = [on; off] /\
  depth_after (Gl.trace (SolidModel.drawBodies (ops := ops_example)
                           scene_example state0 None)) on = on.
Proof.
  intros on off.
  pose proof (drawBodies_order (ops := ops_example) scene_example state0 None on
                drawable_scene_example) as (_ & _ & _ & Hdraws & Hafter).
  split; [exact drawable_scene_example |]. split.
  - rewrite Hdraws. reflexivity.
  - rewrite Hafter. reflexivity.
Defined.

(** ** Texture loading *)

Section Loading.

Variable mtrlImages : gmap string string.











End Loading.



(** ** Shader variants and the alpha test *)

Example signature_bits :
  (Shader.LIT, Shader.ENVIRONMENT, Shader.ALPHA_TEST) = (1, 2, 28).
Proof. reflexivity. Qed.

(** From a signature to the snippet: for a signature that carries the
    selector [k], the fragment graph requires the comparison that [k]
    names, and none for [k = 0]. *)
Lemma build_fragment_selects (k : Z) :
  0 <= k <= 7 ->
  requires (Shader.build_fragment
              (Shader.shaderFlagsFromAlphaFunc (Js.JNum k)) Shader.uniforms_init)
  = match snippet_of_selector k with Some key => [key] | None => [] end.
Proof.
  intros Hk.
  assert (Hcases : k = 0 \/ k = 1 \/ k = 2 \/ k = 3 \/ k = 4 \/ k = 5 \/ k = 6 \/ k = 7) by lia.
  repeat (destruct Hcases as [-> | Hcases]; [vm_compute; reflexivity |]).
  subst k. vm_compute. reflexivity.
Qed.

(** A material that carries the selector in a property named [alphaFunc]
    gets its snippet. *)
Lemma Shader_reads_alphaFunc_property (k : Z) :
  0 <= k <= 7 ->
  requires (Shader.fragment (Shader.Shader
    (Mtrl.with_props {[ "alphaFunc" := Js.JNum k ]} (alpha_tested 0))))
  = match snippet_of_selector k with Some key => [key] | None => [] end.
Proof.
  intros Hk.
  assert (Hcases : k = 0 \/ k = 1 \/ k = 2 \/ k = 3 \/ k = 4 \/ k = 5 \/ k = 6 \/ k = 7) by lia.
  repeat (destruct Hcases as [-> | Hcases]; [vm_compute; reflexivity |]).
  subst k. vm_compute. reflexivity.
Qed.


(** The selector 3 names [testGreater]; the variant built for such a
    material requires nothing. *)
Example alpha_tested_greater :
  snippet_of_selector (Mtrl.alpha_func (alpha_tested 3)) = Some "testGreater" /\
  requires (Shader.fragment (Shader.Shader (alpha_tested 3))) = [].
Proof. split; reflexivity. Qed.

(** ** The vertex packer *)

Section Packer.

Local Open Scope nat_scope.

Variable Sol : Type.
Variable vertex_at : Sol -> nat -> Vertex.

Local Abbreviation addVertFromSol := (Mesh.addVertFromSol Sol vertex_at).
Local Abbreviation addVertsFromSol := (Mesh.addVertsFromSol Sol vertex_at).

Lemma length_pack (v : Vertex) : length (pack v) = Mesh.stride.
Proof. reflexivity. Qed.

Lemma unpack1_pack (v : Vertex) : unpack1 (pack v) = Some v.
Proof. destruct v as [[? ? ?] [? ? ?] [? ?]]. reflexivity. Qed.

Lemma unpack_pack (vs : list Vertex) :
  unpack (length vs) (concat (map pack vs)) = Some vs.
Proof.
  induction vs as [|v vs IH]; [reflexivity |].
  cbn [length map concat unpack].
  rewrite take_app_length' by reflexivity.
  rewrite drop_app_length' by reflexivity.
  rewrite unpack1_pack, IH. reflexivity.
Qed.

Lemma length_concat_pack {A} (g : A -> Vertex) (l : list A) :
  length (concat (map (fun x => pack (g x)) l)) = length l * 8.
Proof.
  induction l as [|x l IH]; [reflexivity |].
  cbn [map concat]. rewrite length_app, IH, length_pack. unfold Mesh.stride.
  cbn [length]. lia.
Qed.

(** Storing a record at the end of the filled part of the buffer, with
    room for it: the slots it covers are replaced. *)
Lemma store_view_fill (filled rest : list R) (record : list R) :
  length record = Mesh.stride ->
  Mesh.stride <= length rest ->
  Mesh.store_view (length filled) Mesh.stride record (filled ++ rest)
  = filled ++ record ++ drop Mesh.stride rest.
Proof.
  intros Hrec Hroom. unfold Mesh.store_view.
  rewrite length_app.
  replace (Mesh.stride `min` (length filled + length rest - length filled)) with Mesh.stride by lia.
  rewrite <- Hrec, firstn_all, Hrec.
  rewrite <- (Nat.add_0_r (length filled)) at 1.
  rewrite list_inserts_app_r.
  rewrite <- (take_drop Mesh.stride rest) at 1.
  rewrite list_inserts_0_r; [reflexivity |].
  rewrite length_take. lia.
Qed.

(** One append, on a mesh whose buffer is filled up to its count. *)
Lemma addVertFromSol_fill sol offs (this : Mesh.t) (filled rest : list R) :
  Mesh.verts this = Some (filled ++ rest) ->
  length filled = (Mesh.count this * Mesh.stride)%nat ->
  Mesh.stride <= length rest ->
  exists this',
    addVertFromSol sol offs this = Some this' /\
    Mesh.verts this' = Some ((filled ++ pack (vertex_at sol offs)) ++ drop Mesh.stride rest) /\
    Mesh.count this' = S (Mesh.count this) /\
    Mesh.mtrl this' = Mesh.mtrl this /\ Mesh.vbo this' = Mesh.vbo this.
Proof.
  intros Hverts Hfilled Hroom. unfold Mesh.addVertFromSol. rewrite Hverts.
  cbn [mbind option_bind]. eexists. split; [reflexivity |].
  cbn [Mesh.verts Mesh.count Mesh.mtrl Mesh.vbo].
  rewrite <- Hfilled, store_view_fill by (auto using length_pack).
  rewrite <- app_assoc. repeat split; reflexivity.
Qed.

(** Any number of appends that the buffer has room for. *)
Lemma addVertsFromSol_fill sol (offs : list nat) :
  forall (this : Mesh.t) (filled rest : list R),
    Mesh.verts this = Some (filled ++ rest) ->
    length filled = (Mesh.count this * Mesh.stride)%nat ->
    length offs * Mesh.stride <= length rest ->
    exists this',
      addVertsFromSol sol offs this = Some this' /\
      Mesh.verts this' =
        Some (filled ++ concat (map pack (map (vertex_at sol) offs))
                     ++ drop (length offs * Mesh.stride) rest) /\
      Mesh.count this' = (Mesh.count this + length offs)%nat /\
      Mesh.mtrl this' = Mesh.mtrl this /\ Mesh.vbo this' = Mesh.vbo this.
Proof.
  induction offs as [|o offs IH]; intros this filled rest Hverts Hfilled Hroom.
  - exists this. cbn [Mesh.addVertsFromSol map concat length Nat.mul drop app].
    rewrite Nat.add_0_r. auto.
  - cbn [length] in Hroom.
    destruct (addVertFromSol_fill sol o this filled rest Hverts Hfilled)
      as (this1 & Hadd & Hverts1 & Hcount1 & Hmtrl1 & Hvbo1); [lia |].
    destruct (IH this1 (filled ++ pack (vertex_at sol o)) (drop Mesh.stride rest) Hverts1)
      as (this2 & Hadds & Hverts2 & Hcount2 & Hmtrl2 & Hvbo2).
    { rewrite length_app, length_pack, Hfilled, Hcount1. lia. }
    { rewrite length_drop. lia. }
    exists this2. cbn [Mesh.addVertsFromSol]. rewrite Hadd. cbn [mbind option_bind].
    split; [exact Hadds |]. split.
    { rewrite Hverts2. cbn [map concat length]. rewrite drop_drop.
      rewrite <- !app_assoc. reflexivity. }
    split; [rewrite Hcount2, Hcount1; cbn [length]; lia |].
    split; congruence.
Qed.

(** C9, amended. A mesh made for [N >= 1] vertices and given [N] vertices
    holds the interleaved buffer of those vertices: [N * 8] floats, eight
    per vertex in the order position, normal, texcoord, that read back as
    the vertices in the order given; its count is [N]. *)
Theorem pack_round_trip sol (offs : list nat) (mtrl : option Mtrl.t) :
  offs <> [] ->
  packing_round_trip vertex_at sol offs mtrl /\
  exists mesh,
    addVertsFromSol sol offs (Mesh.new (length offs) mtrl) = Some mesh /\
    Mesh.verts mesh = Some (concat (map pack (map (vertex_at sol) offs))).
Proof.
  intros Hne.
  assert (Hn : (length offs =? 0)%nat = false)
    by (apply Nat.eqb_neq; destruct offs; [congruence | discriminate]).
  destruct (addVertsFromSol_fill sol offs (Mesh.new (length offs) mtrl)
              [] (replicate (Mesh.stride * length offs) 0%R))
    as (mesh & Hadds & Hverts & Hcount & _).
  { unfold Mesh.new. cbn [Mesh.verts]. rewrite Hn. reflexivity. }
  { reflexivity. }
  { rewrite length_replicate. lia. }
  rewrite drop_ge, app_nil_r in Hverts by (rewrite length_replicate; lia).
  cbn [app] in Hverts.
  split; [| exists mesh; auto].
  exists mesh, (concat (map pack (map (vertex_at sol) offs))).
  split; [exact Hadds |]. split; [exact Hverts |]. split.
  { rewrite map_map. apply length_concat_pack. }
  split.
  { rewrite <- (length_map (vertex_at sol) offs). apply unpack_pack. }
  exact Hcount.
Qed.

End Packer.

(** C9, counterexample. A mesh made for no vertex has no buffer at all
    ([verts] is [null]), so there is no buffer of [0 * 8] floats to read
    back. *)
Lemma pack_round_trip_no_vertex :
  Mesh.verts (Mesh.new 0 None) = None /\
  ~ packing_round_trip vertex_of_list [] [] None.
Proof.
  split; [reflexivity |].
  intros (mesh & buf & Hadds & Hverts & _).
  cbn in Hadds. injection Hadds as <-. discriminate Hverts.
Qed.

(** Two vertices through the packer. *)
Lemma pack_round_trip_witness :
  let v0 := {| v_position := vec3 1 2 3; v_normal := vec3 0 1 0; v_texcoord := vec2 0 1 |} in
  let v1 := {| v_position := vec3 4 5 6; v_normal := vec3 0 0 1; v_texcoord := vec2 1 0 |} in
  [0; 1]%nat <> [] /\
  packing_round_trip vertex_of_list [v0; v1] [0; 1]%nat None.
Proof.
  intros v0 v1.
  assert (Hne : [0; 1]%nat <> []) by discriminate.
  split; [exact Hne |].
  exact (proj1 (pack_round_trip (list Vertex) vertex_of_list [v0; v1] [0; 1]%nat None Hne)).
Defined.

(** ** Billboards *)

Section Billboards.

Import SolidModel.
Context {ops : glm.Ops}.

Lemma poly_0 (c : Vec3) (ts : R) : poly c (ts * 0) = x0 c.
Proof. unfold poly. rewrite Rmult_0_r, sin_0. lra. Qed.

Lemma nonzero_rotate (rot : Mat4 -> R -> Mat4) (deg : R) (M : Mat4) :
  (if nonzero deg then rot M (deg / 180.0 * PI)%R else M) = rotate_unless_zero rot deg M.
Proof.
  unfold nonzero, rotate_unless_zero. destruct (Req_dec_T deg 0); [reflexivity |].
  do 2 f_equal. lra.
Qed.

(** C5. With [T = t * g] and [S = sin T], the foreground transform of a
    billboard at global time [g] is the passed matrix rotated about x, y
    and z by [r0 + r1 * T + r2 * S] degrees (a rotation is left out when
    its angle is zero) and then scaled by (width, height, 0), where width
    is [w0 + w1 * T + w2 * S] and height likewise; at global time 0 the
    widths, heights and angles are the coefficients of index 0. *)
Theorem getForegroundTransform_spec (this : Billboard) (M : Mat4) (g : R) :
  (let T := (t this * g)%R in
   Billboard_getForegroundTransform this M g =
     glm.mat4_scale
       (rotate_unless_zero glm.mat4_rotateZ (poly (rz this) T)
          (rotate_unless_zero glm.mat4_rotateY (poly (ry this) T)
             (rotate_unless_zero glm.mat4_rotateX (poly (rx this) T) M)))
       (vec3 (poly (w this) T) (poly (h this) T) 0)) /\
  Billboard_getForegroundTransform this M 0 =
    glm.mat4_scale
      (rotate_unless_zero glm.mat4_rotateZ (x0 (rz this))
         (rotate_unless_zero glm.mat4_rotateY (x0 (ry this))
            (rotate_unless_zero glm.mat4_rotateX (x0 (rx this)) M)))
      (vec3 (x0 (w this)) (x0 (h this)) 0).
Proof.
  assert (Hgen : forall g',
    Billboard_getForegroundTransform this M g' =
      glm.mat4_scale
        (rotate_unless_zero glm.mat4_rotateZ (poly (rz this) (t this * g'))
           (rotate_unless_zero glm.mat4_rotateY (poly (ry this) (t this * g'))
              (rotate_unless_zero glm.mat4_rotateX (poly (rx this) (t this * g')) M)))
        (vec3 (poly (w this) (t this * g')) (poly (h this) (t this * g')) 0)).
  { intros g'. unfold Billboard_getForegroundTransform. cbv zeta.
    rewrite !nonzero_rotate. unfold poly. do 2 f_equal. lra. }
  split; [apply Hgen |].
  rewrite Hgen, !poly_0. reflexivity.
Qed.

End Billboards.

(** ** Building the scene *)

Section SceneBuilder.

Import SolidModel.
Context {ops : glm.Ops} {collab : Collaborators}.

Lemma Mtrl_new_defaults {A} (x : A) :
  Mtrl.new x = Mtrl.new tt /\ material_defaults (Mtrl.new x) /\
  Mtrl.isOpaque (Mtrl.new x) = true.
Proof. repeat split. Qed.

Lemma vec3_eta (p : Vec3) : vec3 (x0 p) (x1 p) (x2 p) = p.
Proof. destruct p. reflexivity. Qed.

Lemma fromSol_materials_spec (sol : Sol) (heap : gmap MoverRef Mover) :
  materials (fromSol sol heap).1.1 = Some (map (fun solMtrl => Mtrl.new solMtrl) (mv sol)).
Proof.
  unfold fromSol, fromSol_materials.
  destruct (fromSol_bodies _ _ _) as [[bodies bmodels] heap']. reflexivity.
Qed.

(** C10. The material constructor ignores the decoded record: the scene
    builder makes one material per record, in order, and each one is the
    material as constructed from no input: flag word 0, empty name, alpha
    function 0, no texture and the default colours and shininess. Each one
    passes the opaque bucket test. *)
Theorem materials_ignore_records (sol : Sol) (heap : gmap MoverRef Mover) :
  exists ms,
    materials (fromSol sol heap).1.1 = Some ms /\
    length ms = length (mv sol) /\
    Forall (fun m => m = Mtrl.new tt /\ material_defaults m /\
                     Mtrl.isOpaque m = true) ms.
Proof.
  eexists. split; [apply fromSol_materials_spec |].
  split; [apply length_map |].
  apply Forall_forall. intros m Hin.
  apply list_elem_of_In, in_map_iff in Hin as (solMtrl & <- & _).
  apply Mtrl_new_defaults.
Qed.

(** ** Items and balls *)

Lemma fromSol_item_spec (solItem : SolItem) (ent : Entity) :
  fromSol_item solItem = Some ent ->
  exists sp,
    spatial ent = Some sp /\
    position sp = item_p solItem /\
    scale sp = IsVec3 (vec3 0.15 0.15 0.15) /\
    modelMatrix ent = Some (scale_then_translate 0.15 (item_p solItem)).
Proof.
  unfold fromSol_item. destruct (itemTags (item_t solItem)); [| discriminate].
  intros [= <-]. eexists. split; [reflexivity |].
  cbn. rewrite vec3_eta. auto.
Qed.

Lemma filter_Forall_not {A} (P : A -> Prop) `{forall x, Decision (P x)} (l : list A) :
  Forall (fun x => ~ P x) l -> filter P l = [].
Proof.
  induction 1 as [|x l Hx _ IH]; [reflexivity |].
  rewrite filter_cons, decide_False by exact Hx. exact IH.
Qed.

Lemma filter_Forall_all {A} (P : A -> Prop) `{forall x, Decision (P x)} (l : list A) :
  Forall P l -> filter P l = l.
Proof.
  induction 1 as [|x l Hx _ IH]; [reflexivity |].
  rewrite filter_cons, decide_True by exact Hx. rewrite IH. reflexivity.
Qed.

Lemma fromSol_bodies_tags (sol : Sol) (bv : list SolBody) (heap : gmap MoverRef Mover) :
  Forall (fun ent => tags ent = ["body"]) (fromSol_bodies sol bv heap).1.1.
Proof.
  revert heap. induction bv as [|solBody bv IH]; intros heap; [constructor |].
  cbn [fromSol_bodies]. unfold fromSol_body.
  destruct (Mover_fromSolBody sol solBody heap) as [mvs heap1].
  specialize (IH heap1).
  destruct (fromSol_bodies sol bv heap1) as [[ents ms] heap2].
  cbn in *. constructor; [reflexivity | exact IH].
Qed.

Lemma fromSol_item_tags (solItem : SolItem) (ent : Entity) :
  fromSol_item solItem = Some ent -> hasTag "ball" ent = false.
Proof.
  unfold fromSol_item, itemTags.
  destruct (item_t solItem =? 1); [intros [= <-]; reflexivity |].
  destruct (item_t solItem =? 2); [intros [= <-]; reflexivity |].
  destruct (item_t solItem =? 3); [intros [= <-]; reflexivity | discriminate].
Qed.

(** One entity per decoded ball carries the tag [ball], in the order of
    the balls. *)
Lemma fromSol_ball_entities (sol : Sol) (heap : gmap MoverRef Mover) :
  exists ents,
    entities (fromSol sol heap).1.1 = Some ents /\
    filter (fun ent => hasTag "ball" ent = true) ents = map fromSol_ball (uv sol).
Proof.
  unfold fromSol, fromSol_materials.
  match goal with
  | |- context [fromSol_bodies ?s ?b ?h] =>
      pose proof (fromSol_bodies_tags s b h) as Hbodies;
      destruct (fromSol_bodies s b h) as [[bodies bmodels] heap']
  end.
  cbn [fst snd entities hv uv rv] in *.
  eexists. split; [reflexivity |].
  rewrite !filter_app.
  rewrite (filter_Forall_not _ bodies), (filter_Forall_not _ (omap _ _)),
    (filter_Forall_all _ (map fromSol_ball _)), (filter_Forall_not _ (map (fromSol_bill _) _)).
  - rewrite app_nil_r. reflexivity.
  - apply Forall_forall. intros ent Hin.
    apply list_elem_of_In, in_map_iff in Hin as (solBill & <- & _). discriminate.
  - apply Forall_forall. intros ent Hin.
    apply list_elem_of_In, in_map_iff in Hin as (solBall & <- & _). reflexivity.
  - apply Forall_forall. intros ent Hin.
    apply list_elem_of_omap in Hin as (solItem & _ & Hitem).
    rewrite (fromSol_item_tags _ _ Hitem). discriminate.
  - eapply Forall_impl; [exact Hbodies |]. intros ent Htags.
    unfold hasTag. rewrite Htags. discriminate.
Qed.

(** C8, the code at any ball. The entity of a ball is tagged [ball], its
    position is the ball's position and its matrix is the scale by the
    radius followed by the translation to the position, as for items; but
    its scale is the radius as a bare number, where an item's scale is a
    3-vector. *)
Theorem ball_scale_is_a_number (solBall : SolBall) :
  let ent := fromSol_ball solBall in
  tags ent = ["ball"] /\
  modelMatrix ent = Some (scale_then_translate (ball_r solBall) (ball_p solBall)) /\
  exists sp,
    spatial ent = Some sp /\
    position sp = ball_p solBall /\
    scale sp = IsNum (ball_r solBall) /\
    forall v, scale sp <> IsVec3 v.
Proof.
  cbn. split; [reflexivity |]. split; [reflexivity |].
  eexists. split; [reflexivity |]. cbn. rewrite vec3_eta.
  repeat split. discriminate.
Qed.

End SceneBuilder.

(** ** Stepping the movers *)

Section Step.

Import SolidModel.
Context {ops : glm.Ops} {collab : Collaborators}.

Implicit Types (heap : gmap MoverRef Mover) (ent : Entity) (r tr ro : MoverRef).

Lemma call_step_Some dt r heap (st : Mover) :
  heap !! r = Some st ->
  call_step dt (Some r) heap = Some (<[r := Mover_step dt st]> heap).
Proof. intros Hr. unfold call_step. cbn. rewrite Hr. reflexivity. Qed.

(** The loop body on an entity whose movers are in the heap: each of the
    two movers is advanced once, the shared one once; no other object of
    the heap changes. *)
Lemma step_entity_spec dt ent heap tr ro (st_t st_r : Mover) :
  has_Spatial_ModelMatrix_Movers ent = true ->
  movers ent = Some {| translate := Some tr; rotate := Some ro |} ->
  heap !! tr = Some st_t ->
  heap !! ro = Some st_r ->
  exists ent' heap1,
    step_entity dt ent heap = Some (ent', heap1) /\
    heap1 !! tr = Some (Mover_step dt st_t) /\
    heap1 !! ro = Some (Mover_step dt st_r) /\
    (forall k, k <> tr -> k <> ro -> heap1 !! k = heap !! k) /\
    movers ent' = movers ent.
Proof.
  intros Hq Hmv Ht Hr.
  unfold has_Spatial_ModelMatrix_Movers in Hq.
  apply andb_true_iff in Hq as [Hq _]. apply andb_true_iff in Hq as [Hsp _].
  apply bool_decide_eq_true in Hsp as [sp Hsp].
  unfold step_entity. rewrite Hmv, Hsp. cbn [mbind option_bind translate rotate].
  destruct (decide (tr = ro)) as [<- | Hne].
  - assert (st_r = st_t) as -> by congruence.
    rewrite bool_decide_eq_true_2 by reflexivity.
    rewrite (call_step_Some dt tr heap st_t Ht).
    cbn [mbind option_bind]. rewrite lookup_insert_eq. cbn [mbind option_bind].
    do 2 eexists. split; [reflexivity |].
    rewrite lookup_insert_eq. repeat split; try reflexivity.
    intros k Hk _. apply lookup_insert_ne. congruence.
  - rewrite bool_decide_eq_false_2 by congruence.
    rewrite (call_step_Some dt tr heap st_t Ht). cbn [mbind option_bind].
    rewrite (call_step_Some dt ro _ st_r) by (rewrite lookup_insert_ne; auto).
    set (heap1 := <[ro := Mover_step dt st_r]> (<[tr := Mover_step dt st_t]> heap)).
    assert (Ht1 : heap1 !! tr = Some (Mover_step dt st_t)).
    { unfold heap1. rewrite lookup_insert_ne by congruence. apply lookup_insert_eq. }
    assert (Hr1 : heap1 !! ro = Some (Mover_step dt st_r)) by apply lookup_insert_eq.
    cbn [mbind option_bind]. rewrite Ht1. cbn [mbind option_bind].
    rewrite Hr1. cbn [mbind option_bind].
    do 2 eexists. split; [reflexivity |].
    repeat split; [exact Ht1 | exact Hr1 |].
    intros k Hkt Hkr. unfold heap1. rewrite !lookup_insert_ne by congruence. reflexivity.
Qed.

Lemma movers_ready_dom heap heap' ent :
  (forall k, is_Some (heap' !! k) <-> is_Some (heap !! k)) ->
  movers_ready heap ent -> movers_ready heap' ent.
Proof.
  intros Hdom Hready Hq. destruct (Hready Hq) as (tr & ro & Hmv & Ht & Hr).
  exists tr, ro. rewrite !Hdom. auto.
Qed.

(** The loop over a list of ready entities completes; it keeps the set of
    objects of the heap, and it leaves alone every mover that no entity of
    the query in the list refers to. *)
Lemma step_entities_frame dt (ents : list Entity) :
  forall heap,
    Forall (movers_ready heap) ents ->
    exists ents' heap',
      step_entities dt ents heap = Some (ents', heap') /\
      (forall k, is_Some (heap' !! k) <-> is_Some (heap !! k)) /\
      (forall k,
         Forall (fun e => has_Spatial_ModelMatrix_Movers e = true -> ~ uses_mover k e) ents ->
         heap' !! k = heap !! k).
Proof.
  induction ents as [|ent ents IH]; intros heap Hready.
  - exists [], heap. repeat split; auto.
  - apply Forall_cons in Hready as [Hent Hrest]. cbn [step_entities].
    destruct (has_Spatial_ModelMatrix_Movers ent) eqn:Hq.
    + destruct (Hent Hq) as (tr & ro & Hmv & [st_t Ht] & [st_r Hr]).
      destruct (step_entity_spec dt ent heap tr ro st_t st_r Hq Hmv Ht Hr)
        as (ent' & heap1 & Hstep & Ht1 & Hr1 & Hframe & _).
      assert (Hdom1 : forall k, is_Some (heap1 !! k) <-> is_Some (heap !! k)).
      { intros k. destruct (decide (k = tr)) as [-> | Hkt].
        { rewrite Ht1, Ht. split; eauto. }
        destruct (decide (k = ro)) as [-> | Hkr].
        { rewrite Hr1, Hr. split; eauto. }
        rewrite Hframe by assumption. reflexivity. }
      destruct (IH heap1) as (ents' & heap' & Hsteps & Hdom & Hfr).
      { eapply Forall_impl; [exact Hrest |]. intros e. apply movers_ready_dom, Hdom1. }
      exists (ent' :: ents'), heap'. rewrite Hstep. cbn [mbind option_bind].
      rewrite Hsteps. cbn [mbind option_bind]. split; [reflexivity |]. split.
      * intros k. rewrite Hdom. apply Hdom1.
      * intros k Hk. apply Forall_cons in Hk as [Hk Hks].
        rewrite Hfr by exact Hks. apply Hframe.
        -- intros ->. apply (Hk Hq). eexists. split; [exact Hmv |]. left. reflexivity.
        -- intros ->. apply (Hk Hq). eexists. split; [exact Hmv |]. right. reflexivity.
    + destruct (IH heap Hrest) as (ents' & heap' & Hsteps & Hdom & Hfr).
      exists (ent :: ents'), heap'. cbn [mbind option_bind].
      rewrite Hsteps. cbn [mbind option_bind]. split; [reflexivity |]. split; [exact Hdom |].
      intros k Hk. apply Forall_cons in Hk as [_ Hks]. apply Hfr, Hks.
Qed.

Lemma step_entities_app dt (ents1 ents2 : list Entity) heap :
  step_entities dt (ents1 ++ ents2) heap =
    '(ents1', heap1) ← step_entities dt ents1 heap;
    '(ents2', heap2) ← step_entities dt ents2 heap1;
    Some (ents1' ++ ents2', heap2).
Proof.
  revert heap. induction ents1 as [|ent ents1 IH]; intros heap.
  - cbn. destruct (step_entities dt ents2 heap) as [[? ?]|]; reflexivity.
  - cbn [app step_entities].
    destruct (if has_Spatial_ModelMatrix_Movers ent then step_entity dt ent heap
              else Some (ent, heap)) as [[ent1 heap1]|]; [| reflexivity].
    cbn [mbind option_bind]. rewrite IH.
    destruct (step_entities dt ents1 heap1) as [[ents1' heap2]|]; [| reflexivity].
    cbn [mbind option_bind].
    destruct (step_entities dt ents2 heap2) as [[ents2' heap3]|]; reflexivity.
Qed.

(** C4. In a scene whose entities are ready to be stepped, take an entity
    with Spatial, ModelMatrix and Movers whose movers no other entity of
    the query refers to. One step of the scene by [dt] completes and
    leaves its translate-mover and its rotate-mover each advanced by
    exactly one [step(dt)]; when the two references are the same object,
    that object is advanced by one [step(dt)], not by two. *)
Theorem step_advances_movers_once dt (this : SolidModel) heap
    (ents1 ents2 : list Entity) ent tr ro (st_t st_r : Mover) :
  entities this = Some (ents1 ++ ent :: ents2) ->
  Forall (movers_ready heap) (ents1 ++ ent :: ents2) ->
  has_Spatial_ModelMatrix_Movers ent = true ->
  movers ent = Some {| translate := Some tr; rotate := Some ro |} ->
  heap !! tr = Some st_t ->
  heap !! ro = Some st_r ->
  Forall (fun e => has_Spatial_ModelMatrix_Movers e = true ->
                   ~ uses_mover tr e /\ ~ uses_mover ro e) (ents1 ++ ents2) ->
  exists this' heap',
    step dt this heap = Some (this', heap') /\
    heap' !! tr = Some (Mover_step dt st_t) /\
    heap' !! ro = Some (Mover_step dt st_r) /\
    (tr = ro -> st_t = st_r).
Proof.
  intros Hents Hready Hq Hmv Ht Hr Hothers.
  apply Forall_app in Hready as [Hready1 Hready2].
  apply Forall_cons in Hready2 as [_ Hready2].
  apply Forall_app in Hothers as [Hothers1 Hothers2].
  assert (Hsplit : forall (l : list Entity),
            Forall (fun e => has_Spatial_ModelMatrix_Movers e = true ->
                             ~ uses_mover tr e /\ ~ uses_mover ro e) l ->
            Forall (fun e => has_Spatial_ModelMatrix_Movers e = true -> ~ uses_mover tr e) l /\
            Forall (fun e => has_Spatial_ModelMatrix_Movers e = true -> ~ uses_mover ro e) l).
  { intros l Hl. split; (eapply Forall_impl; [exact Hl |]);
      intros e He Hqe; apply (He Hqe). }
  destruct (Hsplit _ Hothers1) as [Ht1 Hr1], (Hsplit _ Hothers2) as [Ht2 Hr2].
  (* the entities before *)
  destruct (step_entities_frame dt ents1 heap Hready1)
    as (ents1' & heap1 & Hsteps1 & Hdom1 & Hframe1).
  (* the entity itself *)
  destruct (step_entity_spec dt ent heap1 tr ro st_t st_r Hq Hmv)
    as (ent' & heap2 & Hstep & Ht' & Hr' & Hframe2 & _).
  { rewrite Hframe1 by exact Ht1. exact Ht. }
  { rewrite Hframe1 by exact Hr1. exact Hr. }
  assert (Hdom2 : forall k, is_Some (heap2 !! k) <-> is_Some (heap !! k)).
  { intros k. rewrite <- Hdom1. destruct (decide (k = tr)) as [-> | Hkt].
    { rewrite Ht', Hdom1, Ht. split; eauto. }
    destruct (decide (k = ro)) as [-> | Hkr].
    { rewrite Hr', Hdom1, Hr. split; eauto. }
    rewrite Hframe2 by assumption. reflexivity. }
  (* the entities after *)
  destruct (step_entities_frame dt ents2 heap2) as (ents2' & heap3 & Hsteps2 & _ & Hframe3).
  { eapply Forall_impl; [exact Hready2 |]. intros e. apply movers_ready_dom, Hdom2. }
  eexists _, heap3. split.
  - unfold step. rewrite Hents. cbn [mbind option_bind].
    rewrite step_entities_app, Hsteps1. cbn [mbind option_bind step_entities].
    rewrite Hq, Hstep. cbn [mbind option_bind]. rewrite Hsteps2. reflexivity.
  - rewrite !Hframe3 by assumption. repeat split; [exact Ht' | exact Hr' |].
    intros ->. congruence.
Qed.

End Step.

Lemma moved_entity_ready (tr ro : SolidModel.MoverRef) :
  is_Some (counters !! tr) -> is_Some (counters !! ro) ->
  movers_ready (H := counting_movers) counters (moved_entity tr ro).
Proof. intros Ht Hr _. exists tr, ro. auto. Qed.

(** The shared step counter of the first body reads 1 after one step of
    the scene, not 2. *)
Lemma step_advances_movers_once_witness :
  SolidModel.has_Spatial_ModelMatrix_Movers (moved_entity 0%nat 0%nat) = true /\
  counters !! 0%nat = Some 0%nat /\
  exists this' heap',
    SolidModel.step (ops := ops_example) (collab := counting_movers)
      0.5%R moved_scene counters = Some (this', heap') /\
    heap' !! 0%nat = Some 1%nat.
Proof.
  split; [reflexivity |]. split; [reflexivity |].
  destruct (step_advances_movers_once (ops := ops_example) (collab := counting_movers)
              0.5%R moved_scene counters [] [moved_entity 1%nat 2%nat] (moved_entity 0%nat 0%nat)
              0%nat 0%nat 0%nat 0%nat)
    as (this' & heap' & Hstep & Ht & _).
  - reflexivity.
  - repeat constructor; apply moved_entity_ready; eexists; reflexivity.
  - reflexivity.
  - reflexivity.
  - reflexivity.
  - reflexivity.
  - repeat constructor; intros (mvs & Hmv & [Hu | Hu]);
      injection Hmv as <-; discriminate Hu.
  - exists this', heap'. split; [exact Hstep | exact Ht].
Defined.

(** The whole heap after that step: every counter reads 1. *)
Example step_counts :
  snd <$> SolidModel.step (ops := ops_example) (collab := counting_movers)
            0.5%R moved_scene counters
  = Some {[ 0%nat := 1%nat; 1%nat := 1%nat; 2%nat := 1%nat ]}.
Proof. vm_compute. reflexivity. Qed.

(** * Further properties *)

(** ** Materials: texture creation and applied state *)

Lemma land_pow2_testbit (x k : Z) :
  0 <= k -> (Z.land x (2 ^ k) =? 0) = negb (Z.testbit x k).
Proof.
  intros Hk. destruct (Z.testbit x k) eqn:Hb; cbn [negb].
  - apply Z.eqb_neq. intros E.
    assert (Hbit : Z.testbit (Z.land x (2 ^ k)) k = true).
    { rewrite Z.land_spec, Hb, Z.pow2_bits_true by exact Hk. reflexivity. }
    rewrite E, Z.bits_0 in Hbit. discriminate Hbit.
  - apply Z.eqb_eq, Z.bits_inj'. intros i Hi.
    rewrite Z.land_spec, Z.bits_0, Z.pow2_bits_eqb by exact Hk.
    destruct (Z.eqb_spec k i) as [<- | Hne].
    + rewrite Hb. reflexivity.
    + apply andb_false_r.
Qed.

(** A flag test reads one bit of the 32-bit image of the flag word. *)
Lemma has_flag_bit (this : Mtrl.t) (k : Z) :
  0 <= k <= 10 ->
  Mtrl.has this (2 ^ k) = Z.testbit (Js.wrap32 (Mtrl.fl this)) k.
Proof.
  intros Hk. unfold Mtrl.has, Js.band.
  rewrite (wrap32_small (2 ^ k)).
  - rewrite land_pow2_testbit by lia. apply negb_involutive.
  - split; [pose proof (Z.pow_pos_nonneg 2 k); lia |].
    apply Z.lt_le_trans with (2 ^ 11); [apply Z.pow_lt_mono_r; lia | cbn; lia].
Qed.

(** X1. Creating the texture of a material stores the new handle in the
    material and changes nothing else of it; the wrap mode on S is
    clamp-to-edge exactly when bit 1 (clamp-S) of the flag word is set and
    the wrap mode on T exactly when bit 0 (clamp-T) is, each independent
    of the other; and the call leaves no 2D texture bound, whatever was
    bound before. *)
Theorem createTexture_wrap_modes (this : Mtrl.t) (fresh : Texture) (img : Image)
    (s : GlState) :
  let this' := fst (Mtrl.createTexture this fresh img) in
  let calls := snd (Mtrl.createTexture this fresh img) in
  Mtrl.tex this' = Some fresh /\
  Mtrl.with_tex (Mtrl.tex this) this' = this /\
  wrap_modes calls =
    [ (Gl.TEXTURE_WRAP_S,
       if Z.testbit (Js.wrap32 (Mtrl.fl this)) 1 then Gl.CLAMP_TO_EDGE else Gl.REPEAT);
      (Gl.TEXTURE_WRAP_T,
       if Z.testbit (Js.wrap32 (Mtrl.fl this)) 0 then Gl.CLAMP_TO_EDGE else Gl.REPEAT) ] /\
  texture_2d (gl_after calls s) = None.
Proof.
  cbn [fst snd Mtrl.createTexture].
  split; [reflexivity |]. split; [destruct this; reflexivity |].
  change Mtrl.CLAMP_S with (2 ^ 1). change Mtrl.CLAMP_T with (2 ^ 0).
  rewrite !has_flag_bit by lia.
  split; reflexivity.
Qed.

(** The state after applying a material, in closed form. *)
Lemma Mtrl_draw_state (m : Mtrl.t) (state : State) (s : GlState) :
  gl_after (Gl.trace (Mtrl.draw m state)) s = material_state m state s.
Proof.
  unfold Mtrl.draw, material_state.
  destruct (enableTextures state && bool_decide (is_Some (Mtrl.tex m)));
    destruct (Mtrl.has m Mtrl.ENVIRONMENT), (Mtrl.has m Mtrl.ADDITIVE),
      (Mtrl.has m Mtrl.TWO_SIDED), (Mtrl.has m Mtrl.DECAL); reflexivity.
Qed.

(** X2. Applying a material sets the bound texture, the six material
    uniforms, the blend function, face culling and the polygon offset from
    the material alone: nothing of a material applied before survives, and
    the array buffer binding and the depth state are not touched. The
    blend function is additive exactly for an additive material, culling
    is off exactly for a two-sided one, and the polygon offset is on, with
    bias (-1, -2), exactly for a decal. *)
Theorem Mtrl_draw_overrides (m1 m2 : Mtrl.t) (state : State) (s : GlState) :
  let after2 := gl_after (Gl.trace (Mtrl.draw m2 state)) s in
  gl_after (Gl.trace (Mtrl.draw m1 state) ++ Gl.trace (Mtrl.draw m2 state)) s = after2 /\
  array_buffer after2 = array_buffer s /\
  depth after2 = depth s /\
  blend after2 = (Gl.SRC_ALPHA,
                  if Z.testbit (Js.wrap32 (Mtrl.fl m2)) 2 then Gl.ONE
                  else Gl.ONE_MINUS_SRC_ALPHA) /\
  cull_face after2 = negb (Z.testbit (Js.wrap32 (Mtrl.fl m2)) 3) /\
  polygon_offset_fill after2 = Z.testbit (Js.wrap32 (Mtrl.fl m2)) 5 /\
  polygon_offset after2 =
    (if Z.testbit (Js.wrap32 (Mtrl.fl m2)) 5 then ((-1)%R, (-2)%R) else (0%R, 0%R)).
Proof.
  cbv zeta. unfold gl_after at 1. rewrite fold_left_app.
  fold (gl_after (Gl.trace (Mtrl.draw m1 state)) s).
  fold (gl_after (Gl.trace (Mtrl.draw m2 state))
          (gl_after (Gl.trace (Mtrl.draw m1 state)) s)).
  rewrite !Mtrl_draw_state. split.
  - unfold material_state. cbn [texture_2d array_buffer uniform blend cull_face
      polygon_offset_fill polygon_offset depth].
    f_equal. apply map_eq. intros k.
    rewrite !lookup_insert. repeat case_decide; reflexivity.
  - unfold material_state. cbn [texture_2d array_buffer uniform blend cull_face
      polygon_offset_fill polygon_offset depth].
    change Mtrl.ADDITIVE with (2 ^ 2). change Mtrl.TWO_SIDED with (2 ^ 3).
    change Mtrl.DECAL with (2 ^ 5).
    rewrite !has_flag_bit by lia.
    repeat split; try reflexivity.
    + destruct (Z.testbit _ 2); reflexivity.
    + destruct (Z.testbit _ 5); f_equal; lra.
Qed.



(** ** Shader signatures and graphs *)

Lemma land_low (n x m : Z) :
  0 <= n -> 0 <= m < 2 ^ n -> Z.land x m = Z.land (x mod 2 ^ n) m.
Proof.
  intros Hn Hm.
  assert (E : Z.land m (Z.ones n) = m).
  { rewrite Z.land_ones by lia. apply Z.mod_small. lia. }
  rewrite <- E at 1. rewrite (Z.land_comm m), Z.land_assoc.
  rewrite Z.land_ones by lia. reflexivity.
Qed.

Lemma low5_range flags : 0 <= low5 flags < 32.
Proof. unfold low5. apply Z.mod_pos_bound. lia. Qed.

Lemma wrap32_low5 flags : Js.wrap32 (low5 flags) = low5 flags.
Proof. apply wrap32_small. pose proof (low5_range flags). lia. Qed.

(** A mask below 32 meets only the five low bits of a signature. *)
Lemma band_low5 flags c :
  0 <= c < 32 -> Js.band flags c = Js.band (low5 flags) c.
Proof.
  intros Hc. unfold Js.band. rewrite wrap32_low5. unfold low5.
  rewrite (wrap32_small c) by lia.
  apply (land_low 5); [lia | exact Hc].
Qed.

Lemma alphaFunc_low5 flags :
  Shader.alphaFuncFromShaderFlags flags = Shader.alphaFuncFromShaderFlags (low5 flags).
Proof.
  unfold Shader.alphaFuncFromShaderFlags, Js.band, Js.shr.
  rewrite wrap32_low5. change (2 mod 32) with 2. change (Js.wrap32 7) with (Z.ones 3).
  pose proof (wrap32_range flags) as Hy. pose proof (low5_range flags) as Hb.
  unfold low5 in *. set (y := Js.wrap32 flags) in *.
  rewrite !Z.shiftr_div_pow2 by lia. change (2 ^ 2) with 4.
  rewrite !wrap32_small by (split; [apply Z.div_le_lower_bound | apply Z.div_lt_upper_bound]; lia).
  rewrite !Z.land_ones by lia. change (2 ^ 3) with 8.
  Z.div_mod_to_equations. lia.
Qed.

Lemma build_low5 flags u :
  Shader.build_fragment flags u = Shader.build_fragment (low5 flags) u /\
  Shader.build_vertex flags u = Shader.build_vertex (low5 flags) u.
Proof.
  unfold Shader.build_fragment, Shader.build_vertex.
  rewrite <- alphaFunc_low5.
  rewrite <- !(band_low5 flags) by (vm_compute; split; [discriminate | reflexivity]).
  split; reflexivity.
Qed.

Lemma low5_all (check : Z -> bool) :
  forallb (fun n => check (Z.of_nat n)) (seq 0 32) = true ->
  forall flags, check (low5 flags) = true.
Proof.
  intros Hall flags. rewrite forallb_forall in Hall.
  pose proof (low5_range flags) as Hb.
  specialize (Hall (Z.to_nat (low5 flags))).
  rewrite Z2Nat.id in Hall by lia. apply Hall, in_seq. lia.
Qed.

Lemma val_band7_range (v : Js.JsVal) : 0 <= Js.val_band v 7 <= 7.
Proof.
  unfold Js.val_band. change (Js.wrap32 7) with (Z.ones 3).
  rewrite Z.land_ones by lia. pose proof (Z.mod_pos_bound (Js.ToInt32 v) (2 ^ 3)). lia.
Qed.

(** X4. Encoding an alpha function into a signature and decoding it gives
    the function back, reduced to three bits; the encoding stays inside
    the alpha-test bits of the signature and sets neither the lit nor the
    environment bit. *)
Theorem alpha_selector_round_trip (v : Js.JsVal) :
  let flags := Shader.shaderFlagsFromAlphaFunc v in
  Shader.alphaFuncFromShaderFlags flags = Js.val_band v 7 /\
  0 <= Js.val_band v 7 <= 7 /\
  (forall k, 0 <= k <= 7 -> Js.val_band (Js.JNum k) 7 = k) /\
  Js.band flags Shader.ALPHA_TEST = flags /\
  Js.band flags (Js.bor Shader.LIT Shader.ENVIRONMENT) = 0.
Proof.
  cbv zeta. unfold Shader.shaderFlagsFromAlphaFunc.
  pose proof (val_band7_range v) as Hx.
  split; [| split; [exact Hx | split]].
  - set (x := Js.val_band v 7) in *. clearbody x.
    assert (Hc : x = 0 \/ x = 1 \/ x = 2 \/ x = 3 \/ x = 4 \/ x = 5 \/ x = 6 \/ x = 7) by lia.
    repeat (destruct Hc as [-> | Hc]; [reflexivity |]). subst x. reflexivity.
  - intros k Hk.
    assert (Hc : k = 0 \/ k = 1 \/ k = 2 \/ k = 3 \/ k = 4 \/ k = 5 \/ k = 6 \/ k = 7) by lia.
    repeat (destruct Hc as [-> | Hc]; [reflexivity |]). subst k. reflexivity.
  - set (x := Js.val_band v 7) in *. clearbody x.
    assert (Hc : x = 0 \/ x = 1 \/ x = 2 \/ x = 3 \/ x = 4 \/ x = 5 \/ x = 6 \/ x = 7) by lia.
    split; repeat (destruct Hc as [-> | Hc]; [reflexivity |]); subst x; reflexivity.
Qed.

Lemma alpha_selector_round_trip_witness :
  0 <= 5 <= 7 /\
  Shader.alphaFuncFromShaderFlags (Shader.shaderFlagsFromAlphaFunc (Js.JNum 5)) = 5.
Proof.
  split; [lia |].
  destruct (alpha_selector_round_trip (Js.JNum 5)) as (Hdec & _ & Hk & _).
  rewrite Hdec. apply Hk. lia.
Defined.

(** X5. For every signature, whatever integer it is: the selector it
    decodes to is between 0 and 7; the fragment graph requires exactly the
    comparison snippet that the selector names, and none for selector 0;
    it pipes the alpha test exactly when it requires a comparison; it
    reads the light colour exactly when the lit bit is set; and its last
    snippet writes the fragment colour. *)
Theorem fragment_follows_signature (flags : Z)
    (u : gmap string (list (string * string))) :
  let k := Shader.alphaFuncFromShaderFlags flags in
  let g := Shader.build_fragment flags u in
  0 <= k <= 7 /\
  requires g = match snippet_of_selector k with Some key => [key] | None => [] end /\
  names_key "frag.alphaTest" g = negb (k =? 0) /\
  names_key "frag.getLightColor" g = negb (Js.band flags Shader.LIT =? 0) /\
  last (graph_keys g) = Some "frag.setFragColor".
Proof.
  cbv zeta.
  assert (Hchk : fragment_ok u (low5 flags) = true).
  { apply (low5_all (fragment_ok u)). vm_compute. reflexivity. }
  unfold fragment_ok in Hchk.
  rewrite <- alphaFunc_low5, <- (proj1 (build_low5 flags u)) in Hchk.
  rewrite <- (band_low5 flags Shader.LIT) in Hchk
    by (vm_compute; split; [discriminate | reflexivity]).
  repeat (apply andb_true_iff in Hchk as [Hchk ?]).
  split.
  { unfold Shader.alphaFuncFromShaderFlags, Js.band. change (Js.wrap32 7) with (Z.ones 3).
    rewrite Z.land_ones by lia.
    pose proof (Z.mod_pos_bound (Js.wrap32 (Js.shr flags 2)) (2 ^ 3)). lia. }
  split; [apply (bool_decide_eq_true_1 _ Hchk) |].
  split; [apply Bool.eqb_prop; assumption |].
  split; [apply Bool.eqb_prop; assumption |].
  eapply bool_decide_eq_true_1; eassumption.
Qed.

(** X6. Every snippet key that the fragment graph or the vertex graph of
    any signature names, required comparisons and piped subgraphs
    included, is a key of the snippet library: [fetchSnippet] never
    answers [undefined] to the graph builder. *)
Theorem graph_keys_resolve (flags : Z) (u : gmap string (list (string * string))) :
  Forall (fun key => is_Some (Shader.fetchSnippet key))
         (graph_keys (Shader.build_fragment flags u)
          ++ graph_keys (Shader.build_vertex flags u)).
Proof.
  assert (Hchk : keys_resolve u (low5 flags) = true).
  { apply (low5_all (keys_resolve u)). vm_compute. reflexivity. }
  unfold keys_resolve in Hchk.
  destruct (build_low5 flags u) as [Ef Ev]. rewrite <- Ef, <- Ev in Hchk.
  rewrite forallb_forall in Hchk. apply Forall_forall. intros key Hin.
  apply list_elem_of_In in Hin.
  apply (bool_decide_eq_true_1 _ (Hchk key Hin)).
Qed.

(** X7. The signature built for a material never has the lit bit, since
    the flag it is taken from is not a flag of materials: no variant reads
    the light colour. Its environment bit is the material's environment
    flag, and the vertex graph computes sphere-map coordinates exactly
    then and passes the texture coordinates of the input through
    otherwise. Its selector is the three low bits of the material's
    [alphaFunc] property when the alpha-test flag is set and 0 when it is
    not. *)
Theorem material_signature (m : Mtrl.t) :
  let sh := Shader.Shader m in
  let flags := Shader.shaderFlags sh in
  Js.band flags Shader.LIT = 0 /\
  names_key "frag.getLightColor" (Shader.fragment sh) = false /\
  Shader.alphaFuncFromShaderFlags flags =
    (if Mtrl.has m Mtrl.ALPHA_TEST
     then Js.val_band (Js.get (Mtrl.props m) "alphaFunc") 7 else 0) /\
  negb (Js.band flags Shader.ENVIRONMENT =? 0) = Mtrl.has m Mtrl.ENVIRONMENT /\
  names_key "genSphereMapCoords" (Shader.vertex sh) = Mtrl.has m Mtrl.ENVIRONMENT /\
  names_key "vert.getTexCoord" (Shader.vertex sh) = negb (Mtrl.has m Mtrl.ENVIRONMENT).
Proof.
  cbv zeta. unfold Shader.Shader, Shader.shaderFlagsFromMtrl.
  cbn [Shader.shaderFlags Shader.fragment Shader.vertex].
  replace (Js.band_val (Mtrl.fl m) Mtrl.LIT) with 0
    by (unfold Js.band_val; cbn [Mtrl.LIT Js.ToInt32]; symmetry; apply Z.land_0_r).
  cbn [Z.eqb negb].
  change (negb (Js.band (Mtrl.fl m) Mtrl.ALPHA_TEST =? 0)) with (Mtrl.has m Mtrl.ALPHA_TEST).
  change (negb (Js.band (Mtrl.fl m) Mtrl.ENVIRONMENT =? 0)) with (Mtrl.has m Mtrl.ENVIRONMENT).
  unfold Shader.shaderFlagsFromAlphaFunc.
  pose proof (val_band7_range (Js.get (Mtrl.props m) "alphaFunc")) as Hx.
  set (x := Js.val_band (Js.get (Mtrl.props m) "alphaFunc") 7) in *. clearbody x.
  assert (Hc : x = 0 \/ x = 1 \/ x = 2 \/ x = 3 \/ x = 4 \/ x = 5 \/ x = 6 \/ x = 7) by lia.
  clear Hx.
  destruct (Mtrl.has m Mtrl.ALPHA_TEST), (Mtrl.has m Mtrl.ENVIRONMENT);
    repeat (destruct Hc as [-> | Hc]; [vm_compute; repeat split |]);
    subst x; vm_compute; repeat split.
Qed.

(** ** Meshes: appending, uploading, drawing *)

Section MeshEdges.

Local Open Scope nat_scope.

Variable Sol : Type.
Variable vertex_at : Sol -> nat -> Vertex.


End MeshEdges.


(** The state after drawing a mesh that has a material: the material's
    state, and no array buffer bound once a buffer was drawn from. *)
Lemma Mesh_draw_state (this : Mesh.t) (m : Mtrl.t) (state : State) (s : GlState) :
  Mesh.mtrl this = Some m ->
  gl_after (Gl.trace (Mesh.draw this state)) s =
    match Mesh.vbo this with
    | None => material_state m state s
    | Some _ =>
        mkGlState (texture_2d (material_state m state s)) None
                  (uniform (material_state m state s)) (blend (material_state m state s))
                  (cull_face (material_state m state s))
                  (polygon_offset_fill (material_state m state s))
                  (polygon_offset (material_state m state s))
                  (depth (material_state m state s))
    end.
Proof.
  intros Hm. rewrite (proj2 (Mesh_draw_trace this m state Hm)).
  unfold gl_after. rewrite fold_left_app.
  fold (gl_after (Gl.trace (Mtrl.draw m state)) s). rewrite Mtrl_draw_state.
  destruct (Mesh.vbo this); reflexivity.
Qed.

(** X9. The attributes that [Mesh.draw] declares read what the packer
    wrote: with a stride of one packed vertex (32 bytes), the position
    attribute reads the three position floats of a vertex, the normal
    attribute its three normal floats and the texcoord attribute its two
    texture coordinates. The arrays enabled before are the ones at
    [uPositionID], [aNormalID] and [aTexCoordID]. *)
Theorem draw_attributes_match_pack (this : Mesh.t) (m : Mtrl.t) (b : Buffer)
    (state : State) :
  Mesh.mtrl this = Some m ->
  Mesh.vbo this = Some b ->
  let tr := Gl.trace (Mesh.draw this state) in
  attribute_pointers tr =
    [ (aPositionID state, 3, 32, 0);
      (aNormalID state, 3, 32, 12);
      (aTexCoordID state, 2, 32, 24) ] /\
  enabled_arrays tr = [uPositionID state; aNormalID state; aTexCoordID state] /\
  forall v : Vertex,
    32 = 4 * Z.of_nat (length (pack v)) /\
    attribute_floats 3 0 (pack v) = floats3 (v_position v) /\
    attribute_floats 3 12 (pack v) = floats3 (v_normal v) /\
    attribute_floats 2 24 (pack v) = floats2 (v_texcoord v).
Proof.
  intros Hm Hvbo tr. unfold tr.
  rewrite (proj2 (Mesh_draw_trace this m state Hm)), Hvbo.
  unfold attribute_pointers, enabled_arrays. rewrite !omap_app.
  assert (Hnone1 : omap (fun c => match c with
                     | Gl.vertexAttribPointer index size Gl.FLOAT _ stride offset =>
                         Some (index, size, stride, offset)
                     | _ => None end) (Gl.trace (Mtrl.draw m state)) = []).
  { unfold Mtrl.draw.
    destruct (enableTextures state && bool_decide (is_Some (Mtrl.tex m)));
      destruct (Mtrl.has m Mtrl.ENVIRONMENT), (Mtrl.has m Mtrl.ADDITIVE),
        (Mtrl.has m Mtrl.TWO_SIDED), (Mtrl.has m Mtrl.DECAL); reflexivity. }
  assert (Hnone2 : omap (fun c => match c with Gl.enableArray index => Some index | _ => None end)
                     (Gl.trace (Mtrl.draw m state)) = []).
  { unfold Mtrl.draw.
    destruct (enableTextures state && bool_decide (is_Some (Mtrl.tex m)));
      destruct (Mtrl.has m Mtrl.ENVIRONMENT), (Mtrl.has m Mtrl.ADDITIVE),
        (Mtrl.has m Mtrl.TWO_SIDED), (Mtrl.has m Mtrl.DECAL); reflexivity. }
  rewrite Hnone1, Hnone2.
  split; [reflexivity |]. split; [reflexivity |].
  intros v. repeat split.
Qed.

Lemma draw_attributes_match_pack_witness :
  Mesh.mtrl untextured_mesh = Some (Mtrl.new tt) /\
  Mesh.vbo untextured_mesh = Some 9%nat /\
  attribute_pointers (Gl.trace (Mesh.draw untextured_mesh state0)) =
    [ (0%nat, 3, 32, 0); (1%nat, 3, 32, 12); (2%nat, 2, 32, 24) ].
Proof.
  split; [reflexivity |]. split; [reflexivity |].
  exact (proj1 (draw_attributes_match_pack untextured_mesh (Mtrl.new tt) 9%nat state0
                  eq_refl eq_refl)).
Defined.

Section PackUploadDraw.

Variable Sol : Type.
Variable vertex_at : Sol -> nat -> Vertex.

(** X10. From packing to drawing: a mesh made for the vertices at [offs]
    (at least one) with a material, filled with them, uploaded and drawn,
    uploads exactly the packed floats of those vertices in one buffer,
    binds that buffer for the draw, submits one draw of as many vertices
    as were appended, and leaves no array buffer bound after the upload
    nor after the draw. *)
Theorem pack_upload_draw (sol : Sol) (offs : list nat) (m : Mtrl.t)
    (fresh : Buffer) (state : State) (s : GlState) :
  offs <> [] ->
  exists mesh,
    Mesh.addVertsFromSol Sol vertex_at sol offs (Mesh.new (length offs) (Some m))
      = Some mesh /\
    let uploaded := fst (Mesh.createVBO mesh fresh) in
    let upload := snd (Mesh.createVBO mesh fresh) in
    let tr := Gl.trace (Mesh.draw uploaded state) in
    uploads upload = [Some (concat (map pack (map (vertex_at sol) offs)))] /\
    array_buffer (gl_after upload s) = None /\
    Gl.result (Mesh.draw uploaded state) = Some tt /\
    Gl.bindBuffer Gl.ARRAY_BUFFER (Some fresh) ∈ tr /\
    draws tr = [Gl.drawArrays Gl.TRIANGLES 0 (length offs)] /\
    array_buffer (gl_after tr s) = None.
Proof.
  intros Hne.
  assert (Hn : (length offs =? 0)%nat = false)
    by (apply Nat.eqb_neq; destruct offs; [congruence | discriminate]).
  destruct (addVertsFromSol_fill Sol vertex_at sol offs (Mesh.new (length offs) (Some m))
              [] (replicate (Mesh.stride * length offs) 0%R))
    as (mesh & Hadds & Hverts & Hcount & Hmtrl & Hvbo).
  { unfold Mesh.new. cbn [Mesh.verts]. rewrite Hn. reflexivity. }
  { reflexivity. }
  { rewrite length_replicate. lia. }
  rewrite drop_ge, app_nil_r in Hverts by (rewrite length_replicate; lia).
  cbn [app Mesh.new Mesh.count Mesh.mtrl Mesh.vbo Nat.add] in Hverts, Hcount, Hmtrl.
  exists mesh. split; [exact Hadds |].
  cbn [fst snd Mesh.createVBO].
  set (uploaded := {| Mesh.mtrl := Mesh.mtrl mesh; Mesh.verts := Mesh.verts mesh;
                      Mesh.count := Mesh.count mesh; Mesh.vbo := Some fresh |}).
  assert (Hm : Mesh.mtrl uploaded = Some m) by exact Hmtrl.
  destruct (Mesh_draw_trace uploaded m state Hm) as [Hr Ht].
  split; [cbn; rewrite Hverts; reflexivity |].
  split; [reflexivity |].
  split; [exact Hr |].
  split.
  { rewrite Ht. apply elem_of_app. right. cbn [Mesh.vbo uploaded].
    apply list_elem_of_In. cbn. auto. }
  split.
  { rewrite Ht, draws_app, Mtrl_draw_no_draws. cbn [Mesh.vbo Mesh.count uploaded].
    rewrite Hcount. reflexivity. }
  rewrite (Mesh_draw_state uploaded m state s Hm). reflexivity.
Qed.

End PackUploadDraw.

Lemma pack_upload_draw_witness :
  let v0 := {| v_position := vec3 1 2 3; v_normal := vec3 0 1 0; v_texcoord := vec2 0 1 |} in
  let v1 := {| v_position := vec3 4 5 6; v_normal := vec3 0 0 1; v_texcoord := vec2 1 0 |} in
  let s := mkGlState None (Some 3%nat) ∅ (Gl.ONE, Gl.ONE) false false (0%R, 0%R)
                     {| depth_test := true; depth_write := true |} in
  [0; 1]%nat <> [] /\
  exists mesh,
    Mesh.addVertsFromSol (list Vertex) vertex_of_list [v0; v1] [0; 1]%nat
      (Mesh.new 2 (Some (Mtrl.new tt))) = Some mesh /\
    draws (Gl.trace (Mesh.draw (fst (Mesh.createVBO mesh 4%nat)) state0))
      = [Gl.drawArrays Gl.TRIANGLES 0 2].
Proof.
  intros v0 v1 s.
  assert (Hne : [0; 1]%nat <> []) by discriminate.
  split; [exact Hne |].
  destruct (pack_upload_draw (list Vertex) vertex_of_list [v0; v1] [0; 1]%nat
              (Mtrl.new tt) 4%nat state0 s Hne)
    as (mesh & Hadds & _ & _ & _ & _ & Hdraws & _).
  exists mesh. split; [exact Hadds | exact Hdraws].
Defined.

(** ** Built scenes: the entities and the queries of the passes *)

Section BuiltScene.

Import SolidModel.
Context {ops : glm.Ops} {collab : Collaborators}.

Lemma fromSol_bodies_shape (sol : Sol) (bv : list SolBody) (heap : gmap MoverRef Mover) :
  Forall body_shape (fromSol_bodies sol bv heap).1.1 /\
  length (fromSol_bodies sol bv heap).1.1 = length bv /\
  length (fromSol_bodies sol bv heap).1.2 = length bv.
Proof.
  revert heap. induction bv as [|solBody bv IH]; intros heap.
  - split; [constructor | split; reflexivity].
  - cbn [fromSol_bodies]. unfold fromSol_body.
    destruct (Mover_fromSolBody sol solBody heap) as [mvs heap1].
    destruct (IH heap1) as (IH1 & IH2 & IH3).
    destruct (fromSol_bodies sol bv heap1) as [[ents ms] heap2].
    cbn [fst snd length] in *. split; [| split; congruence].
    constructor; [| exact IH1].
    unfold body_shape. cbn. repeat split; eauto.
Qed.

Lemma fromSol_item_shape (solItem : SolItem) :
  match fromSol_item solItem with
  | None => known_item solItem = false
  | Some ent =>
      known_item solItem = true /\
      tags ent = ["item"; (if item_t solItem =? 1 then "coin"
                           else if item_t solItem =? 2 then "grow" else "shrink")] /\
      item ent = Some {| value := item_n solItem |} /\
      is_Some (modelMatrix ent) /\ is_Some (spatial ent) /\
      drawable ent = None /\ movers ent = None /\ billboard ent = None
  end.
Proof.
  unfold fromSol_item, itemTags, known_item.
  destruct (Z.eqb_spec (item_t solItem) 1) as [-> | H1];
    [cbn; repeat split; eauto |].
  destruct (Z.eqb_spec (item_t solItem) 2) as [-> | H2];
    [cbn; repeat split; eauto |].
  destruct (Z.eqb_spec (item_t solItem) 3) as [-> | H3];
    [cbn; repeat split; eauto |].
  apply andb_false_iff.
  destruct (Z.leb_spec 1 (item_t solItem)); [right | left; reflexivity].
  apply Z.leb_gt. lia.
Qed.

(** The entity store of a built scene, part by part. *)
Lemma fromSol_entities (sol : Sol) (heap : gmap MoverRef Mover) :
  exists bodies,
    entities (fromSol sol heap).1.1 =
      Some (bodies ++ omap fromSol_item (hv sol) ++ map fromSol_ball (uv sol)
            ++ map (fromSol_bill (fromSol sol heap).1.2) (rv sol)) /\
    Forall body_shape bodies /\
    length bodies = length (bv sol) /\
    (length <$> models (fromSol sol heap).1.1) = Some (length (bv sol)).
Proof.
  unfold fromSol, fromSol_materials.
  match goal with
  | |- context [fromSol_bodies ?s ?b ?h] =>
      destruct (fromSol_bodies_shape s b h) as (Hshape & Hlen & Hmodels);
      destruct (fromSol_bodies s b h) as [[bodies bmodels] heap']
  end.
  cbn [fst snd entities models hv uv rv bv] in *.
  exists bodies. split; [reflexivity |]. split; [exact Hshape |].
  split; [exact Hlen |]. cbn. f_equal. exact Hmodels.
Qed.

Lemma length_omap_fromSol_item (hv : list SolItem) :
  length (omap fromSol_item hv) = length (filter (fun i => known_item i = true) hv).
Proof.
  induction hv as [|solItem hv IH]; [reflexivity |].
  cbn [omap list_omap]. rewrite filter_cons.
  pose proof (fromSol_item_shape solItem) as Hs.
  destruct (fromSol_item solItem) as [ent|].
  - destruct Hs as [Hk _]. rewrite decide_True by exact Hk.
    cbn [length]. rewrite IH. reflexivity.
  - rewrite decide_False by (rewrite Hs; discriminate). exact IH.
Qed.

(** X11. The scene builder makes one entity per decoded body, per decoded
    item of a known type (coin, grow, shrink; items of any other type are
    skipped), per decoded ball and per decoded billboard, in this order,
    and nothing else; every entity carries exactly one of the tags [body],
    [item], [ball], [billboard], that of its part; and one model per body
    is recorded. *)
Theorem fromSol_census (sol : Sol) (heap : gmap MoverRef Mover) :
  exists bodies items balls bills,
    entities (fromSol sol heap).1.1 = Some (bodies ++ items ++ balls ++ bills) /\
    length bodies = length (bv sol) /\
    length items = length (filter (fun i => known_item i = true) (hv sol)) /\
    length balls = length (uv sol) /\
    length bills = length (rv sol) /\
    Forall (fun ent => categories ent = ["body"]) bodies /\
    Forall (fun ent => categories ent = ["item"]) items /\
    Forall (fun ent => categories ent = ["ball"]) balls /\
    Forall (fun ent => categories ent = ["billboard"]) bills /\
    (length <$> models (fromSol sol heap).1.1) = Some (length (bv sol)).
Proof.
  destruct (fromSol_entities sol heap) as (bodies & Hents & Hshape & Hlen & Hmodels).
  exists bodies, (omap fromSol_item (hv sol)), (map fromSol_ball (uv sol)),
    (map (fromSol_bill (fromSol sol heap).1.2) (rv sol)).
  split; [exact Hents |]. split; [exact Hlen |].
  split; [apply length_omap_fromSol_item |].
  split; [apply length_map |]. split; [apply length_map |].
  split; [| split; [| split; [| split; [| exact Hmodels]]]].
  - eapply Forall_impl; [exact Hshape |]. intros ent (Htags & _).
    unfold categories, hasTag. rewrite Htags. reflexivity.
  - apply Forall_forall. intros ent Hin.
    apply list_elem_of_omap in Hin as (solItem & _ & Hitem).
    pose proof (fromSol_item_shape solItem) as Hs. rewrite Hitem in Hs.
    destruct Hs as (_ & Htags & _). unfold categories, hasTag. rewrite Htags.
    destruct (item_t solItem =? 1); [reflexivity |].
    destruct (item_t solItem =? 2); reflexivity.
  - apply Forall_forall. intros ent Hin.
    apply list_elem_of_In, in_map_iff in Hin as (solBall & <- & _). reflexivity.
  - apply Forall_forall. intros ent Hin.
    apply list_elem_of_In, in_map_iff in Hin as (solBill & <- & _). reflexivity.
Qed.

Lemma filter_parts {A} (P : A -> Prop) `{forall x, Decision (P x)}
    (l1 l2 l3 l4 : list A) (b1 b2 b3 b4 : bool) :
  Forall (fun x => P x <-> b1 = true) l1 ->
  Forall (fun x => P x <-> b2 = true) l2 ->
  Forall (fun x => P x <-> b3 = true) l3 ->
  Forall (fun x => P x <-> b4 = true) l4 ->
  filter P (l1 ++ l2 ++ l3 ++ l4) =
    (if b1 then l1 else []) ++ (if b2 then l2 else []) ++
    (if b3 then l3 else []) ++ (if b4 then l4 else []).
Proof.
  assert (Hone : forall (l : list A) (b : bool),
            Forall (fun x => P x <-> b = true) l ->
            filter P l = if b then l else []).
  { intros l b Hl. destruct b.
    - apply filter_Forall_all. eapply Forall_impl; [exact Hl |].
      intros x Hx. apply Hx. reflexivity.
    - apply filter_Forall_not. eapply Forall_impl; [exact Hl |].
      intros x Hx HP. apply Hx in HP. discriminate. }
  intros H1 H2 H3 H4. rewrite !filter_app.
  rewrite (Hone _ _ H1), (Hone _ _ H2), (Hone _ _ H3), (Hone _ _ H4). reflexivity.
Qed.

(** What each query selects in a built scene. *)
Lemma fromSol_query_parts (sol : Sol) (heap : gmap MoverRef Mover) :
  exists bodies ents,
    entities (fromSol sol heap).1.1 = Some ents /\
    length bodies = length (bv sol) /\
    filter (fun ent => has_Spatial_ModelMatrix_Movers ent = true) ents = bodies /\
    filter (fun ent => has_Drawable_ModelMatrix ent = true) ents = bodies /\
    filter (fun ent => has_Item_ModelMatrix ent = true) ents
      = omap fromSol_item (hv sol) /\
    filter (fun ent => hasTag "ball" ent = true) ents = map fromSol_ball (uv sol) /\
    filter (fun ent => has_Billboard_Spatial_ModelMatrix ent = true) ents
      = map (fromSol_bill (fromSol sol heap).1.2) (rv sol).
Proof.
  destruct (fromSol_entities sol heap) as (bodies & Hents & Hshape & Hlen & _).
  exists bodies. eexists. split; [exact Hents |]. split; [exact Hlen |].
  assert (Hb : forall (q : Entity -> bool) (b : bool),
            (forall ent, body_shape ent -> q ent = b) ->
            Forall (fun ent => q ent = true <-> b = true) bodies).
  { intros q b Hq. eapply Forall_impl; [exact Hshape |].
    intros ent Hs. rewrite (Hq ent Hs). reflexivity. }
  assert (Hi : forall (q : Entity -> bool) (b : bool),
            (forall solItem ent, fromSol_item solItem = Some ent -> q ent = b) ->
            Forall (fun ent => q ent = true <-> b = true) (omap fromSol_item (hv sol))).
  { intros q b Hq. apply Forall_forall. intros ent Hin.
    apply list_elem_of_omap in Hin as (solItem & _ & Hitem).
    rewrite (Hq _ _ Hitem). reflexivity. }
  assert (Hmap : forall {X} (mk : X -> Entity) (l : list X) (q : Entity -> bool) (b : bool),
            (forall x, q (mk x) = b) ->
            Forall (fun ent => q ent = true <-> b = true) (map mk l)).
  { intros X mk l q b Hq. apply Forall_forall. intros ent Hin.
    apply list_elem_of_In, in_map_iff in Hin as (x & <- & _).
    rewrite Hq. reflexivity. }
  assert (Hbody_q : forall ent, body_shape ent ->
            has_Spatial_ModelMatrix_Movers ent = true /\
            has_Drawable_ModelMatrix ent = true /\
            has_Item_ModelMatrix ent = false /\
            hasTag "ball" ent = false /\
            has_Billboard_Spatial_ModelMatrix ent = false).
  { intros ent (Htags & [dr Hdr] & Hmm & Hsp & [mv Hmv] & Hit & Hbill).
    unfold has_Spatial_ModelMatrix_Movers, has_Drawable_ModelMatrix,
      has_Item_ModelMatrix, has_Billboard_Spatial_ModelMatrix, hasTag.
    rewrite Htags, Hdr, Hmm, Hsp, Hmv, Hit, Hbill. repeat split. }
  assert (Hitem_q : forall solItem ent, fromSol_item solItem = Some ent ->
            has_Spatial_ModelMatrix_Movers ent = false /\
            has_Drawable_ModelMatrix ent = false /\
            has_Item_ModelMatrix ent = true /\
            hasTag "ball" ent = false /\
            has_Billboard_Spatial_ModelMatrix ent = false).
  { intros solItem ent Hitem.
    pose proof (fromSol_item_shape solItem) as Hs. rewrite Hitem in Hs.
    destruct Hs as (_ & Htags & Hit & [mm Hmm] & [sp Hsp] & Hdr & Hmv & Hbill).
    unfold has_Spatial_ModelMatrix_Movers, has_Drawable_ModelMatrix,
      has_Item_ModelMatrix, has_Billboard_Spatial_ModelMatrix, hasTag.
    rewrite Htags, Hit, Hmm, Hsp, Hdr, Hmv, Hbill.
    destruct (item_t solItem =? 1); [repeat split |].
    destruct (item_t solItem =? 2); repeat split. }
  split; [| split; [| split; [| split]]].
  - rewrite (filter_parts _ _ _ _ _ true false false false); [apply app_nil_r | | | |].
    + apply Hb. intros ent Hs. apply (Hbody_q ent Hs).
    + apply Hi. intros solItem ent Hitem. apply (Hitem_q _ _ Hitem).
    + apply Hmap. reflexivity.
    + apply Hmap. reflexivity.
  - rewrite (filter_parts _ _ _ _ _ true false false false); [apply app_nil_r | | | |].
    + apply Hb. intros ent Hs. apply (Hbody_q ent Hs).
    + apply Hi. intros solItem ent Hitem. apply (Hitem_q _ _ Hitem).
    + apply Hmap. reflexivity.
    + apply Hmap. reflexivity.
  - rewrite (filter_parts _ _ _ _ _ false true false false); [apply app_nil_r | | | |].
    + apply Hb. intros ent Hs. apply (Hbody_q ent Hs).
    + apply Hi. intros solItem ent Hitem. apply (Hitem_q _ _ Hitem).
    + apply Hmap. reflexivity.
    + apply Hmap. reflexivity.
  - rewrite (filter_parts _ _ _ _ _ false false true false); [apply app_nil_r | | | |].
    + apply Hb. intros ent Hs. apply (Hbody_q ent Hs).
    + apply Hi. intros solItem ent Hitem. apply (Hitem_q _ _ Hitem).
    + apply Hmap. reflexivity.
    + apply Hmap. reflexivity.
  - rewrite (filter_parts _ _ _ _ _ false false false true); [reflexivity | | | |].
    + apply Hb. intros ent Hs. apply (Hbody_q ent Hs).
    + apply Hi. intros solItem ent Hitem. apply (Hitem_q _ _ Hitem).
    + apply Hmap. reflexivity.
    + apply Hmap. reflexivity.
Qed.

(** X12. In a built scene every pass sees exactly the entities of its
    category: the query of [step] (Spatial, ModelMatrix, Movers) and the
    query of the body passes (Drawable, ModelMatrix) select the bodies;
    the query of [drawItems] (Item, ModelMatrix) selects the items; the
    tag query of [drawBalls] selects the balls; and the query of
    [drawBills] (Billboard, Spatial, ModelMatrix) selects the billboards. *)
Theorem fromSol_queries (sol : Sol) (heap : gmap MoverRef Mover) :
  exists bodies ents,
    entities (fromSol sol heap).1.1 = Some ents /\
    length bodies = length (bv sol) /\
    filter (fun ent => has_Spatial_ModelMatrix_Movers ent = true) ents = bodies /\
    filter (fun ent => has_Drawable_ModelMatrix ent = true) ents = bodies /\
    filter (fun ent => has_Item_ModelMatrix ent = true) ents
      = omap fromSol_item (hv sol) /\
    filter (fun ent => hasTag "ball" ent = true) ents = map fromSol_ball (uv sol) /\
    filter (fun ent => has_Billboard_Spatial_ModelMatrix ent = true) ents
      = map (fromSol_bill (fromSol sol heap).1.2) (rv sol).
Proof.
  destruct (fromSol_query_parts sol heap)
    as (bodies & ents & Hents & Hlen & Hstep & Hdraw & Hitems & Hballs & Hbills).
  exists bodies, ents.
  split; [exact Hents |]. split; [exact Hlen |].
  split; [exact Hstep |]. split; [exact Hdraw |].
  split; [exact Hitems |]. split; [exact Hballs | exact Hbills].
Qed.

End BuiltScene.

(** ** Stepping: what it keeps, and when it throws *)

Section StepFrame.

Import SolidModel.
Context {ops : glm.Ops} {collab : Collaborators}.

Implicit Types (heap : gmap MoverRef Mover) (ent : Entity).

Lemma call_step_inv dt (m : option MoverRef) heap heap' :
  call_step dt m heap = Some heap' ->
  exists r st, m = Some r /\ heap !! r = Some st /\
               heap' = <[r := Mover_step dt st]> heap.
Proof.
  unfold call_step. destruct m as [r|]; [| discriminate]. cbn.
  destruct (heap !! r) as [st|] eqn:Hr; [| discriminate]. cbn.
  intros [= <-]. eauto.
Qed.

Lemma call_step_dom dt (m : option MoverRef) heap heap' :
  call_step dt m heap = Some heap' -> dom heap' = dom heap.
Proof.
  intros H. apply call_step_inv in H as (r & st & _ & Hr & ->).
  apply dom_insert_lookup_L. eauto.
Qed.

Lemma step_entity_keeps dt ent heap ent' heap' :
  step_entity dt ent heap = Some (ent', heap') ->
  dom heap' = dom heap /\
  tags ent' = tags ent /\ drawable ent' = drawable ent /\ movers ent' = movers ent /\
  item ent' = item ent /\ billboard ent' = billboard ent /\
  (scale <$> spatial ent') = (scale <$> spatial ent) /\
  is_Some (modelMatrix ent').
Proof.
  unfold step_entity.
  destruct (movers ent) as [mvs|]; [| discriminate].
  destruct (spatial ent) as [sp|] eqn:Hsp; [| discriminate].
  cbn [mbind option_bind].
  match goal with
  | |- context [if ?c then ?a else ?b] => destruct (if c then a else b) as [heap1|] eqn:Hsteps
  end; [| discriminate].
  cbn [mbind option_bind].
  destruct (translate mvs ≫= (heap1 !!.)) as [mt|]; [| discriminate].
  cbn [mbind option_bind].
  destruct (rotate mvs ≫= (heap1 !!.)) as [mr|]; [| discriminate].
  cbn [mbind option_bind]. intros [= <- <-].
  cbn. split; [| repeat split; eauto].
  destruct (bool_decide (translate mvs = rotate mvs)).
  - apply (call_step_dom _ _ _ _ Hsteps).
  - destruct (call_step dt (translate mvs) heap) as [heap0|] eqn:H0; [| discriminate].
    cbn in Hsteps.
    rewrite (call_step_dom _ _ _ _ Hsteps). apply (call_step_dom _ _ _ _ H0).
Qed.

Lemma step_entities_keeps dt (ents : list Entity) :
  forall heap ents' heap',
    step_entities dt ents heap = Some (ents', heap') ->
    dom heap' = dom heap /\ Forall2 step_keeps ents ents'.
Proof.
  induction ents as [|ent ents IH]; intros heap ents' heap'; cbn [step_entities].
  - intros [= <- <-]. split; [reflexivity | constructor].
  - destruct (has_Spatial_ModelMatrix_Movers ent) eqn:Hq.
    + destruct (step_entity dt ent heap) as [[ent1 heap1]|] eqn:Hstep; [| discriminate].
      cbn [mbind option_bind].
      destruct (step_entities dt ents heap1) as [[ents1 heap2]|] eqn:Hsteps; [| discriminate].
      cbn [mbind option_bind]. intros [= <- <-].
      destruct (IH _ _ _ Hsteps) as [Hdom Hall].
      destruct (step_entity_keeps _ _ _ _ _ Hstep) as (Hdom1 & H1 & H2 & H3 & H4 & H5 & H6 & H7).
      split; [congruence |]. constructor; [| exact Hall].
      assert (Hmm : is_Some (modelMatrix ent)).
      { unfold has_Spatial_ModelMatrix_Movers in Hq.
        apply andb_true_iff in Hq as [Hq' _]. apply andb_true_iff in Hq' as [_ Hq'].
        apply bool_decide_eq_true in Hq'. exact Hq'. }
      unfold step_keeps.
      repeat split; try assumption; try (intros _; assumption); congruence.
    + cbn [mbind option_bind].
      destruct (step_entities dt ents heap) as [[ents1 heap2]|] eqn:Hsteps; [| discriminate].
      cbn [mbind option_bind]. intros [= <- <-].
      destruct (IH _ _ _ Hsteps) as [Hdom Hall].
      split; [exact Hdom |]. constructor; [| exact Hall].
      unfold step_keeps. repeat split; auto.
Qed.

(** X13. A step of the scene keeps the entity store entity by entity: the
    same number of entities in the same order, each with its tags, its
    drawable, its movers, its item, its billboard and its scale, and
    unchanged altogether unless it has Spatial, ModelMatrix and Movers.
    It keeps the models, the materials and the transparency settings of
    the scene, and it neither creates nor removes a mover. *)
Theorem step_keeps_scene dt (this this' : SolidModel) heap heap' :
  step dt this heap = Some (this', heap') ->
  models this' = models this /\
  materials this' = materials this /\
  transparentDepthTest this' = transparentDepthTest this /\
  transparentDepthMask this' = transparentDepthMask this /\
  dom heap' = dom heap /\
  exists ents ents',
    entities this = Some ents /\ entities this' = Some ents' /\
    length ents' = length ents /\
    Forall2 step_keeps ents ents'.
Proof.
  unfold step. destruct (entities this) as [ents|]; [| discriminate].
  cbn [mbind option_bind].
  destruct (step_entities dt ents heap) as [[ents1 heap1]|] eqn:Hsteps; [| discriminate].
  cbn [mbind option_bind]. intros [= <- <-].
  destruct (step_entities_keeps _ _ _ _ _ Hsteps) as [Hdom Hall].
  cbn. repeat split; try reflexivity; [exact Hdom |].
  exists ents, ents1. repeat split; try reflexivity; [| exact Hall].
  symmetry. apply (Forall2_length _ _ _ Hall).
Qed.

Lemma step_entity_null dt ent heap mvs :
  is_Some (spatial ent) ->
  movers ent = Some mvs ->
  translate mvs = None \/ rotate mvs = None ->
  step_entity dt ent heap = None.
Proof.
  intros [sp Hsp] Hmv Hnull. unfold step_entity. rewrite Hmv, Hsp.
  cbn [mbind option_bind].
  destruct (translate mvs) as [tr|], (rotate mvs) as [ro|];
    try (destruct Hnull; discriminate).
  - rewrite bool_decide_eq_false_2 by discriminate.
    destruct (call_step dt (Some tr) heap); reflexivity.
  - rewrite bool_decide_eq_false_2 by discriminate. reflexivity.
  - rewrite bool_decide_eq_true_2 by reflexivity. reflexivity.
Qed.

(** X14. A step throws when the scene has no entity store, and when some
    entity with Spatial, ModelMatrix and Movers has a translate-mover or a
    rotate-mover that is [null] (as the Movers constructor leaves them),
    wherever the entity is in the store. *)
Theorem step_null_mover dt (this : SolidModel) heap :
  (entities this = None -> step dt this heap = None) /\
  (forall ents ent mvs,
     entities this = Some ents ->
     ent ∈ ents ->
     has_Spatial_ModelMatrix_Movers ent = true ->
     movers ent = Some mvs ->
     translate mvs = None \/ rotate mvs = None ->
     step dt this heap = None).
Proof.
  split.
  - intros Hnone. unfold step. rewrite Hnone. reflexivity.
  - intros ents ent mvs Hents Hin Hq Hmv Hnull.
    unfold step. rewrite Hents. cbn [mbind option_bind].
    assert (Hsteps : step_entities dt ents heap = None).
    { clear Hents. revert heap. induction Hin as [ent ents | ent e ents Hin IH]; intros heap.
      - cbn [step_entities]. rewrite Hq.
        rewrite (step_entity_null dt ent heap mvs); [reflexivity | | exact Hmv | exact Hnull].
        unfold has_Spatial_ModelMatrix_Movers in Hq.
        apply andb_true_iff in Hq as [Hq _]. apply andb_true_iff in Hq as [Hq _].
        apply bool_decide_eq_true in Hq. exact Hq.
      - cbn [step_entities].
        destruct (if has_Spatial_ModelMatrix_Movers e then step_entity dt e heap
                  else Some (e, heap)) as [[e1 heap1]|]; [| reflexivity].
        cbn [mbind option_bind]. rewrite (IH Hq Hmv). reflexivity. }
    rewrite Hsteps. reflexivity.
Qed.

End StepFrame.

(** A level of one body whose movers are left unset: the built scene
    cannot be stepped. *)
Lemma step_null_mover_witness :
  let built := SolidModel.fromSol (ops := ops_example) (collab := counting_movers)
                 one_body_level ∅ in
  SolidModel.step (ops := ops_example) (collab := counting_movers) 0.5%R built.1.1 ∅ = None.
Proof.
  intros built.
  eapply (proj2 (step_null_mover (ops := ops_example) (collab := counting_movers)
                   0.5%R built.1.1 ∅)).
  - reflexivity.
  - apply list_elem_of_In. left. reflexivity.
  - reflexivity.
  - reflexivity.
  - left. reflexivity.
Defined.

(** One step of the example scene of two bodies keeps both bodies. *)
Lemma step_keeps_scene_witness :
  exists this' heap',
    SolidModel.step (ops := ops_example) (collab := counting_movers)
      0.5%R moved_scene counters = Some (this', heap') /\
    dom heap' = dom counters /\
    (length <$> SolidModel.entities this') = Some 2%nat.
Proof.
  destruct (SolidModel.step (ops := ops_example) (collab := counting_movers)
              0.5%R moved_scene counters) as [[this' heap']|] eqn:Hstep;
    [| vm_compute in Hstep; discriminate Hstep].
  exists this', heap'. split; [reflexivity |].
  destruct (step_keeps_scene (ops := ops_example) (collab := counting_movers)
              0.5%R moved_scene this' counters heap' Hstep)
    as (_ & _ & _ & _ & Hdom & ents & ents' & Hents & Hents' & Hlen & _).
  split; [exact Hdom |].
  rewrite Hents'. cbn. rewrite Hlen. injection Hents as <-. reflexivity.
Defined.

(** ** Items and balls of a built scene *)

Section ItemPass.

Import SolidModel.
Context {ops : glm.Ops} {collab : Collaborators}.

Lemma bind_deref_Some {A B} (x : A) (k : A -> Gl.M B) :
  Gl.bind (Gl.deref (Some x)) k = k x.
Proof. unfold Gl.bind. cbn. destruct (k x). reflexivity. Qed.

Local Ltac decide_tags :=
  repeat match goal with
         | |- context [bool_decide (?tag ∈ ?l)] =>
             let b := eval vm_compute in (bool_decide (tag ∈ l)) in
             change (bool_decide (tag ∈ l)) with b
         end.

(** On the entity of a decoded item the loop body draws the proxy that
    the item's type and value select. *)
Lemma items_body_fromSol_item state proxies (solItem : SolItem) (ent : Entity) :
  fromSol_item solItem = Some ent ->
  items_body state proxies ent =
    (model <- Gl.deref (proxy_for proxies solItem) ;;
     drawBodies model state (Some (scale_then_translate 0.15 (item_p solItem))))%gl.
Proof.
  unfold fromSol_item, itemTags, proxy_for.
  destruct (Z.eqb_spec (item_t solItem) 1) as [E1 | N1].
  { intros [= <-]. rewrite E1. unfold items_body, hasTag, draw, scale_then_translate.
    cbn [tags addTag createEntity modelMatrix item value Z.eqb Pos.eqb].
    decide_tags. rewrite bind_deref_Some. cbn [value].
    destruct (item_n solItem >=? 10); [reflexivity |].
    destruct (item_n solItem >=? 5); reflexivity. }
  destruct (Z.eqb_spec (item_t solItem) 2) as [E2 | N2].
  { intros [= <-]. unfold items_body, hasTag, draw, scale_then_translate.
    cbn [tags addTag createEntity modelMatrix item value].
    decide_tags. reflexivity. }
  destruct (Z.eqb_spec (item_t solItem) 3) as [E3 | N3]; [| discriminate].
  intros [= <-]. unfold items_body, hasTag, draw, scale_then_translate.
  cbn [tags addTag createEntity modelMatrix item value].
  decide_tags. reflexivity.
Qed.

Lemma items_loop_ok state proxies (hv : list SolItem) :
  Forall (fun i => known_item i = true ->
                   exists model, proxy_for proxies i = Some model /\ drawable_scene model) hv ->
  Gl.result (Gl.for_each (omap fromSol_item hv) (items_body state proxies)) = Some tt /\
  Gl.trace (Gl.for_each (omap fromSol_item hv) (items_body state proxies)) =
    concat (map (item_calls state proxies) (filter (fun i => known_item i = true) hv)).
Proof.
  induction 1 as [|solItem hv Hi _ [IHr IHt]]; [split; reflexivity |].
  cbn [omap list_omap]. rewrite filter_cons.
  pose proof (fromSol_item_shape solItem) as Hs.
  destruct (fromSol_item solItem) as [ent|] eqn:Hitem.
  - destruct Hs as [Hk _]. rewrite decide_True by exact Hk.
    destruct (Hi Hk) as (model & Hproxy & Hwf).
    cbn [Gl.for_each map concat].
    assert (Hbody : Gl.result (items_body state proxies ent) = Some tt /\
                    Gl.trace (items_body state proxies ent) = item_calls state proxies solItem).
    { rewrite (items_body_fromSol_item state proxies solItem ent Hitem).
      unfold item_calls. rewrite Hproxy.
      destruct (drawBodies_trace model state
                  (Some (scale_then_translate 0.15 (item_p solItem))) Hwf) as [Hr _].
      unfold Gl.bind. cbn [Gl.deref Gl.ret Gl.result Gl.trace app]. rewrite Hr.
      split; reflexivity. }
    destruct Hbody as [Hbr Hbt].
    destruct (bind_ok (items_body state proxies ent)
                (fun _ => Gl.for_each (omap fromSol_item hv) (items_body state proxies)) tt Hbr)
      as [Hr Ht].
    rewrite Hr, Ht, IHr, IHt, Hbt. split; reflexivity.
  - rewrite decide_False by (rewrite Hs; discriminate). split; assumption.
Qed.

Lemma items_loop_throws state proxies (hv : list SolItem) :
  Exists (fun i => known_item i = true /\ proxy_for proxies i = None) hv ->
  Gl.result (Gl.for_each (omap fromSol_item hv) (items_body state proxies)) = None.
Proof.
  induction 1 as [solItem hv [Hk Hnone] | solItem hv _ IH]; cbn [omap list_omap].
  - pose proof (fromSol_item_shape solItem) as Hs.
    destruct (fromSol_item solItem) as [ent|] eqn:Hitem; [| congruence].
    cbn [Gl.for_each].
    rewrite (items_body_fromSol_item state proxies solItem ent Hitem), Hnone.
    reflexivity.
  - destruct (fromSol_item solItem) as [ent|]; [| exact IH].
    cbn [Gl.for_each]. unfold Gl.bind at 1.
    destruct (Gl.result (items_body state proxies ent)); [| reflexivity].
    cbn [Gl.result]. exact IH.
Qed.

(** X15. Drawing the items of a built scene draws, for each decoded item
    of a known type and in their order, one preloaded scene with the
    item's matrix (scale 0.15, then the item's position) as parent: the
    grow scene for type 2 and the shrink scene for type 3 whatever the
    value, and for a coin the scene for 10 when its value is at least 10,
    the one for 5 when it is at least 5 and the plain one below. This
    holds when each of these scenes is loaded and can be drawn (it has an
    entity store, and every drawable of it has a model); the pass throws
    when the scene that some item needs is not loaded. *)
Theorem drawItems_built_scene (sol : Sol) (heap : gmap MoverRef Mover)
    (state : State) (proxies : Proxies) :
  let scene := (fromSol sol heap).1.1 in
  (Forall (fun i => known_item i = true ->
                    exists model, proxy_for proxies i = Some model /\ drawable_scene model)
          (hv sol) ->
   Gl.result (drawItems scene state proxies) = Some tt /\
   Gl.trace (drawItems scene state proxies) =
     concat (map (item_calls state proxies)
                 (filter (fun i => known_item i = true) (hv sol)))) /\
  (Exists (fun i => known_item i = true /\ proxy_for proxies i = None) (hv sol) ->
   Gl.result (drawItems scene state proxies) = None).
Proof.
  intros scene.
  destruct (fromSol_query_parts sol heap)
    as (bodies & ents & Hents & _ & _ & _ & Hitems & _).
  assert (E : drawItems scene state proxies =
              Gl.for_each (omap fromSol_item (hv sol)) (items_body state proxies)).
  { unfold drawItems, scene. rewrite Hents, bind_deref_Some, Hitems. reflexivity. }
  rewrite E. split.
  - apply items_loop_ok.
  - apply items_loop_throws.
Qed.

(** X16. Drawing the balls of a built scene, with a ball model whose draw
    completes, draws the ball model once per decoded ball, in their order,
    each time with the ball's matrix (scale by the radius, then the ball's
    position) as parent. With no ball in the level nothing is drawn and
    the ball model is not needed; with a ball and no ball model loaded,
    the pass throws before any call. *)
Theorem drawBalls_built_scene (sol : Sol) (heap : gmap MoverRef Mover)
    (state : State) (proxies : Proxies) :
  let scene := (fromSol sol heap).1.1 in
  (forall bm,
     ballModel proxies = Some bm ->
     (forall M, Gl.result (BallModel_draw bm state M) = Some tt) ->
     Gl.result (drawBalls scene state proxies) = Some tt /\
     Gl.trace (drawBalls scene state proxies) =
       concat (map (fun solBall =>
                      Gl.trace (BallModel_draw bm state
                                  (Some (scale_then_translate (ball_r solBall)
                                                              (ball_p solBall)))))
                   (uv sol))) /\
  (uv sol = [] ->
   Gl.result (drawBalls scene state proxies) = Some tt /\
   Gl.trace (drawBalls scene state proxies) = []) /\
  (ballModel proxies = None -> uv sol <> [] ->
   Gl.result (drawBalls scene state proxies) = None /\
   Gl.trace (drawBalls scene state proxies) = []).
Proof.
  intros scene.
  destruct (fromSol_query_parts sol heap)
    as (bodies & ents & Hents & _ & _ & _ & _ & Hballs & _).
  assert (E : drawBalls scene state proxies =
              Gl.for_each (map fromSol_ball (uv sol))
                (fun ent => Gl.bind (Gl.deref (ballModel proxies))
                              (fun model => BallModel_draw model state (modelMatrix ent)))).
  { unfold drawBalls, scene. rewrite Hents, bind_deref_Some, Hballs. reflexivity. }
  rewrite E. clear E. split; [| split].
  - intros bm Hbm Hok. rewrite Hbm.
    destruct (for_each_ok (map fromSol_ball (uv sol))
                (fun ent => Gl.bind (Gl.deref (Some bm))
                              (fun model => BallModel_draw model state (modelMatrix ent))))
      as [Hr Ht].
    { intros ent _. unfold Gl.bind. cbn [Gl.deref Gl.ret Gl.result]. apply Hok. }
    split; [exact Hr |]. rewrite Ht, map_map. reflexivity.
  - intros ->. split; reflexivity.
  - intros Hnone Hne. rewrite Hnone.
    destruct (uv sol) as [|solBall balls]; [congruence |]. split; reflexivity.
Qed.

End ItemPass.

(** The example level of three items, with the coin and the grow scene
    loaded: the pass completes and draws two scenes; with nothing loaded it
    throws. *)
Lemma drawItems_built_scene_witness :
  (Gl.result (SolidModel.drawItems (ops := ops_example)
                (SolidModel.fromSol (ops := ops_example) (collab := counting_movers)
                   items_level ∅).1.1 state0 proxies_example) = Some tt) /\
  (Gl.result (SolidModel.drawItems (ops := ops_example)
                (SolidModel.fromSol (ops := ops_example) (collab := counting_movers)
                   items_level ∅).1.1 state0 proxies_unloaded) = None).
Proof.
  split.
  - refine (proj1 (proj1 (drawItems_built_scene (ops := ops_example)
                            (collab := counting_movers)
                            items_level ∅ state0 proxies_example) _)).
    repeat constructor; intros Hk; try discriminate Hk;
      exists scene_example; (split; [reflexivity | exact drawable_scene_example]).
  - refine (proj2 (drawItems_built_scene (ops := ops_example)
                     (collab := counting_movers)
                     items_level ∅ state0 proxies_unloaded) _).
    left. split; reflexivity.
Defined.

(** The example level of two balls: the ball model is drawn twice, each
    time after the upload of the ball's matrix. *)
Lemma drawBalls_built_scene_witness :
  Gl.result (SolidModel.drawBalls
               (SolidModel.fromSol (ops := ops_example) (collab := counting_movers)
                  balls_level ∅).1.1 state0 proxies_example) = Some tt /\
  length (Gl.trace (SolidModel.drawBalls
               (SolidModel.fromSol (ops := ops_example) (collab := counting_movers)
                  balls_level ∅).1.1 state0 proxies_example)) = 4%nat.
Proof.
  destruct (proj1 (drawBalls_built_scene (ops := ops_example)
                     (collab := counting_movers)
                     balls_level ∅ state0 proxies_example)
              ball_model_example eq_refl) as [Hr Ht].
  - intros [M|]; reflexivity.
  - split; [exact Hr |]. rewrite Ht. reflexivity.
Defined.

(** ** The billboard pass *)

Section BillPass.

Import SolidModel.
Context {ops : glm.Ops}.

Lemma depth_after_relax (this : SolidModel) (ds : DepthState) :
  depth_after (relax_calls this) ds = relaxed_depth this ds.
Proof.
  unfold relax_calls, relaxed_depth.
  destruct ds as [dt dw], (transparentDepthTest this), (transparentDepthMask this);
    cbn; rewrite ?andb_true_r, ?andb_false_r; reflexivity.
Qed.

Lemma depth_after_restore (this : SolidModel) (ds : DepthState) :
  depth_after (restore_calls this) (relaxed_depth this ds) = restored_depth this ds.
Proof.
  unfold restore_calls, relaxed_depth, restored_depth.
  destruct ds as [dt dw], (transparentDepthTest this), (transparentDepthMask this);
    cbn; rewrite ?andb_true_r, ?andb_false_r; reflexivity.
Qed.

Lemma bills_body_no_depth state bs parentMatrix ent :
  billboard_mesh_ok bs ->
  Forall (fun c => touches_depth c = false)
         (Gl.trace (bills_body state bs parentMatrix ent)).
Proof.
  intros (_ & _ & _ & _ & Hdraw & _). unfold bills_body.
  apply bind_Forall; [apply deref_Forall |]. intros sp.
  apply bind_Forall; [apply deref_Forall |]. intros bill.
  apply bind_Forall; [repeat constructor |]. intros _.
  apply bind_Forall; [apply deref_Forall |]. intros solMtrl.
  apply bind_Forall; [apply deref_Forall |]. intros cached.
  apply bind_Forall; [apply Mtrl_draw_no_depth |]. intros _. exact Hdraw.
Qed.

Lemma bills_body_result state bs parentMatrix ent :
  billboard_mesh_ok bs ->
  has_Billboard_Spatial_ModelMatrix ent = true ->
  (bill_resolves ent -> Gl.result (bills_body state bs parentMatrix ent) = Some tt) /\
  (~ bill_resolves ent -> Gl.result (bills_body state bs parentMatrix ent) = None).
Proof.
  intros (_ & Hdraw & _) Hq.
  unfold has_Billboard_Spatial_ModelMatrix in Hq.
  apply andb_true_iff in Hq as [Hq _]. apply andb_true_iff in Hq as [Hb Hs].
  apply bool_decide_eq_true in Hb as [bill Hbill], Hs as [sp Hsp].
  unfold bills_body. rewrite Hsp, Hbill, !bind_deref_Some.
  unfold Gl.bind at 1. cbn [Gl.issue Gl.result Gl.trace].
  split.
  - intros (bill' & solMtrl & m & Hb' & Hm & Hc).
    assert (bill' = bill) as -> by congruence.
    rewrite Hm, bind_deref_Some, Hc, bind_deref_Some.
    rewrite (proj1 (bind_ok _ _ tt (Mtrl_draw_ok m state))). exact Hdraw.
  - intros Hno.
    destruct (mtrl bill) as [solMtrl|] eqn:Hm; [| reflexivity].
    rewrite bind_deref_Some.
    destruct (_cachedMaterial solMtrl) as [m|] eqn:Hc; [| reflexivity].
    exfalso. apply Hno. exists bill, solMtrl, m. auto.
Qed.

Lemma bills_loop state bs parentMatrix (l : list Entity) :
  billboard_mesh_ok bs ->
  Forall (fun ent => has_Billboard_Spatial_ModelMatrix ent = true) l ->
  Forall (fun c => touches_depth c = false)
         (Gl.trace (Gl.for_each l (bills_body state bs parentMatrix))) /\
  (Forall bill_resolves l ->
   Gl.result (Gl.for_each l (bills_body state bs parentMatrix)) = Some tt) /\
  (Exists (fun ent => ~ bill_resolves ent) l ->
   Gl.result (Gl.for_each l (bills_body state bs parentMatrix)) = None).
Proof.
  intros Hmesh Hq. split; [| split].
  - apply for_each_Forall. intros ent _. apply bills_body_no_depth, Hmesh.
  - intros Hall. apply for_each_ok. intros ent Hin.
    rewrite Forall_forall in Hall, Hq.
    apply (bills_body_result state bs parentMatrix ent Hmesh (Hq ent Hin)), Hall, Hin.
  - intros Hex. induction Hex as [ent l Hno | ent l _ IH].
    + apply Forall_cons in Hq as [Hq _]. cbn [Gl.for_each]. unfold Gl.bind.
      rewrite (proj2 (bills_body_result state bs parentMatrix ent Hmesh Hq) Hno).
      reflexivity.
    + apply Forall_cons in Hq as [_ Hq]. cbn [Gl.for_each]. unfold Gl.bind.
      destruct (Gl.result (bills_body state bs parentMatrix ent)); [| reflexivity].
      cbn [Gl.result]. apply IH, Hq.
Qed.

Lemma drawBills_unfold (this : SolidModel) state bs parentMatrix ents :
  entities this = Some ents ->
  billboard_mesh_ok bs ->
  let loop := Gl.for_each
                (filter (fun ent => has_Billboard_Spatial_ModelMatrix ent = true) ents)
                (bills_body state bs parentMatrix) in
  match Gl.result loop with
  | Some _ =>
      Gl.result (drawBills this state bs parentMatrix) = Some tt /\
      Gl.trace (drawBills this state bs parentMatrix) =
        Gl.trace (billboardMesh_enableDraw bs) ++ relax_calls this ++ Gl.trace loop
        ++ restore_calls this ++ Gl.trace (billboardMesh_disableDraw bs)
  | None =>
      Gl.result (drawBills this state bs parentMatrix) = None /\
      Gl.trace (drawBills this state bs parentMatrix) =
        Gl.trace (billboardMesh_enableDraw bs) ++ relax_calls this ++ Gl.trace loop
  end.
Proof.
  intros Hents (Hen & _ & Hdis & _) loop.
  unfold drawBills. rewrite Hents, bind_deref_Some.
  change (fun ent => Gl.bind (Gl.deref (spatial ent)) _)
    with (bills_body state bs parentMatrix).
  fold loop. clearbody loop.
  unfold relax_calls, restore_calls, Gl.bind. rewrite Hen.
  destruct (transparentDepthTest this), (transparentDepthMask this);
    cbn [negb Gl.when Gl.ret Gl.issue Gl.result Gl.trace];
    destruct (Gl.result loop) as [[]|];
    cbn [negb Gl.when Gl.ret Gl.issue Gl.result Gl.trace]; rewrite ?Hdis;
    cbn [negb Gl.when Gl.ret Gl.issue Gl.result Gl.trace];
    (split; [reflexivity |]);
    rewrite ?app_nil_r; cbn [app]; rewrite <- ?app_assoc; reflexivity.
Qed.

(** X17. The billboard pass relaxes the depth state as the scene is
    configured, before the first billboard. When every billboard of the
    query has a material record with a material cached on it, the pass
    completes and what it relaxed of the depth test and the depth mask is
    on again at its end. When some billboard has no material record or no
    cached material, the pass throws and the depth state stays relaxed:
    nothing restores it. (The billboard mesh of the render state is
    assumed to complete and to leave the depth state alone.) *)
Theorem drawBills_depth (this : SolidModel) state bs parentMatrix
    (ents : list Entity) (ds : DepthState) :
  entities this = Some ents ->
  billboard_mesh_ok bs ->
  let queried := filter (fun ent => has_Billboard_Spatial_ModelMatrix ent = true) ents in
  (Forall bill_resolves queried ->
   Gl.result (drawBills this state bs parentMatrix) = Some tt /\
   depth_after (Gl.trace (drawBills this state bs parentMatrix)) ds
     = restored_depth this ds) /\
  (Exists (fun ent => ~ bill_resolves ent) queried ->
   Gl.result (drawBills this state bs parentMatrix) = None /\
   depth_after (Gl.trace (drawBills this state bs parentMatrix)) ds
     = relaxed_depth this ds).
Proof.
  intros Hents Hmesh queried.
  pose proof (drawBills_unfold this state bs parentMatrix ents Hents Hmesh) as Hun.
  cbv zeta in Hun. fold queried in Hun.
  assert (Hq : Forall (fun ent => has_Billboard_Spatial_ModelMatrix ent = true) queried).
  { apply Forall_forall. intros ent Hin.
    apply list_elem_of_filter in Hin as [Hin _]. exact Hin. }
  destruct (bills_loop state bs parentMatrix queried Hmesh Hq) as (Hloop & Hok & Hthrow).
  destruct Hmesh as (_ & _ & _ & Hen & _ & Hdis).
  split.
  - intros Hall. rewrite (Hok Hall) in Hun. destruct Hun as [Hr Ht].
    split; [exact Hr |]. rewrite Ht, !depth_after_app.
    rewrite (depth_after_untouched _ ds Hen), depth_after_relax.
    rewrite (depth_after_untouched _ _ Hloop), depth_after_restore.
    apply depth_after_untouched, Hdis.
  - intros Hex. rewrite (Hthrow Hex) in Hun. destruct Hun as [Hr Ht].
    split; [exact Hr |]. rewrite Ht, !depth_after_app.
    rewrite (depth_after_untouched _ ds Hen), depth_after_relax.
    apply depth_after_untouched, Hloop.
Qed.

Context {collab : Collaborators}.

(** X18. A billboard of a built scene whose material index is inside the
    level's materials refers to the material record at that index, with
    the material that the builder cached on that record, which equals the
    material at the same index of the scene. A billboard whose index is
    outside the level's materials has no material record, so the billboard
    pass cannot apply a material for it. *)
Theorem fromSol_billboard_material (sol : Sol) (heap : gmap MoverRef Mover)
    (solBill : SolBill) :
  let built := fromSol sol heap in
  let ent := fromSol_bill built.1.2 solBill in
  ((bill_mi solBill < length (mv sol))%nat ->
   bill_resolves ent /\
   (mtrl <$> billboard ent) = Some (mv built.1.2 !! bill_mi solBill) /\
   (mv built.1.2 !! bill_mi solBill ≫= _cachedMaterial) = Some (Mtrl.new tt) /\
   (materials built.1.1 ≫= (.!! bill_mi solBill)) = Some (Mtrl.new tt)) /\
  ((length (mv sol) <= bill_mi solBill)%nat ->
   (mtrl <$> billboard ent) = Some None /\ ~ bill_resolves ent).
Proof.
  intros built ent.
  assert (Hmv : mv built.1.2 =
                map (fun solMtrl => {| mtrl_record := mtrl_record solMtrl;
                                       _cachedMaterial := Some (Mtrl.new solMtrl) |}) (mv sol)).
  { unfold built, fromSol, fromSol_materials.
    destruct (fromSol_bodies _ _ _) as [[bodies bmodels] heap']. reflexivity. }
  assert (Hms : materials built.1.1 = Some (map (fun solMtrl => Mtrl.new solMtrl) (mv sol)))
    by apply fromSol_materials_spec.
  split.
  - intros Hlt.
    destruct (lookup_lt_is_Some_2 (mv sol) (bill_mi solBill) Hlt) as [solMtrl Hrec].
    assert (Hlook : mv built.1.2 !! bill_mi solBill =
                    Some {| mtrl_record := mtrl_record solMtrl;
                            _cachedMaterial := Some (Mtrl.new tt) |}).
    { rewrite Hmv, list_lookup_fmap, Hrec. reflexivity. }
    split; [| split; [| split]].
    + eexists _, _, _. split; [reflexivity |]. cbn [mtrl Billboard_fromSolBill].
      split; [exact Hlook | reflexivity].
    + reflexivity.
    + rewrite Hlook. reflexivity.
    + rewrite Hms. cbn [mbind option_bind]. rewrite list_lookup_fmap, Hrec. reflexivity.
  - intros Hge.
    assert (Hlook : mv built.1.2 !! bill_mi solBill = None).
    { apply lookup_ge_None_2. rewrite Hmv, length_map. exact Hge. }
    assert (Hm : (mtrl <$> billboard ent) = Some None).
    { unfold ent, fromSol_bill. cbn [billboard fmap option_fmap option_map mtrl
                                      Billboard_fromSolBill].
      rewrite Hlook. reflexivity. }
    split; [exact Hm |].
    intros (bill & solMtrl & m & Hb & Hmt & _). rewrite Hb in Hm.
    cbn in Hm. congruence.
Qed.

End BillPass.

Lemma billboard_mesh_ok_example : billboard_mesh_ok bill_state_example.
Proof. repeat split; repeat constructor. Qed.

(** A level whose only billboard names its only material: the pass
    completes and the depth mask, which scenes turn off for transparent
    geometry, is on again. With a second billboard that names a material
    the level does not have, the pass throws and the mask stays off. *)
Lemma drawBills_depth_witness :
  (Gl.result (SolidModel.drawBills (ops := ops_example)
                (SolidModel.fromSol (ops := ops_example) (collab := counting_movers)
                   (bill_level [0%nat]) ∅).1.1
                state0 bill_state_example None) = Some tt /\
   depth_after (Gl.trace (SolidModel.drawBills (ops := ops_example)
                (SolidModel.fromSol (ops := ops_example) (collab := counting_movers)
                   (bill_level [0%nat]) ∅).1.1
                state0 bill_state_example None))
               {| depth_test := true; depth_write := true |}
     = {| depth_test := true; depth_write := true |}) /\
  (Gl.result (SolidModel.drawBills (ops := ops_example)
                (SolidModel.fromSol (ops := ops_example) (collab := counting_movers)
                   (bill_level [0%nat; 1%nat]) ∅).1.1
                state0 bill_state_example None) = None /\
   depth_after (Gl.trace (SolidModel.drawBills (ops := ops_example)
                (SolidModel.fromSol (ops := ops_example) (collab := counting_movers)
                   (bill_level [0%nat; 1%nat]) ∅).1.1
                state0 bill_state_example None))
               {| depth_test := true; depth_write := true |}
     = {| depth_test := true; depth_write := false |}).
Proof.
  split.
  - refine (proj1 (drawBills_depth (ops := ops_example)
                     (SolidModel.fromSol (ops := ops_example) (collab := counting_movers)
                        (bill_level [0%nat]) ∅).1.1 state0 bill_state_example None
                     _ {| depth_test := true; depth_write := true |}
                     eq_refl billboard_mesh_ok_example) _).
    repeat constructor. eexists _, _, _. repeat split.
  - refine (proj2 (drawBills_depth (ops := ops_example)
                     (SolidModel.fromSol (ops := ops_example) (collab := counting_movers)
                        (bill_level [0%nat; 1%nat]) ∅).1.1 state0 bill_state_example None
                     _ {| depth_test := true; depth_write := true |}
                     eq_refl billboard_mesh_ok_example) _).
    right. left. intros (bill & solMtrl & m & Hb & Hm & _).
    injection Hb as <-. discriminate Hm.
Defined.

(** The billboard of the example level refers to the level's material. *)
Lemma fromSol_billboard_material_witness :
  (SolidModel.materials
     (SolidModel.fromSol (ops := ops_example) (collab := counting_movers)
        (bill_level [0%nat]) ∅).1.1 ≫= (.!! 0%nat)) = Some (Mtrl.new tt).
Proof.
  refine (proj2 (proj2 (proj2 (proj1 (fromSol_billboard_material (ops := ops_example)
                                        (collab := counting_movers)
                                        (bill_level [0%nat]) ∅ (bill_example 0)) _)))).
  cbn. lia.
Defined.

(** ** Textures of a scene *)

Section SceneTextures.

Variable mtrlImages : gmap string string.




End SceneTextures.

(** ** The frame clock *)

Local Open Scope R_scope.




Local Close Scope R_scope.
